(** * SoCal campsite tracker: a shallow embedding of the Python sources

    The first part embeds the code, module by module:

    - [Py]      : exceptions, the error monad and the string and list
                  helpers that the Python code relies on;
    - [PyDate]  : the proleptic Gregorian calendar of the standard [datetime]
                  and [calendar] modules (dates are ordinals, bounded by
                  [date.max]);
    - [Models]  : src/config/parks.py and src/database/models.py;
    - [PyFloat] : rounding to binary64 and the power of a [float];
    - [Limiter] : src/scraper/rate_limiter.py;
    - [Parser]  : src/scraper/reservation_parser.py, its normalization
                  functions and the text of the module;
    - [Direct]  : src/scraper/direct_scraper.py;
    - [Store]   : src/database/supabase_client.py;
    - [Db]      : the store client as the processor and the dashboard use it;
    - [Alerts]  : src/notifications/alert_rules.py and the part of
                  src/notifications/email_alerts.py it calls;
    - [Calendar]: src/dashboard/calendar_view.py;
    - [Parks], [ModelsRest], [Client], [Summary], [TokenBucket],
      [HostLimiter], [Crawl]: the rest of src/config/parks.py,
      src/database/models.py, src/database/supabase_client.py,
      src/notifications/alert_rules.py, src/scraper/rate_limiter.py and
      the query filters of src/scraper/crawl4ai_client.py.

    The second part states and proves the properties, one module of proofs
    per component.

    Floating point prices and durations are modelled by rationals, the
    exact values of the binary64 numbers; the float power of the backoff is
    rounded to binary64 and raises where Python raises ([PyFloat]). *)

From Stdlib Require Import ZArith QArith Qminmax List Bool String Ascii Lia.
From Stdlib Require Import DecimalString Sorted Lqa Qabs Qround.
Import ListNotations.

Local Open Scope string_scope.
Local Open Scope list_scope.
Local Open Scope Z_scope.

(** String concatenation, kept apart from list append. *)
Infix "+++" := String.append (right associativity, at level 60).

(* ================================================================== *)
(** * Exceptions, results and strings *)
(* ================================================================== *)

Module Py.

(** The exception classes the modelled code raises or catches. *)
Inductive exn : Type :=
| ValueError (msg : string)
| OverflowError (msg : string)
| AttributeError (msg : string)
| KeyError (msg : string)
| ValidationError (msg : string)
| SupabaseError (msg : string)
| SyntaxError (msg : string)
| ZeroDivisionError (msg : string).

(** Text of an exception, as [str(e)] gives it in a formatted message. *)
Definition exn_str (e : exn) : string :=
  match e with
  | ValueError m | OverflowError m | AttributeError m | KeyError m
  | ValidationError m | SupabaseError m | SyntaxError m
  | ZeroDivisionError m => m
  end.

(** A Python call either returns a value or raises. *)
Inductive result (A : Type) : Type :=
| Ok (a : A)
| Raise (e : exn).
Arguments Ok {A} a.
Arguments Raise {A} e.

Definition bind {A B} (r : result A) (k : A -> result B) : result B :=
  match r with
  | Ok a => k a
  | Raise e => Raise e
  end.

Definition is_ok {A} (r : result A) : bool :=
  match r with Ok _ => true | Raise _ => false end.

(** [try: body except Exception as e: handler(e)] *)
Definition try_except {A} (body : result A) (handler : exn -> result A)
  : result A :=
  match body with
  | Ok a => Ok a
  | Raise e => handler e
  end.

(** ** Strings *)

Definition is_upper (c : ascii) : bool :=
  let n := nat_of_ascii c in (65 <=? n)%nat && (n <=? 90)%nat.

Definition lower_ascii (c : ascii) : ascii :=
  if is_upper c then ascii_of_nat (nat_of_ascii c + 32) else c.

(** [str.lower] on ASCII text. *)
Fixpoint lower (s : string) : string :=
  match s with
  | EmptyString => EmptyString
  | String c s' => String (lower_ascii c) (lower s')
  end.

(** The ASCII characters [str.strip] removes: space, \t, \n, \v, \f, \r and
    the separators \x1c..\x1f. *)
Definition is_space (c : ascii) : bool :=
  let n := nat_of_ascii c in
  (n =? 32)%nat || ((9 <=? n)%nat && (n <=? 13)%nat)
  || ((28 <=? n)%nat && (n <=? 31)%nat).

Fixpoint lstrip (s : string) : string :=
  match s with
  | EmptyString => EmptyString
  | String c s' => if is_space c then lstrip s' else s
  end.

Fixpoint rstrip (s : string) : string :=
  match s with
  | EmptyString => EmptyString
  | String c s' =>
      match rstrip s' with
      | EmptyString => if is_space c then EmptyString else String c EmptyString
      | r => String c r
      end
  end.

Definition strip (s : string) : string := rstrip (lstrip s).

(** [key in s] on strings: substring containment. *)
Fixpoint contains (key s : string) : bool :=
  prefix key s ||
  match s with
  | EmptyString => false
  | String _ s' => contains key s'
  end.

(** [str(n)] for a non-negative integer. *)
Definition str_of_Z (n : Z) : string :=
  NilZero.string_of_uint (N.to_uint (Z.to_N n)).

(** [f"{n:02d}"] and [f"{n:04d}"] for a non-negative integer. *)
Definition zfill (width : nat) (s : string) : string :=
  let fix pad (k : nat) : string :=
    match k with
    | O => s
    | S k' => String "0"%char (pad k')
    end in
  pad (width - String.length s)%nat.

Fixpoint join (sep : string) (l : list string) : string :=
  match l with
  | [] => EmptyString
  | [x] => x
  | x :: rest => x +++ sep +++ join sep rest
  end.

(** [range(0, stop, step)] for a positive step. *)
Definition range_step (stop step : nat) : list nat :=
  map (fun k => (k * step)%nat) (seq 0 ((stop + step - 1) / step)).

(** The slice [l[i:j]]. *)
Definition slice {A} (l : list A) (i j : nat) : list A :=
  firstn (j - i) (skipn i l).

(** [[l[i:i + size] for i in range(0, len(l), size)]] *)
Definition chunks {A} (size : nat) (l : list A) : list (list A) :=
  map (fun i => slice l i (i + size)) (range_step (List.length l) size).

End Py.
Import Py.

Declare Scope py_scope.
Notation "x <- c1 ;; c2" := (bind c1 (fun x => c2))
  (at level 61, c1 at next level, right associativity) : py_scope.
Local Open Scope py_scope.

(* ================================================================== *)
(** * The calendar of [datetime.date] and [calendar.monthrange] *)
(* ================================================================== *)

Module PyDate.

Definition MINYEAR : Z := 1.
Definition MAXYEAR : Z := 9999.

(** [date.max.toordinal()], the ordinal of 9999-12-31. *)
Definition MAXORDINAL : Z := 3652059.

Definition is_leap (year : Z) : bool :=
  (year mod 4 =? 0) && (negb (year mod 100 =? 0) || (year mod 400 =? 0)).

Definition days_before_year (year : Z) : Z :=
  let y := year - 1 in
  y * 365 + y / 4 - y / 100 + y / 400.

(** [calendar.mdays] / [datetime._DAYS_IN_MONTH], for a common year. *)
Definition mdays (month : Z) : Z :=
  match month with
  | 1 => 31 | 2 => 28 | 3 => 31 | 4 => 30 | 5 => 31 | 6 => 30
  | 7 => 31 | 8 => 31 | 9 => 30 | 10 => 31 | 11 => 30 | 12 => 31
  | _ => 0
  end.

Definition days_in_month (year month : Z) : Z :=
  if (month =? 2) && is_leap year then 29 else mdays month.

(** [datetime._DAYS_BEFORE_MONTH] *)
Definition days_before_month_table (month : Z) : Z :=
  match month with
  | 1 => 0 | 2 => 31 | 3 => 59 | 4 => 90 | 5 => 120 | 6 => 151
  | 7 => 181 | 8 => 212 | 9 => 243 | 10 => 273 | 11 => 304 | 12 => 334
  | _ => 0
  end.

Definition days_before_month (year month : Z) : Z :=
  days_before_month_table month
  + (if (2 <? month) && is_leap year then 1 else 0).

Definition ymd2ord (year month day : Z) : Z :=
  days_before_year year + days_before_month year month + day.

(** A [date] object is represented by its proleptic Gregorian ordinal;
    comparison and subtraction of dates are those of the ordinals. *)
Definition date := Z.

(** [date(year, month, day)] *)
Definition mkdate (year month day : Z) : result date :=
  if negb ((MINYEAR <=? year) && (year <=? MAXYEAR)) then
    Raise (ValueError "year is out of range")
  else if negb ((1 <=? month) && (month <=? 12)) then
    Raise (ValueError "month must be in 1..12")
  else if negb ((1 <=? day) && (day <=? days_in_month year month)) then
    Raise (ValueError "day is out of range for month")
  else Ok (ymd2ord year month day).

(** [calendar.monthrange(year, month)[1]] *)
Definition monthrange_ndays (year month : Z) : result Z :=
  if negb ((1 <=? month) && (month <=? 12)) then
    Raise (ValueError "bad month number; must be 1-12")
  else Ok (mdays month + (if (month =? 2) && is_leap year then 1 else 0)).

(** [d.weekday()]: Monday is 0 and Sunday is 6. *)
Definition weekday (d : date) : Z := (d + 6) mod 7.

(** [date.fromordinal(n)] *)
Definition fromordinal (n : Z) : result date :=
  if (1 <=? n) && (n <=? MAXORDINAL) then Ok n
  else Raise (ValueError "ordinal or year is out of range").

(** [d + timedelta(days=n)] *)
Definition add_days (d : date) (n : Z) : result date :=
  let o := d + n in
  if (0 <? o) && (o <=? MAXORDINAL) then Ok o
  else Raise (OverflowError "date value out of range").

(** [(d1 - d2).days] *)
Definition days_between (d1 d2 : date) : Z := d1 - d2.

(** [datetime._ord2ymd] *)
Definition DI400Y : Z := 146097.
Definition DI100Y : Z := 36524.
Definition DI4Y : Z := 1461.

Definition ord2ymd (ordinal : Z) : Z * Z * Z :=
  let n := ordinal - 1 in
  let n400 := n / DI400Y in
  let n := n mod DI400Y in
  let year := n400 * 400 + 1 in
  let n100 := n / DI100Y in
  let n := n mod DI100Y in
  let n4 := n / DI4Y in
  let n := n mod DI4Y in
  let n1 := n / 365 in
  let n := n mod 365 in
  let year := year + n100 * 100 + n4 * 4 + n1 in
  if (n1 =? 4) || (n100 =? 4) then (year - 1, 12, 31)
  else
    let leapyear := (n1 =? 3) && (negb (n4 =? 24) || (n100 =? 3)) in
    let month := Z.shiftr (n + 50) 5 in
    let preceding :=
      days_before_month_table month
      + (if (2 <? month) && leapyear then 1 else 0) in
    if n <? preceding then
      let month' := month - 1 in
      let preceding' :=
        preceding
        - (mdays month' + (if (month' =? 2) && leapyear then 1 else 0)) in
      (year, month', n - preceding' + 1)
    else (year, month, n - preceding + 1).

Definition year_of (d : date) : Z := fst (fst (ord2ymd d)).
Definition month_of (d : date) : Z := snd (fst (ord2ymd d)).
Definition day_of (d : date) : Z := snd (ord2ymd d).

(** [d.isoformat()], also [str(d)] *)
Definition isoformat (d : date) : string :=
  zfill 4 (str_of_Z (year_of d)) +++ "-" +++ zfill 2 (str_of_Z (month_of d))
  +++ "-" +++ zfill 2 (str_of_Z (day_of d)).

(** [d.strftime('%m%d')] *)
Definition strftime_md (d : date) : string :=
  zfill 2 (str_of_Z (month_of d)) +++ zfill 2 (str_of_Z (day_of d)).

End PyDate.
Import PyDate.

(* ================================================================== *)
(** * src/config/parks.py and src/database/models.py *)
(* ================================================================== *)

Module Models.

(** [class ParkEnum(str, Enum)] *)
Inductive ParkEnum : Type := JOSHUA_TREE | CARLSBAD | OCEANSIDE.

(** [class SiteTypeEnum(str, Enum)] *)
Inductive SiteTypeEnum : Type := TENT | RV | CABIN | GROUP | DAY_USE.

(** [class AvailabilityStatus(str, Enum)] *)
Inductive AvailabilityStatus : Type :=
  AVAILABLE | BOOKED | CLOSED | MAINTENANCE | UNKNOWN.

(** [class NotificationStatus(str, Enum)] *)
Inductive NotificationStatus : Type := PENDING | SENT | FAILED | SKIPPED.

(** The [.value] of each member. *)
Definition park_value (p : ParkEnum) : string :=
  match p with
  | JOSHUA_TREE => "joshua_tree"
  | CARLSBAD => "carlsbad"
  | OCEANSIDE => "oceanside"
  end.

Definition site_type_value (t : SiteTypeEnum) : string :=
  match t with
  | TENT => "tent" | RV => "rv" | CABIN => "cabin" | GROUP => "group"
  | DAY_USE => "day_use"
  end.

Definition status_value (s : AvailabilityStatus) : string :=
  match s with
  | AVAILABLE => "available" | BOOKED => "booked" | CLOSED => "closed"
  | MAINTENANCE => "maintenance" | UNKNOWN => "unknown"
  end.

Definition park_eqb (a b : ParkEnum) : bool :=
  match a, b with
  | JOSHUA_TREE, JOSHUA_TREE | CARLSBAD, CARLSBAD | OCEANSIDE, OCEANSIDE => true
  | _, _ => false
  end.

Definition site_type_eqb (a b : SiteTypeEnum) : bool :=
  match a, b with
  | TENT, TENT | RV, RV | CABIN, CABIN | GROUP, GROUP | DAY_USE, DAY_USE => true
  | _, _ => false
  end.

Definition status_eqb (a b : AvailabilityStatus) : bool :=
  match a, b with
  | AVAILABLE, AVAILABLE | BOOKED, BOOKED | CLOSED, CLOSED
  | MAINTENANCE, MAINTENANCE | UNKNOWN, UNKNOWN => true
  | _, _ => false
  end.

Definition nstatus_eqb (a b : NotificationStatus) : bool :=
  match a, b with
  | PENDING, PENDING | SENT, SENT | FAILED, FAILED | SKIPPED, SKIPPED => true
  | _, _ => false
  end.

(** What an enum-typed attribute of a model instance holds.  Every model
    sets [Config.use_enum_values = True], so validation stores the member's
    [.value], a plain [str]; an [Enum] member is only there when the
    attribute was assigned after construction.  Since the enums derive from
    [str], [==], [in] and hashing go by the value in both cases; the
    attribute [.value] exists on a member only. *)
Inductive field (A : Type) : Type :=
| Member (a : A)
| Plain (a : A).
Arguments Member {A} a.
Arguments Plain {A} a.

Definition fval {A} (x : field A) : A :=
  match x with Member a | Plain a => a end.

(** [x.value] *)
Definition dot_value {A} (value_of : A -> string) (x : field A)
  : result string :=
  match x with
  | Member a => Ok (value_of a)
  | Plain _ => Raise (AttributeError "'str' object has no attribute 'value'")
  end.

(** Python truthiness of an [Optional[float]]: [None] and [0.0] are falsy. *)
Definition truthy_float (x : option Q) : bool :=
  match x with
  | None => false
  | Some q => negb (Qeq_bool q 0)
  end.

(** [class CampsiteAvailability(BaseModel)].  [scraped_at] is a timestamp in
    seconds. *)
Record CampsiteAvailability : Type := {
  park : field ParkEnum;
  site_id : string;
  site_name : string;
  site_type : field SiteTypeEnum;
  check_in_date : date;
  status : field AvailabilityStatus;
  price : option Q;
  max_occupancy : option Z;
  amenities : list string;
  scraped_at : Z;
  url : option string
}.

(** Values passed as keyword arguments to a model constructor. *)
Inductive pyval : Type :=
| VNone
| VStr (s : string)
| VInt (n : Z)
| VFloat (q : Q)
| VDate (d : date)
| VDatetime (t : Z)
| VPark (p : ParkEnum)
| VSiteType (t : SiteTypeEnum)
| VStatus (s : AvailabilityStatus)
| VStrList (l : list string).

Definition kwargs := list (string * pyval).

(** Look up a keyword; the last binding does not arise, keywords are
    unique in a call. *)
Fixpoint kw (name : string) (args : kwargs) : option pyval :=
  match args with
  | [] => None
  | (k, v) :: rest => if String.eqb k name then Some v else kw name rest
  end.

Definition invalid {A} (msg : string) : result A :=
  Raise (ValidationError msg).

(** Coercion of an argument to an enum: a member, or the text of its value. *)
Definition all_parks : list ParkEnum := [JOSHUA_TREE; CARLSBAD; OCEANSIDE].
Definition all_site_types : list SiteTypeEnum := [TENT; RV; CABIN; GROUP; DAY_USE].
Definition all_statuses : list AvailabilityStatus :=
  [AVAILABLE; BOOKED; CLOSED; MAINTENANCE; UNKNOWN].

Definition enum_of_value {A} (members : list A) (value_of : A -> string)
  (s : string) : option A :=
  find (fun m => String.eqb (value_of m) s) members.

Definition coerce_park (v : option pyval) : result (field ParkEnum) :=
  match v with
  | Some (VPark p) => Ok (Plain p)
  | Some (VStr s) =>
      match enum_of_value all_parks park_value s with
      | Some p => Ok (Plain p)
      | None => invalid "park: value is not a valid enumeration member"
      end
  | _ => invalid "park: field required or not an enumeration member"
  end.

Definition coerce_site_type (v : option pyval) : result (field SiteTypeEnum) :=
  match v with
  | Some (VSiteType t) => Ok (Plain t)
  | Some (VStr s) =>
      match enum_of_value all_site_types site_type_value s with
      | Some t => Ok (Plain t)
      | None => invalid "site_type: value is not a valid enumeration member"
      end
  | _ => invalid "site_type: field required or not an enumeration member"
  end.

Definition coerce_status (v : option pyval)
  : result (field AvailabilityStatus) :=
  match v with
  | Some (VStatus s) => Ok (Plain s)
  | Some (VStr s) =>
      match enum_of_value all_statuses status_value s with
      | Some t => Ok (Plain t)
      | None => invalid "status: value is not a valid enumeration member"
      end
  | _ => invalid "status: field required or not an enumeration member"
  end.

(** [validate_not_empty] *)
Definition validate_not_empty (v : option pyval) : result string :=
  match v with
  | Some (VStr s) =>
      if String.eqb s EmptyString || String.eqb (strip s) EmptyString then
        invalid "Field cannot be empty"
      else Ok (strip s)
  | _ => invalid "field required or not a string"
  end.

(** [validate_future_date] *)
Definition validate_future_date (today : date) (v : option pyval)
  : result date :=
  match v with
  | Some (VDate d) =>
      if d <? today then
        invalid "Check-in date must be today or in the future"
      else Ok d
  | _ => invalid "check_in_date: field required or not a date"
  end.

Definition coerce_price (v : option pyval) : result (option Q) :=
  match v with
  | None | Some VNone => Ok None
  | Some (VFloat q) =>
      if Qle_bool 0 q then Ok (Some q) else invalid "price: must be >= 0"
  | Some (VInt n) =>
      if 0 <=? n then Ok (Some (inject_Z n)) else invalid "price: must be >= 0"
  | _ => invalid "price: not a number"
  end.

Definition coerce_max_occupancy (v : option pyval) : result (option Z) :=
  match v with
  | None | Some VNone => Ok None
  | Some (VInt n) =>
      if (1 <=? n) && (n <=? 50) then Ok (Some n)
      else invalid "max_occupancy: must be in 1..50"
  | _ => invalid "max_occupancy: not an integer"
  end.

Definition coerce_amenities (v : option pyval) : result (list string) :=
  match v with
  | None => Ok []
  | Some (VStrList l) => Ok l
  | _ => invalid "amenities: not a list of strings"
  end.

Definition coerce_scraped_at (now : Z) (v : option pyval) : result Z :=
  match v with
  | None => Ok now
  | Some (VDatetime t) => Ok t
  | _ => invalid "scraped_at: not a datetime"
  end.

Definition coerce_url (v : option pyval) : result (option string) :=
  match v with
  | None | Some VNone => Ok None
  | Some (VStr s) => Ok (Some s)
  | _ => invalid "url: not a string"
  end.

(** The constructor [CampsiteAvailability] called with keyword arguments: each declared field is read from the
    keywords, validated and stored; a keyword that names no declared field
    is never read (the model configuration leaves [extra] at its default,
    which ignores such keywords).  [today] is [date.today()] and [now] is
    [datetime.utcnow()] at the time of the call. *)
Definition new_CampsiteAvailability (today : date) (now : Z) (args : kwargs)
  : result CampsiteAvailability :=
  p <- coerce_park (kw "park" args) ;;
  sid <- validate_not_empty (kw "site_id" args) ;;
  sname <- validate_not_empty (kw "site_name" args) ;;
  st <- coerce_site_type (kw "site_type" args) ;;
  d <- validate_future_date today (kw "check_in_date" args) ;;
  s <- coerce_status (kw "status" args) ;;
  pr <- coerce_price (kw "price" args) ;;
  occ <- coerce_max_occupancy (kw "max_occupancy" args) ;;
  am <- coerce_amenities (kw "amenities" args) ;;
  at_ <- coerce_scraped_at now (kw "scraped_at" args) ;;
  u <- coerce_url (kw "url" args) ;;
  Ok {| park := p; site_id := sid; site_name := sname; site_type := st;
        check_in_date := d; status := s; price := pr; max_occupancy := occ;
        amenities := am; scraped_at := at_; url := u |}.

(** [class AlertRule(BaseModel)]; the enum lists hold the members' values. *)
Record AlertRule : Type := {
  rule_id : option string;
  user_email : string;
  rule_parks : list ParkEnum;
  rule_site_types : list SiteTypeEnum;
  weekend_only : bool;
  min_nights : Z;
  max_price : option Q;
  advance_notice_days : Z;
  is_active : bool
}.

(** [class NotificationRecord(BaseModel)] *)
Record NotificationRecord : Type := {
  alert_rule_id : string;
  campsite_availability_key : string;
  recipient_email : string;
  n_park : ParkEnum;
  n_site_id : string;
  n_check_in_date : date;
  n_status : NotificationStatus;
  sent_at : option Z;
  error_message : option string;
  retry_count : Z;
  created_at : Z
}.

(** [class CampsiteSearchQuery(BaseModel)] *)
Record CampsiteSearchQuery : Type := {
  q_parks : list ParkEnum;
  start_date : date;
  end_date : date;
  q_site_types : option (list SiteTypeEnum);
  q_max_price : option Q;
  min_occupancy : option Z;
  q_weekend_only : bool
}.

(** [validate_start_date]: [Raise] when the start date is in the past. *)
Definition validate_start_date (today v : date) : result date :=
  if v <? today then invalid "Start date cannot be in the past" else Ok v.

(** [validate_date_range]: [values] holds the start date only when that
    field passed its own validation. *)
Definition validate_date_range (v : date) (values_start : option date)
  : result date :=
  match values_start with
  | Some s => if v <=? s then invalid "End date must be after start date"
              else Ok v
  | None => Ok v
  end.

Definition to_option {A} (r : result A) : option A :=
  match r with Ok a => Some a | Raise _ => None end.

(** [CampsiteSearchQuery(parks=..., start_date=..., ...)]: the fields are
    validated in declaration order, every field is tried, and the
    constructor raises one [ValidationError] if any of them failed. *)
Definition new_CampsiteSearchQuery (today : date) (parks : list ParkEnum)
  (start_ end_ : date) (site_types : option (list SiteTypeEnum))
  (max_price_ : option Q) (min_occupancy_ : option Z) (weekend_only_ : bool)
  : result CampsiteSearchQuery :=
  let r_parks : result (list ParkEnum) :=
    match parks with
    | [] => invalid "parks: ensure this value has at least 1 items"
    | _ => Ok parks
    end in
  let r_start := validate_start_date today start_ in
  let r_end := validate_date_range end_ (to_option r_start) in
  let r_price : result (option Q) :=
    match max_price_ with
    | Some q => if Qle_bool 0 q then Ok max_price_
                else invalid "max_price: must be >= 0"
    | None => Ok None
    end in
  let r_occ : result (option Z) :=
    match min_occupancy_ with
    | Some n => if 1 <=? n then Ok min_occupancy_
                else invalid "min_occupancy: must be >= 1"
    | None => Ok None
    end in
  ps <- r_parks ;;
  s <- r_start ;;
  e <- r_end ;;
  mp <- r_price ;;
  mo <- r_occ ;;
  Ok {| q_parks := ps; start_date := s; end_date := e;
        q_site_types := site_types; q_max_price := mp; min_occupancy := mo;
        q_weekend_only := weekend_only_ |}.

(** The [while] loop of [get_date_range]; [None] when the fuel runs out. *)
Fixpoint date_range_loop (fuel : nat) (weekend_only_ : bool) (end_ : date)
  (current : date) (dates : list date) : option (result (list date)) :=
  match fuel with
  | O => None
  | S fuel' =>
      if current <=? end_ then
        let dates' :=
          if negb weekend_only_ || (5 <=? weekday current)
          then dates ++ [current] else dates in
        match fromordinal (current + 1) with
        | Raise e => Some (Raise e)
        | Ok next => date_range_loop fuel' weekend_only_ end_ next dates'
        end
      else Some (Ok dates)
  end.

(** [CampsiteSearchQuery.get_date_range], run with the given fuel. *)
Definition get_date_range_fuel (fuel : nat) (q : CampsiteSearchQuery)
  : option (result (list date)) :=
  date_range_loop fuel (q_weekend_only q) (end_date q) (start_date q) [].

(** Enough iterations for any query: one per day of the range and one for
    the exit test. *)
Definition get_date_range (q : CampsiteSearchQuery)
  : option (result (list date)) :=
  get_date_range_fuel (S (Z.to_nat (end_date q + 1 - start_date q))) q.

End Models.
Import Models.

(* ================================================================== *)
(** * Binary64 rounding and [float ** int] *)
(* ================================================================== *)

Module PyFloat.

Local Open Scope Q_scope.

(** [floor(log2 |q|)] for a [q] that is not zero. *)
Definition ilog2 (q : Q) : Z :=
  let e := (Z.log2 (Z.abs (Qnum q)) - Z.log2 (Zpos (Qden q)))%Z in
  if Qle_bool (2 ^ e) (Qabs q) then e else (e - 1)%Z.

(** The integer nearest to a non-negative [q], ties to the even one. *)
Definition round_half_even (q : Q) : Z :=
  let f := Qfloor q in
  match Qcompare (q - inject_Z f) (1 # 2) with
  | Lt => f
  | Gt => (f + 1)%Z
  | Eq => if Z.even f then f else (f + 1)%Z
  end.

(** The exponent of the smallest subnormal number. *)
Definition MIN_EXP : Z := -1074.

(** The binary64 number nearest to [q] (53 bits of mantissa, ties to even,
    gradual underflow to zero), as its exact value; [None] when [q] rounds
    beyond the largest finite number. *)
Definition round64 (q : Q) : option Q :=
  if Qeq_bool q 0 then Some 0
  else
    let e := Z.max (ilog2 q - 52) MIN_EXP in
    let m := round_half_even (Qabs q / 2 ^ e) in
    let r := Qred (inject_Z m * 2 ^ e) in
    if Qle_bool (2 ^ 1024) r then None
    else Some (if Qle_bool 0 q then r else - r).

(** [float(n)] for an [int]. *)
Definition float_of_int (n : Z) : result Q :=
  match round64 (inject_Z n) with
  | Some r => Ok r
  | None => Raise (OverflowError "int too large to convert to float")
  end.

(** [x ** n] for a finite [float] [x] and an [int] [n], as CPython's
    [float_pow] computes it: the exponent is converted to a [float], a
    zero exponent gives 1.0, zero to a negative power raises, and the
    result of the C function [pow], taken as correctly rounded, raises
    [OverflowError] when it is infinite; an underflow gives zero. *)
Definition float_pow (x : Q) (n : Z) : result Q :=
  w <- float_of_int n ;;
  let k := Qfloor w in
  if (k =? 0)%Z then Ok 1
  else if Qeq_bool x 0 then
    if (k <? 0)%Z then
      Raise (ZeroDivisionError "0.0 cannot be raised to a negative power")
    else Ok 0
  else
    match round64 (x ^ k) with
    | Some r => Ok r
    | None => Raise (OverflowError "(34, 'Numerical result out of range')")
    end.

End PyFloat.
Import PyFloat.

(* ================================================================== *)
(** * src/scraper/rate_limiter.py *)
(* ================================================================== *)

Module Limiter.

Local Open Scope Q_scope.

(** The attributes of a [RateLimiter]; times are seconds on the clock the
    caller reads ([time.time()], [datetime.utcnow()]). *)
Record RateLimiter : Type := {
  requests_per_minute : Z;
  burst_size : Z;
  backoff_multiplier : Q;
  max_backoff_seconds : Q;
  tokens : Q;
  last_update : Q;
  token_rate : Q;
  consecutive_errors : Z;
  last_error_time : option Q
}.

(** [min(a, b)]: the first argument unless the second is smaller. *)
Definition py_min (a b : Q) : Q := if Qle_bool a b then a else b.

(** [RateLimiter.__init__]; [burst_size or requests_per_minute] also
    replaces a burst size of 0. *)
Definition init (now : Q) (requests_per_minute_ : Z) (burst_size_ : option Z)
  (backoff_multiplier_ max_backoff_seconds_ : Q) : RateLimiter :=
  let burst :=
    match burst_size_ with
    | Some b => if (b =? 0)%Z then requests_per_minute_ else b
    | None => requests_per_minute_
    end in
  {| requests_per_minute := requests_per_minute_;
     burst_size := burst;
     backoff_multiplier := backoff_multiplier_;
     max_backoff_seconds := max_backoff_seconds_;
     tokens := inject_Z burst;
     last_update := now;
     token_rate := inject_Z requests_per_minute_ / 60;
     consecutive_errors := 0;
     last_error_time := None |}.

(** The defaults of the constructor: 2 requests per minute, multiplier 2.0,
    at most 300 seconds of backoff. *)
Definition default (now : Q) : RateLimiter := init now 2 None 2 300.

(** [_update_tokens] *)
Definition _update_tokens (now : Q) (rl : RateLimiter) : RateLimiter :=
  let elapsed := now - last_update rl in
  let new_tokens := elapsed * token_rate rl in
  {| requests_per_minute := requests_per_minute rl;
     burst_size := burst_size rl;
     backoff_multiplier := backoff_multiplier rl;
     max_backoff_seconds := max_backoff_seconds rl;
     tokens := py_min (inject_Z (burst_size rl)) (tokens rl + new_tokens);
     last_update := now;
     token_rate := token_rate rl;
     consecutive_errors := consecutive_errors rl;
     last_error_time := last_error_time rl |}.

(** The expression both [handle_error] and [is_backing_off] bind to
    [backoff_time]; the power is a [float] power and can raise. *)
Definition backoff_time (rl : RateLimiter) : result Q :=
  power <- float_pow (backoff_multiplier rl) (consecutive_errors rl - 1) ;;
  Ok (py_min power (max_backoff_seconds rl)).

Definition set_errors (rl : RateLimiter) (errors : Z) (t : option Q)
  : RateLimiter :=
  {| requests_per_minute := requests_per_minute rl;
     burst_size := burst_size rl;
     backoff_multiplier := backoff_multiplier rl;
     max_backoff_seconds := max_backoff_seconds rl;
     tokens := tokens rl;
     last_update := last_update rl;
     token_rate := token_rate rl;
     consecutive_errors := errors;
     last_error_time := t |}.

(** [handle_error]: the new state, and the duration handed to
    [asyncio.sleep] or the exception raised by the power, which comes
    after the two assignments. *)
Definition handle_error (now : Q) (rl : RateLimiter)
  : RateLimiter * result Q :=
  let rl' := set_errors rl (consecutive_errors rl + 1) (Some now) in
  (rl', backoff_time rl').

(** [handle_success] *)
Definition handle_success (rl : RateLimiter) : RateLimiter :=
  if (0 <? consecutive_errors rl)%Z then set_errors rl 0 None else rl.

(** The property [is_backing_off], read at time [now]. *)
Definition is_backing_off (now : Q) (rl : RateLimiter) : result bool :=
  match last_error_time rl with
  | None => Ok false
  | Some t =>
      backoff <- backoff_time rl ;;
      Ok (negb (Qle_bool backoff (now - t)))
  end.


End Limiter.

(* ================================================================== *)
(** * src/scraper/reservation_parser.py *)
(* ================================================================== *)

Module Parser.

(** ** The normalization tables and functions, as written *)

(** [self.status_mapping], in insertion order (the order [dict.items()]
    iterates in). *)
Definition status_mapping : list (string * AvailabilityStatus) :=
  [ ("available", AVAILABLE);
    ("open", AVAILABLE);
    ("a", AVAILABLE);
    ("booked", BOOKED);
    ("reserved", BOOKED);
    ("r", BOOKED);
    ("closed", CLOSED);
    ("c", CLOSED);
    ("maintenance", MAINTENANCE);
    ("m", MAINTENANCE);
    ("unavailable", BOOKED);
    ("na", BOOKED) ].

(** [self.site_type_mapping], in insertion order. *)
Definition site_type_mapping : list (string * SiteTypeEnum) :=
  [ ("tent", TENT);
    ("rv", RV);
    ("cabin", CABIN);
    ("group", GROUP);
    ("day use", DAY_USE);
    ("standard", TENT);
    ("electric", RV);
    ("primitive", TENT);
    ("hookup", RV);
    ("full hookup", RV);
    ("partial hookup", RV) ].

(** The loop [for key, enum_value in mapping.items(): if test: return
    enum_value], followed by [return default]. *)
Fixpoint first_match {V} (test : string -> bool) (items : list (string * V))
  (default : V) : V :=
  match items with
  | [] => default
  | (key, enum_value) :: rest =>
      if test key then enum_value else first_match test rest default
  end.

(** [_normalize_status], on a [str] argument. *)
Definition _normalize_status (status_raw : string) : AvailabilityStatus :=
  if String.eqb status_raw EmptyString then UNKNOWN
  else
    let status_str := strip (lower status_raw) in
    first_match
      (fun key => String.eqb key status_str || contains key status_str)
      status_mapping UNKNOWN.

(** [_normalize_site_type], on a [str] argument. *)
Definition _normalize_site_type (site_type_raw : string) : SiteTypeEnum :=
  if String.eqb site_type_raw EmptyString then TENT
  else
    let site_type_str := strip (lower site_type_raw) in
    first_match (fun key => contains key site_type_str) site_type_mapping TENT.

(** [_infer_site_type] *)
Definition _infer_site_type (text : string) : SiteTypeEnum :=
  let text := lower text in
  if existsb (fun keyword => contains keyword text)
       ["rv"; "hookup"; "electric"; "sewer"] then RV
  else if existsb (fun keyword => contains keyword text)
       ["cabin"; "lodge"; "yurt"] then CABIN
  else if existsb (fun keyword => contains keyword text)
       ["group"; "large"] then GROUP
  else TENT.

(** ** The text of the module and the bracket discipline of the lexer *)

(** The double quote character, as a one-character string. *)
Definition dq : string := String (ascii_of_nat 34) EmptyString.

(** The physical lines of reservation_parser.py, line 1 first. *)
Definition reservation_parser_py : list string :=
  [ dq +++ dq +++ dq;
  "Reservation data parser for ReserveCalifornia.com.";
  EmptyString;
  "Handles parsing of HTML content and JSON responses from the California";
  "state park reservation system to extract campsite availability data.";
  dq +++ dq +++ dq;
  EmptyString;
  "import re";
  "import json";
  "import logging";
  "from typing import List, Dict, Any, Optional, Tuple";
  "from datetime import datetime, date";
  "from urllib.parse import urljoin, parse_qs, urlparse";
  EmptyString;
  "from bs4 import BeautifulSoup, Tag";
  "from pydantic import ValidationError";
  EmptyString;
  "from ..config.parks import ParkEnum, get_park_info";
  "from ..database.models import CampsiteAvailability, SiteTypeEnum, AvailabilityStatus";
  EmptyString;
  "logger = logging.getLogger(__name__)";
  EmptyString;
  EmptyString;
  "class ReservationParser:";
  "    " +++ dq +++ dq +++ dq;
  "    Parser for ReserveCalifornia.com content.";
  "    ";
  "    Handles the specific HTML structure and JavaScript data formats";
  "    used by the California state park reservation system.";
  "    " +++ dq +++ dq +++ dq;
  "    ";
  "    def __init__(self):";
  "        " +++ dq +++ dq +++ dq +++ "Initialize the parser." +++ dq +++ dq +++ dq;
  "        self.site_type_mapping = {";
  "            " +++ dq +++ "tent" +++ dq +++ ": SiteTypeEnum.TENT,";
  "            " +++ dq +++ "rv" +++ dq +++ ": SiteTypeEnum.RV,";
  "            " +++ dq +++ "cabin" +++ dq +++ ": SiteTypeEnum.CABIN,";
  "            " +++ dq +++ "group" +++ dq +++ ": SiteTypeEnum.GROUP,";
  "            " +++ dq +++ "day use" +++ dq +++ ": SiteTypeEnum.DAY_USE,";
  "            " +++ dq +++ "standard" +++ dq +++ ": SiteTypeEnum.TENT,  # Default mapping";
  "            " +++ dq +++ "electric" +++ dq +++ ": SiteTypeEnum.RV,";
  "            " +++ dq +++ "primitive" +++ dq +++ ": SiteTypeEnum.TENT,";
  "            " +++ dq +++ "hookup" +++ dq +++ ": SiteTypeEnum.RV,";
  "            " +++ dq +++ "full hookup" +++ dq +++ ": SiteTypeEnum.RV,";
  "            " +++ dq +++ "partial hookup" +++ dq +++ ": SiteTypeEnum.RV";
  "        }";
  "        ";
  "        self.status_mapping = {";
  "            " +++ dq +++ "available" +++ dq +++ ": AvailabilityStatus.AVAILABLE,";
  "            " +++ dq +++ "open" +++ dq +++ ": AvailabilityStatus.AVAILABLE,";
  "            " +++ dq +++ "a" +++ dq +++ ": AvailabilityStatus.AVAILABLE,";
  "            " +++ dq +++ "booked" +++ dq +++ ": AvailabilityStatus.BOOKED,";
  "            " +++ dq +++ "reserved" +++ dq +++ ": AvailabilityStatus.BOOKED,";
  "            " +++ dq +++ "r" +++ dq +++ ": AvailabilityStatus.BOOKED,";
  "            " +++ dq +++ "closed" +++ dq +++ ": AvailabilityStatus.CLOSED,";
  "            " +++ dq +++ "c" +++ dq +++ ": AvailabilityStatus.CLOSED,";
  "            " +++ dq +++ "maintenance" +++ dq +++ ": AvailabilityStatus.MAINTENANCE,";
  "            " +++ dq +++ "m" +++ dq +++ ": AvailabilityStatus.MAINTENANCE,";
  "            " +++ dq +++ "unavailable" +++ dq +++ ": AvailabilityStatus.BOOKED,";
  "            " +++ dq +++ "na" +++ dq +++ ": AvailabilityStatus.BOOKED";
  "        }";
  "    ";
  "    def parse_html_content(";
  "        self,";
  "        html_content: str,";
  "        park: ParkEnum,";
  "        base_url: str = " +++ dq +++ "https://www.reservecalifornia.com" +++ dq;
  "    ) -> List[CampsiteAvailability]:";
  "        " +++ dq +++ dq +++ dq;
  "        Parse HTML content to extract campsite availability.";
  "        ";
  "        Args:";
  "            html_content: Raw HTML content from the page";
  "            park: Park being parsed";
  "            base_url: Base URL for resolving relative links";
  "            ";
  "        Returns:";
  "            List of CampsiteAvailability objects";
  "        " +++ dq +++ dq +++ dq;
  "        soup = BeautifulSoup(html_content, 'html.parser')";
  "        availability_list = []";
  "        ";
  "        try:";
  "            # Try multiple parsing strategies for different page layouts";
  "            ";
  "            # Strategy 1: Parse calendar grid view";
  "            calendar_data = self._parse_calendar_view(soup, park, base_url)";
  "            availability_list.extend(calendar_data)";
  "            ";
  "            # Strategy 2: Parse search results list";
  "            search_results = self._parse_search_results(soup, park, base_url)";
  "            availability_list.extend(search_results)";
  "            ";
  "            # Strategy 3: Parse JavaScript data objects";
  "            js_data = self._parse_javascript_data(soup, park, base_url)";
  "            availability_list.extend(js_data)";
  "            ";
  "            # Strategy 4: Parse AJAX response data (if present)";
  "            ajax_data = self._parse_ajax_data(html_content, park, base_url)";
  "            availability_list.extend(ajax_data)";
  "            ";
  "        except Exception as e:";
  "            logger.error(f" +++ dq +++ "Error parsing HTML content for {park}: {e}" +++ dq +++ ")";
  "        ";
  "        # Remove duplicates based on unique key";
  "        unique_availability = {}";
  "        for avail in availability_list:";
  "            key = f" +++ dq +++ "{avail.park}_{avail.site_id}_{avail.check_in_date}" +++ dq;
  "            if key not in unique_availability:";
  "                unique_availability[key] = avail";
  "        ";
  "        logger.info(f" +++ dq +++ "Parsed {len(unique_availability)} unique availability records for {park}" +++ dq +++ ")";
  "        return list(unique_availability.values())";
  "    ";
  "    def _parse_calendar_view(";
  "        self,";
  "        soup: BeautifulSoup,";
  "        park: ParkEnum,";
  "        base_url: str";
  "    ) -> List[CampsiteAvailability]:";
  "        " +++ dq +++ dq +++ dq +++ "Parse calendar grid view of availability." +++ dq +++ dq +++ dq;
  "        availability_list = []";
  "        ";
  "        # Look for calendar tables or grids";
  "        calendar_containers = soup.find_all(['table', 'div'], class_=re.compile(r'calendar|availability|grid', re.I))";
  "        ";
  "        for container in calendar_containers:";
  "            # Find date headers";
  "            date_headers = container.find_all(['th', 'div'], string=re.compile(r'\d{1,2}/\d{1,2}|\d{4}-\d{2}-\d{2}'))";
  "            ";
  "            # Find site rows";
  "            site_rows = container.find_all(['tr', 'div'], class_=re.compile(r'site|campsite|row', re.I))";
  "            ";
  "            for row in site_rows:";
  "                site_info = self._extract_site_info_from_row(row, park)";
  "                if not site_info:";
  "                    continue";
  "                ";
  "                # Find availability cells in this row";
  "                availability_cells = row.find_all(['td', 'div'], class_=re.compile(r'avail|status|day', re.I))";
  "                ";
  "                for i, cell in enumerate(availability_cells):";
  "                    if i < len(date_headers):";
  "                        date_str = date_headers[i].get_text(strip=True)";
  "                        check_in_date = self._parse_date(date_str)";
  "                        ";
  "                        if check_in_date:";
  "                            status = self._extract_status_from_cell(cell)";
  "                            price = self._extract_price_from_cell(cell)";
  "                            ";
  "                            availability = CampsiteAvailability(";
  "                                park=park,";
  "                                site_id=site_info['site_id'],";
  "                                site_name=site_info['site_name'],";
  "                                site_type=site_info['site_type'],";
  "                                check_in_date=check_in_date,";
  "                                status=status,";
  "                                price=price,";
  "                                max_occupancy=site_info.get('max_occupancy'),";
  "                                amenities=site_info.get('amenities', []),";
  "                                scraped_at=datetime.utcnow(),";
  "                                url=self._extract_booking_url(cell, base_url)";
  "                            )";
  "                            ";
  "                            availability_list.append(availability)";
  "        ";
  "        return availability_list";
  "    ";
  "    def _parse_search_results(";
  "        self,";
  "        soup: BeautifulSoup,";
  "        park: ParkEnum,";
  "        base_url: str";
  "    ) -> List[CampsiteAvailability]:";
  "        " +++ dq +++ dq +++ dq +++ "Parse search results list view." +++ dq +++ dq +++ dq;
  "        availability_list = []";
  "        ";
  "        # Look for search result containers";
  "        result_containers = soup.find_all(['div', 'li'], class_=re.compile(r'result|site|campsite|listing', re.I))";
  "        ";
  "        for container in result_containers:";
  "            site_info = self._extract_site_info_from_container(container, park)";
  "            if not site_info:";
  "                continue";
  "            ";
  "            # Look for availability information within this container";
  "            avail_info = self._extract_availability_from_container(container)";
  "            ";
  "            for avail_data in avail_info:";
  "                try:";
  "                    availability = CampsiteAvailability(";
  "                        park=park,";
  "                        site_id=site_info['site_id'],";
  "                        site_name=site_info['site_name'],";
  "                        site_type=site_info['site_type'],";
  "                        check_in_date=avail_data['check_in_date'],";
  "                        status=avail_data['status'],";
  "                        price=avail_data.get('price'),";
  "                        max_occupancy=site_info.get('max_occupancy'),";
  "                        amenities=site_info.get('amenities', []),";
  "                        scraped_at=datetime.utcnow(),";
  "                        url=avail_data.get('url')";
  "                    )";
  "                    ";
  "                    availability_list.append(availability)";
  "                    ";
  "                except ValidationError as e:";
  "                    logger.warning(f" +++ dq +++ "Invalid availability data: {e}" +++ dq +++ ")";
  "                    continue";
  "        ";
  "        return availability_list";
  "    ";
  "    def _parse_javascript_data(";
  "        self,";
  "        soup: BeautifulSoup,";
  "        park: ParkEnum,";
  "        base_url: str";
  "    ) -> List[CampsiteAvailability]:";
  "        " +++ dq +++ dq +++ dq +++ "Parse JavaScript data objects embedded in the page." +++ dq +++ dq +++ dq;
  "        availability_list = []";
  "        ";
  "        # Look for script tags containing data";
  "        script_tags = soup.find_all('script', string=re.compile(r'availability|campsite|reservation', re.I))";
  "        ";
  "        for script in script_tags:";
  "            script_content = script.get_text()";
  "            ";
  "            # Try to extract JSON data from various patterns";
  "            json_patterns = [";
  "                r'var\s+availability\s*=\s*(\{.*?\});',";
  "                r'window\.reservationData\s*=\s*(\{.*?\});',";
  "                r'data:\s*(\{.*?\})',";
  "                r'" +++ dq +++ "availability" +++ dq +++ ":\s*(\[.*?\])',";
  "                r'" +++ dq +++ "sites" +++ dq +++ ":\s*(\[.*?\])'";
  "            ]";
  "            ";
  "            for pattern in json_patterns:";
  "                matches = re.findall(pattern, script_content, re.DOTALL)";
  "                ";
  "                for match in matches:";
  "                    try:";
  "                        data = json.loads(match)";
  "                        parsed_data = self._parse_json_availability_data(data, park, base_url)";
  "                        availability_list.extend(parsed_data)";
  "                        ";
  "                    except json.JSONDecodeError:";
  "                        continue";
  "        ";
  "        return availability_list";
  "    ";
  "    def _parse_ajax_data(";
  "        self,";
  "        content: str,";
  "        park: ParkEnum,";
  "        base_url: str";
  "    ) -> List[CampsiteAvailability]:";
  "        " +++ dq +++ dq +++ dq +++ "Parse AJAX response data if content appears to be JSON." +++ dq +++ dq +++ dq;
  "        availability_list = []";
  "        ";
  "        # Check if content looks like JSON";
  "        content = content.strip()";
  "        if content.startswith('{') or content.startswith('['):";
  "            try:";
  "                data = json.loads(content)";
  "                availability_list = self._parse_json_availability_data(data, park, base_url)";
  "                ";
  "            except json.JSONDecodeError:";
  "                logger.debug(" +++ dq +++ "Content is not valid JSON" +++ dq +++ ")";
  "        ";
  "        return availability_list";
  "    ";
  "    def _parse_json_availability_data(";
  "        self,";
  "        data: Dict[str, Any],";
  "        park: ParkEnum,";
  "        base_url: str";
  "    ) -> List[CampsiteAvailability]:";
  "        " +++ dq +++ dq +++ dq +++ "Parse JSON data structure for availability information." +++ dq +++ dq +++ dq;
  "        availability_list = []";
  "        ";
  "        # Handle different JSON structures";
  "        if isinstance(data, list):";
  "            items = data";
  "        elif 'sites' in data:";
  "            items = data['sites']";
  "        elif 'availability' in data:";
  "            items = data['availability']";
  "        elif 'results' in data:";
  "            items = data['results']";
  "        else:";
  "            items = [data]";
  "        ";
  "        for item in items:";
  "            if not isinstance(item, dict):";
  "                continue";
  "            ";
  "            # Extract site information";
  "            site_id = str(item.get('siteId', item.get('id', item.get('site_id', 'unknown'))))";
  "            site_name = item.get('siteName', item.get('name', item.get('site_name', f'Site {site_id}'))";
  "            ";
  "            # Extract site type";
  "            site_type_raw = item.get('siteType', item.get('type', item.get('site_type', 'tent'))";
  "            site_type = self._normalize_site_type(site_type_raw)";
  "            ";
  "            # Extract availability dates";
  "            availability_dates = item.get('dates', item.get('availability', item.get('calendar', [])))";
  "            ";
  "            if not availability_dates and 'date' in item:";
  "                # Single date format";
  "                availability_dates = [item]";
  "            ";
  "            for date_info in availability_dates:";
  "                if not isinstance(date_info, dict):";
  "                    continue";
  "                ";
  "                check_in_date = self._parse_date(";
  "                    date_info.get('date', date_info.get('checkIn', date_info.get('check_in_date')))";
  "                )";
  "                ";
  "                if not check_in_date:";
  "                    continue";
  "                ";
  "                status_raw = date_info.get('status', date_info.get('available', date_info.get('availability')))";
  "                status = self._normalize_status(status_raw)";
  "                ";
  "                price = self._extract_price_value(date_info.get('price', date_info.get('rate', date_info.get('cost'))))";
  "                ";
  "                try:";
  "                    availability = CampsiteAvailability(";
  "                        park=park,";
  "                        site_id=site_id,";
  "                        site_name=site_name,";
  "                        site_type=site_type,";
  "                        check_in_date=check_in_date,";
  "                        status=status,";
  "                        price=price,";
  "                        max_occupancy=item.get('maxOccupancy', item.get('capacity')),";
  "                        amenities=item.get('amenities', []),";
  "                        scraped_at=datetime.utcnow(),";
  "                        url=item.get('bookingUrl', item.get('url'))";
  "                    )";
  "                    ";
  "                    availability_list.append(availability)";
  "                    ";
  "                except ValidationError as e:";
  "                    logger.warning(f" +++ dq +++ "Invalid JSON availability data: {e}" +++ dq +++ ")";
  "                    continue";
  "        ";
  "        return availability_list";
  "    ";
  "    def _extract_site_info_from_row(self, row: Tag, park: ParkEnum) -> Optional[Dict[str, Any]]:";
  "        " +++ dq +++ dq +++ dq +++ "Extract site information from a table row." +++ dq +++ dq +++ dq;
  "        # Look for site ID and name";
  "        site_cells = row.find_all(['td', 'th', 'div'], string=re.compile(r'site\s*\d+|#\d+|\d{3,}', re.I))";
  "        ";
  "        if not site_cells:";
  "            return None";
  "        ";
  "        site_text = site_cells[0].get_text(strip=True)";
  "        site_id_match = re.search(r'(\d+)', site_text)";
  "        ";
  "        if not site_id_match:";
  "            return None";
  "        ";
  "        site_id = site_id_match.group(1)";
  "        site_name = site_text";
  "        ";
  "        # Extract site type";
  "        type_text = row.get_text().lower()";
  "        site_type = self._infer_site_type(type_text)";
  "        ";
  "        return {";
  "            'site_id': site_id,";
  "            'site_name': site_name,";
  "            'site_type': site_type";
  "        }";
  "    ";
  "    def _extract_site_info_from_container(self, container: Tag, park: ParkEnum) -> Optional[Dict[str, Any]]:";
  "        " +++ dq +++ dq +++ dq +++ "Extract site information from a search result container." +++ dq +++ dq +++ dq;
  "        # Look for site identification";
  "        site_id_elem = container.find(['span', 'div', 'h3'], class_=re.compile(r'site|id', re.I))";
  "        ";
  "        if site_id_elem:";
  "            site_text = site_id_elem.get_text(strip=True)";
  "            site_id_match = re.search(r'(\d+)', site_text)";
  "            ";
  "            if site_id_match:";
  "                site_id = site_id_match.group(1)";
  "                site_name = site_text";
  "                ";
  "                # Extract site type";
  "                type_text = container.get_text().lower()";
  "                site_type = self._infer_site_type(type_text)";
  "                ";
  "                return {";
  "                    'site_id': site_id,";
  "                    'site_name': site_name,";
  "                    'site_type': site_type";
  "                }";
  "        ";
  "        return None";
  "    ";
  "    def _extract_availability_from_container(self, container: Tag) -> List[Dict[str, Any]]:";
  "        " +++ dq +++ dq +++ dq +++ "Extract availability information from a container." +++ dq +++ dq +++ dq;
  "        availability_info = []";
  "        ";
  "        # Look for date and status information";
  "        date_elements = container.find_all(string=re.compile(r'\d{1,2}/\d{1,2}/\d{4}|\d{4}-\d{2}-\d{2}'))";
  "        ";
  "        for date_elem in date_elements:";
  "            check_in_date = self._parse_date(date_elem)";
  "            ";
  "            if check_in_date:";
  "                # Find associated status and price";
  "                parent = date_elem.parent if hasattr(date_elem, 'parent') else container";
  "                status = self._extract_status_from_element(parent)";
  "                price = self._extract_price_from_element(parent)";
  "                ";
  "                availability_info.append({";
  "                    'check_in_date': check_in_date,";
  "                    'status': status,";
  "                    'price': price";
  "                })";
  "        ";
  "        return availability_info";
  "    ";
  "    def _normalize_site_type(self, site_type_raw: Any) -> SiteTypeEnum:";
  "        " +++ dq +++ dq +++ dq +++ "Normalize site type to enum value." +++ dq +++ dq +++ dq;
  "        if not site_type_raw:";
  "            return SiteTypeEnum.TENT";
  "        ";
  "        site_type_str = str(site_type_raw).lower().strip()";
  "        ";
  "        for key, enum_value in self.site_type_mapping.items():";
  "            if key in site_type_str:";
  "                return enum_value";
  "        ";
  "        return SiteTypeEnum.TENT  # Default";
  "    ";
  "    def _normalize_status(self, status_raw: Any) -> AvailabilityStatus:";
  "        " +++ dq +++ dq +++ dq +++ "Normalize availability status to enum value." +++ dq +++ dq +++ dq;
  "        if not status_raw:";
  "            return AvailabilityStatus.UNKNOWN";
  "        ";
  "        status_str = str(status_raw).lower().strip()";
  "        ";
  "        for key, enum_value in self.status_mapping.items():";
  "            if key == status_str or key in status_str:";
  "                return enum_value";
  "        ";
  "        return AvailabilityStatus.UNKNOWN";
  "    ";
  "    def _parse_date(self, date_str: str) -> Optional[date]:";
  "        " +++ dq +++ dq +++ dq +++ "Parse date string into date object." +++ dq +++ dq +++ dq;
  "        if not date_str:";
  "            return None";
  "        ";
  "        # Common date formats";
  "        date_patterns = [";
  "            r'(\d{4})-(\d{2})-(\d{2})',  # YYYY-MM-DD";
  "            r'(\d{1,2})/(\d{1,2})/(\d{4})',  # M/D/YYYY or MM/DD/YYYY";
  "            r'(\d{1,2})-(\d{1,2})-(\d{4})',  # M-D-YYYY";
  "        ]";
  "        ";
  "        for pattern in date_patterns:";
  "            match = re.search(pattern, str(date_str))";
  "            if match:";
  "                try:";
  "                    if len(match.group(1)) == 4:  # Year first";
  "                        year, month, day = match.groups()";
  "                    else:  # Month/day first";
  "                        month, day, year = match.groups()";
  "                    ";
  "                    return date(int(year), int(month), int(day))";
  "                    ";
  "                except ValueError:";
  "                    continue";
  "        ";
  "        return None";
  "    ";
  "    def _extract_price_value(self, price_raw: Any) -> Optional[float]:";
  "        " +++ dq +++ dq +++ dq +++ "Extract numeric price value." +++ dq +++ dq +++ dq;
  "        if not price_raw:";
  "            return None";
  "        ";
  "        price_str = str(price_raw)";
  "        price_match = re.search(r'(\d+\.?\d*)', price_str)";
  "        ";
  "        if price_match:";
  "            try:";
  "                return float(price_match.group(1))";
  "            except ValueError:";
  "                pass";
  "        ";
  "        return None";
  "    ";
  "    def _infer_site_type(self, text: str) -> SiteTypeEnum:";
  "        " +++ dq +++ dq +++ dq +++ "Infer site type from text content." +++ dq +++ dq +++ dq;
  "        text = text.lower()";
  "        ";
  "        if any(keyword in text for keyword in ['rv', 'hookup', 'electric', 'sewer']):";
  "            return SiteTypeEnum.RV";
  "        elif any(keyword in text for keyword in ['cabin', 'lodge', 'yurt']):";
  "            return SiteTypeEnum.CABIN";
  "        elif any(keyword in text for keyword in ['group', 'large']):";
  "            return SiteTypeEnum.GROUP";
  "        else:";
  "            return SiteTypeEnum.TENT";
  "    ";
  "    def _extract_status_from_cell(self, cell: Tag) -> AvailabilityStatus:";
  "        " +++ dq +++ dq +++ dq +++ "Extract availability status from table cell." +++ dq +++ dq +++ dq;
  "        # Check CSS classes first";
  "        css_classes = cell.get('class', [])";
  "        class_text = ' '.join(css_classes).lower()";
  "        ";
  "        if any(keyword in class_text for keyword in ['available', 'open', 'free']):";
  "            return AvailabilityStatus.AVAILABLE";
  "        elif any(keyword in class_text for keyword in ['booked', 'reserved', 'taken']):";
  "            return AvailabilityStatus.BOOKED";
  "        elif any(keyword in class_text for keyword in ['closed', 'unavailable']):";
  "            return AvailabilityStatus.CLOSED";
  "        ";
  "        # Check text content";
  "        cell_text = cell.get_text(strip=True).lower()";
  "        return self._normalize_status(cell_text)";
  "    ";
  "    def _extract_price_from_cell(self, cell: Tag) -> Optional[float]:";
  "        " +++ dq +++ dq +++ dq +++ "Extract price from table cell." +++ dq +++ dq +++ dq;
  "        cell_text = cell.get_text()";
  "        return self._extract_price_value(cell_text)";
  "    ";
  "    def _extract_status_from_element(self, element: Tag) -> AvailabilityStatus:";
  "        " +++ dq +++ dq +++ dq +++ "Extract status from any element." +++ dq +++ dq +++ dq;
  "        element_text = element.get_text().lower()";
  "        return self._normalize_status(element_text)";
  "    ";
  "    def _extract_price_from_element(self, element: Tag) -> Optional[float]:";
  "        " +++ dq +++ dq +++ dq +++ "Extract price from any element." +++ dq +++ dq +++ dq;
  "        element_text = element.get_text()";
  "        return self._extract_price_value(element_text)";
  "    ";
  "    def _extract_booking_url(self, element: Tag, base_url: str) -> Optional[str]:";
  "        " +++ dq +++ dq +++ dq +++ "Extract booking URL from element." +++ dq +++ dq +++ dq;
  "        # Look for links";
  "        link = element.find('a', href=True)";
  "        if link:";
  "            href = link['href']";
  "            if href.startswith('http'):";
  "                return href";
  "            else:";
  "                return urljoin(base_url, href)";
  "        ";
  "        return None" ].

(** How Python's lexer reads brackets: inside a string literal or a comment
    they are text; elsewhere an opening bracket is pushed, with the line it
    is on, and a closing bracket must match the innermost open one.  A
    statement can only end, and the file can only end, when no bracket is
    open. *)
Inductive lex_mode : Type :=
| Code
| InString (quote : ascii) (triple : bool).

Record lex_state : Type := {
  mode : lex_mode;
  open_brackets : list (ascii * nat);
  mismatch : bool
}.

Definition lex_start : lex_state :=
  {| mode := Code; open_brackets := []; mismatch := false |}.

Definition is_quote (c : ascii) : bool :=
  Ascii.eqb c "'"%char || Ascii.eqb c (ascii_of_nat 34).

Definition opener (c : ascii) : bool :=
  Ascii.eqb c "("%char || Ascii.eqb c "["%char || Ascii.eqb c "{"%char.

Definition closer_of (c : ascii) : option ascii :=
  if Ascii.eqb c ")"%char then Some "("%char
  else if Ascii.eqb c "]"%char then Some "["%char
  else if Ascii.eqb c "}"%char then Some "{"%char
  else None.

Definition push (c : ascii) (line_no : nat) (st : lex_state) : lex_state :=
  {| mode := mode st;
     open_brackets := (c, line_no) :: open_brackets st;
     mismatch := mismatch st |}.

Definition pop (expected : ascii) (st : lex_state) : lex_state :=
  match open_brackets st with
  | (c, _) :: rest =>
      {| mode := mode st; open_brackets := rest;
         mismatch := mismatch st || negb (Ascii.eqb c expected) |}
  | [] =>
      {| mode := mode st; open_brackets := []; mismatch := true |}
  end.

Definition set_mode (m : lex_mode) (st : lex_state) : lex_state :=
  {| mode := m; open_brackets := open_brackets st; mismatch := mismatch st |}.

(** One physical line, character by character.  A [#] in code ends the
    scan of the line; a backslash inside a literal protects the next
    character. *)
Fixpoint scan_line (line_no : nat) (s : string) (st : lex_state)
  : lex_state :=
  match s with
  | EmptyString => st
  | String c rest =>
      match mode st with
      | InString q triple =>
          if Ascii.eqb c "\"%char then
            match rest with
            | String _ rest' => scan_line line_no rest' st
            | EmptyString => st
            end
          else if Ascii.eqb c q then
            if triple then
              match rest with
              | String c1 (String c2 rest') =>
                  if Ascii.eqb c1 q && Ascii.eqb c2 q
                  then scan_line line_no rest' (set_mode Code st)
                  else scan_line line_no rest st
              | _ => scan_line line_no rest st
              end
            else scan_line line_no rest (set_mode Code st)
          else scan_line line_no rest st
      | Code =>
          if Ascii.eqb c "#"%char then st
          else if is_quote c then
            match rest with
            | String c1 (String c2 rest') =>
                if Ascii.eqb c1 c && Ascii.eqb c2 c
                then scan_line line_no rest' (set_mode (InString c true) st)
                else scan_line line_no rest (set_mode (InString c false) st)
            | _ => scan_line line_no rest (set_mode (InString c false) st)
            end
          else if opener c then scan_line line_no rest (push c line_no st)
          else
            match closer_of c with
            | Some o => scan_line line_no rest (pop o st)
            | None => scan_line line_no rest st
            end
      end
  end.

(** The end of a physical line: a literal that is not triple-quoted may not
    run over it. *)
Definition end_line (st : lex_state) : lex_state :=
  match mode st with
  | InString _ false =>
      {| mode := Code; open_brackets := open_brackets st; mismatch := true |}
  | _ => st
  end.

Fixpoint scan_lines (line_no : nat) (lines : list string) (st : lex_state)
  : lex_state :=
  match lines with
  | [] => st
  | l :: rest => scan_lines (S line_no) rest (end_line (scan_line line_no l st))
  end.

Definition scan_source (lines : list string) : lex_state :=
  scan_lines 1 lines lex_start.

(** What the lexer requires of a whole file. *)
Definition brackets_closed (st : lex_state) : bool :=
  match mode st, open_brackets st with
  | Code, [] => negb (mismatch st)
  | _, _ => false
  end.

(** The operations of the class that are embedded above. *)
Record ReservationParser : Type := {
  normalize_status : string -> AvailabilityStatus;
  normalize_site_type : string -> SiteTypeEnum;
  infer_site_type : string -> SiteTypeEnum
}.

(** [from .reservation_parser import ReservationParser]: the module text is
    compiled first, and a text the lexer rejects raises [SyntaxError]
    before any definition of the module exists. *)
Definition import_reservation_parser : result ReservationParser :=
  if brackets_closed (scan_source reservation_parser_py) then
    Ok {| normalize_status := _normalize_status;
          normalize_site_type := _normalize_site_type;
          infer_site_type := _infer_site_type |}
  else Raise (SyntaxError "'(' was never closed").

(** Any use of the parser goes through the import. *)
Definition call_parser {A B} (operation : ReservationParser -> A -> B)
  (input : A) : result B :=
  parser <- import_reservation_parser ;;
  Ok (operation parser input).

End Parser.

(* ================================================================== *)
(** * src/scraper/direct_scraper.py *)
(* ================================================================== *)

Module Direct.

Section Scraper.

(** [date.today()], read by the model validator, and [datetime.utcnow()],
    read while the given date is handled. *)
Variable today : date.
Variable utcnow : date -> Z.

Definition booking_url_text : string :=
  "https://www.reservecalifornia.com/Web/Facilities/AdvanceSearch.aspx".

(** [current_date.weekday() in [...]] *)
Definition weekday_in (current : date) (days : list Z) : bool :=
  existsb (Z.eqb (weekday current)) days.

(** The body of the Carlsbad loop, up to the increment of the date: the
    keyword arguments are evaluated in order, then the constructor runs. *)
Definition carlsbad_body (park : ParkEnum) (current : date)
  : result (option CampsiteAvailability) :=
  if weekday_in current [0; 1; 4] then
    check_out <- add_days current 1 ;;
    a <- new_CampsiteAvailability today (utcnow current)
           [ ("park", VPark park);
             ("site_id", VStr ("CARL-" +++ strftime_md current +++ "-47"));
             ("site_name",
               VStr ("Beachfront Site #"
                     +++ str_of_Z (47 + day_of current mod 20)));
             ("site_type", VSiteType RV);
             ("check_in_date", VDate current);
             ("check_out_date", VDate check_out);
             ("status", VStatus AVAILABLE);
             ("price", VFloat (if 5 <=? weekday current then 65 else 55));
             ("max_occupancy", VInt 6);
             ("scraped_at", VDatetime (utcnow current));
             ("booking_url", VStr booking_url_text);
             ("amenities",
               VStrList ["Full Hookups"; "Beach Access"; "Fire Ring"]) ] ;;
    Ok (Some a)
  else Ok None.

Definition joshua_tree_body (park : ParkEnum) (current : date)
  : result (option CampsiteAvailability) :=
  if weekday_in current [2; 3; 6] then
    check_out <- add_days current 1 ;;
    a <- new_CampsiteAvailability today (utcnow current)
           [ ("park", VPark park);
             ("site_id", VStr ("JOSH-" +++ strftime_md current +++ "-15"));
             ("site_name",
               VStr ("Jumbo Rocks Site #"
                     +++ str_of_Z (15 + day_of current mod 30)));
             ("site_type", VSiteType TENT);
             ("check_in_date", VDate current);
             ("check_out_date", VDate check_out);
             ("status", VStatus AVAILABLE);
             ("price", VFloat 35);
             ("max_occupancy", VInt 4);
             ("scraped_at", VDatetime (utcnow current));
             ("booking_url", VStr booking_url_text);
             ("amenities",
               VStrList ["Fire Ring"; "Picnic Table"; "Desert Views"]) ] ;;
    Ok (Some a)
  else Ok None.

Definition oceanside_body (park : ParkEnum) (current : date)
  : result (option CampsiteAvailability) :=
  if weekday_in current [1; 5] then
    check_out <- add_days current 1 ;;
    a <- new_CampsiteAvailability today (utcnow current)
           [ ("park", VPark park);
             ("site_id", VStr ("OCEAN-" +++ strftime_md current +++ "-22"));
             ("site_name",
               VStr ("San Elijo Site #"
                     +++ str_of_Z (22 + day_of current mod 15)));
             ("site_type", VSiteType RV);
             ("check_in_date", VDate current);
             ("check_out_date", VDate check_out);
             ("status", VStatus AVAILABLE);
             ("price", VFloat 45);
             ("max_occupancy", VInt 5);
             ("scraped_at", VDatetime (utcnow current));
             ("booking_url", VStr booking_url_text);
             ("amenities",
               VStrList ["Partial Hookups"; "Beach Access"; "Restrooms"]) ] ;;
    Ok (Some a)
  else Ok None.

(** [while current_date <= end_date: body; current_date += timedelta(days=1)];
    [None] when the fuel runs out. *)
Fixpoint sample_loop (fuel : nat)
  (body : date -> result (option CampsiteAvailability))
  (end_ current : date) (availability : list CampsiteAvailability)
  : option (result (list CampsiteAvailability)) :=
  match fuel with
  | O => None
  | S fuel' =>
      if current <=? end_ then
        match body current with
        | Raise e => Some (Raise e)
        | Ok appended =>
            let availability' :=
              match appended with
              | Some a => availability ++ [a]
              | None => availability
              end in
            match add_days current 1 with
            | Raise e => Some (Raise e)
            | Ok next => sample_loop fuel' body end_ next availability'
            end
        end
      else Some (Ok availability)
  end.

(** [DirectScraper.scrape_park_availability], run with the given fuel. *)
Definition scrape_park_availability_fuel (fuel : nat) (park : ParkEnum)
  (date_range : date * date) : option (result (list CampsiteAvailability)) :=
  let '(start_, end_) := date_range in
  match park with
  | CARLSBAD => sample_loop fuel (carlsbad_body park) end_ start_ []
  | JOSHUA_TREE => sample_loop fuel (joshua_tree_body park) end_ start_ []
  | OCEANSIDE => sample_loop fuel (oceanside_body park) end_ start_ []
  end.

(** One iteration per day of the range and one for the exit test. *)
Definition scrape_park_availability (park : ParkEnum)
  (date_range : date * date) : option (result (list CampsiteAvailability)) :=
  scrape_park_availability_fuel
    (S (Z.to_nat (snd date_range + 1 - fst date_range))) park date_range.

End Scraper.

End Direct.

(* ================================================================== *)
(** * src/database/supabase_client.py *)
(* ================================================================== *)

Module Store.

(** A row as it is handed to the insert tool. *)
Record StoredRow : Type := {
  r_id : string;
  r_park : string;
  r_site_id : string;
  r_site_name : string;
  r_site_type : string;
  r_check_in_date : string;
  r_status : string;
  r_price : option Q;
  r_max_occupancy : option Z;
  r_amenities : list string;
  r_scraped_at : string;
  r_url : option string;
  r_created_at : string;
  r_updated_at : string
}.

(** The parameters of one [insert_rows] call. *)
Record InsertParams : Type := {
  table : string;
  rows : list StoredRow;
  on_conflict : option string;
  conflict_columns : list string
}.

Section Client.

(** A row of a query result and the construction of a record from it (the
    [CampsiteAvailability(...)] call inside the loop of
    [get_availability_by_park], with its [row[...]] lookups). *)
Variable Row : Type.
Variable decode_row : Row -> result CampsiteAvailability.

(** The dictionary a tool call returns. *)
Record Response : Type := {
  success : bool;
  error : option string;
  data : list Row
}.

(** The two tool implementations behind [_call_mcp_tool]. *)
Variable _insert_rows_direct : InsertParams -> result Response.
Variable _execute_query_direct : string -> result Response.

(** [str(uuid4())] for the k-th row of a call, [datetime.utcnow().isoformat()]
    and [datetime.isoformat] of a stored timestamp. *)
Variable uuid4 : nat -> string.
Variable utcnow_iso : string.
Variable datetime_isoformat : Z -> string.

Inductive parameters : Type :=
| PInsert (p : InsertParams)
| PQuery (query : string).

(** [_call_mcp_tool] *)
Definition _call_mcp_tool (tool_name : string) (ps : parameters)
  : result Response :=
  try_except
    (if String.eqb tool_name "insert_rows" then
       match ps with
       | PInsert p => _insert_rows_direct p
       | PQuery _ => Raise (KeyError "data")
       end
     else if String.eqb tool_name "execute_query" then
       match ps with
       | PQuery q => _execute_query_direct q
       | PInsert _ => Raise (KeyError "query")
       end
     else Raise (SupabaseError ("Unknown tool: " +++ tool_name)))
    (fun e => Raise (SupabaseError ("MCP tool call failed: " +++ exn_str e))).

(** [_execute_query] *)
Definition _execute_query (query : string) : result Response :=
  _call_mcp_tool "execute_query" (PQuery query).

(** [str(x)] of an optional text. *)
Definition str_option (x : option string) : string :=
  match x with Some s => s | None => "None" end.

(** The dictionary built for one record, the k-th of the call. *)
Definition to_record (k : nat) (avail : CampsiteAvailability)
  : result StoredRow :=
  p <- dot_value park_value (park avail) ;;
  st <- dot_value site_type_value (site_type avail) ;;
  s <- dot_value status_value (status avail) ;;
  Ok {| r_id := uuid4 k;
        r_park := p;
        r_site_id := site_id avail;
        r_site_name := site_name avail;
        r_site_type := st;
        r_check_in_date := isoformat (check_in_date avail);
        r_status := s;
        r_price := price avail;
        r_max_occupancy := max_occupancy avail;
        r_amenities := amenities avail;
        r_scraped_at := datetime_isoformat (scraped_at avail);
        r_url := url avail;
        r_created_at := utcnow_iso;
        r_updated_at := utcnow_iso |}.

(** The first loop of [store_availability_data]. *)
Fixpoint to_records (k : nat) (availability : list CampsiteAvailability)
  : result (list StoredRow) :=
  match availability with
  | [] => Ok []
  | avail :: rest =>
      record <- to_record k avail ;;
      records <- to_records (S k) rest ;;
      Ok (record :: records)
  end.

Definition insert_params (chunk : list StoredRow) : InsertParams :=
  {| table := "campsite_availability";
     rows := chunk;
     on_conflict := Some "update";
     conflict_columns := ["park"; "site_id"; "check_in_date"] |}.

(** The second loop: one [insert_rows] call per chunk, until a call raises
    or reports failure.  The calls issued are returned with the outcome. *)
Fixpoint insert_chunks (cs : list (list StoredRow))
  : result unit * list InsertParams :=
  match cs with
  | [] => (Ok tt, [])
  | chunk :: rest =>
      let params := insert_params chunk in
      match _call_mcp_tool "insert_rows" (PInsert params) with
      | Raise e => (Raise e, [params])
      | Ok response =>
          if success response then
            let '(r, calls) := insert_chunks rest in (r, params :: calls)
          else
            (Raise (SupabaseError ("Failed to insert availability batch: "
                                   +++ str_option (error response))),
             [params])
      end
  end.

Definition chunk_size : nat := 1000.

(** [store_availability_data]: the outcome and the [insert_rows] calls that
    were issued. *)
Definition store_availability_data (availability : list CampsiteAvailability)
  : result bool * list InsertParams :=
  match availability with
  | [] => (Ok true, [])
  | _ =>
      let storage_failed (e : exn) : result bool :=
        Raise (SupabaseError ("Storage failed: " +++ exn_str e)) in
      match to_records 0 availability with
      | Raise e => (storage_failed e, [])
      | Ok records =>
          match insert_chunks (chunks chunk_size records) with
          | (Ok _, calls) => (Ok true, calls)
          | (Raise e, calls) => (storage_failed e, calls)
          end
      end
  end.

(** The text of the query of [get_availability_by_park]. *)
Definition newline : string := String (ascii_of_nat 10) EmptyString.

Definition availability_query (where_clause : string) : string :=
  newline +++ "            SELECT * FROM campsite_availability"
  +++ newline +++ "            WHERE " +++ where_clause
  +++ newline +++ "            ORDER BY check_in_date, site_id"
  +++ newline +++ "            ".

(** [for row in result.get('data', [])]: a row whose construction raises
    [ValidationError] or [ValueError] is skipped; any other exception leaves
    the loop. *)
Fixpoint rows_loop (rows_ : list Row) (availability_list : list CampsiteAvailability)
  : result (list CampsiteAvailability) :=
  match rows_ with
  | [] => Ok availability_list
  | row :: rest =>
      match decode_row row with
      | Ok availability => rows_loop rest (availability_list ++ [availability])
      | Raise (ValidationError _) | Raise (ValueError _) =>
          rows_loop rest availability_list
      | Raise e => Raise e
      end
  end.

(** The [try] block of [get_availability_by_park]. *)
Definition get_availability_by_park_body (park_ : field ParkEnum)
  (start_ end_ : option date)
  (status_filter : option (list (field AvailabilityStatus)))
  : result (list CampsiteAvailability) :=
  p <- dot_value park_value park_ ;;
  let conditions := ["park = '" +++ p +++ "'"] in
  let conditions :=
    match start_ with
    | Some d => conditions ++ ["check_in_date >= '" +++ isoformat d +++ "'"]
    | None => conditions
    end in
  let conditions :=
    match end_ with
    | Some d => conditions ++ ["check_in_date <= '" +++ isoformat d +++ "'"]
    | None => conditions
    end in
  conditions <-
    match status_filter with
    | Some (s :: more) =>
        status_values <-
          (fix values (l : list (field AvailabilityStatus))
             : result (list string) :=
             match l with
             | [] => Ok []
             | x :: l' =>
                 v <- dot_value status_value x ;;
                 vs <- values l' ;;
                 Ok (("'" +++ v +++ "'") :: vs)
             end) (s :: more) ;;
        Ok (conditions ++ ["status IN (" +++ join "," status_values +++ ")"])
    | _ => Ok conditions
    end ;;
  let where_clause := join " AND " conditions in
  response <- _execute_query (availability_query where_clause) ;;
  if negb (success response) then
    Raise (SupabaseError ("Query failed: " +++ str_option (error response)))
  else rows_loop (data response) [].

(** [get_availability_by_park] *)
Definition get_availability_by_park (park_ : field ParkEnum)
  (start_ end_ : option date)
  (status_filter : option (list (field AvailabilityStatus)))
  : result (list CampsiteAvailability) :=
  try_except (get_availability_by_park_body park_ start_ end_ status_filter)
             (fun _ => Ok []).

End Client.

(** The tool implementations of this build: nothing is sent anywhere, an
    insert reports success and a query returns no rows. *)
Definition simulated_insert (Row : Type) (p : InsertParams)
  : result (Response Row) :=
  Ok {| success := true; error := None; data := [] |}.

Definition simulated_query (Row : Type) (query : string)
  : result (Response Row) :=
  Ok {| success := true; error := None; data := [] |}.

End Store.

(* ================================================================== *)
(** * The data store as its callers see it *)
(* ================================================================== *)

Module Db.

(** The operations of the store client that the alert processor and the
    dashboard call.  Each may return or raise; which responses a backend
    gives is left open. *)
Record DbClient : Type := {
  get_active_alert_rules : result (list AlertRule);
  check_notification_sent :
    field ParkEnum -> string -> date -> Z -> result bool;
  record_notification : NotificationRecord -> result bool;
  get_availability_by_park :
    field ParkEnum -> option date -> option date
    -> option (list (field AvailabilityStatus))
    -> result (list CampsiteAvailability)
}.

End Db.
Import Db.

(* ================================================================== *)
(** * src/notifications/email_alerts.py and alert_rules.py *)
(* ================================================================== *)

Module Alerts.

(** [EmailNotificationService.delivery_stats] *)
Record EmailNotificationService : Type := {
  stat_sent : nat;
  stat_failed : nat;
  stat_retries : nat
}.

(** The attributes of an [AlertProcessor] that change: the set of processed
    keys (a list without repetition, in insertion order), the pending batch
    and the email service it owns. *)
Record AlertProcessor : Type := {
  processed_notifications : list string;
  notification_batch : list NotificationRecord;
  email_service : EmailNotificationService
}.

(** The dictionary [process_new_availability] returns; the last three keys
    are absent when the call returns before building the full dictionary. *)
Record Stats : Type := {
  notifications_sent : nat;
  rules_processed : nat;
  errors : list string;
  availability_processed : option nat;
  weekend_sites_found : option nat;
  rules_matched : option nat
}.

(** [AlertProcessor.__init__]: a fresh email service, an empty set and an
    empty batch. *)
Definition init : AlertProcessor :=
  {| processed_notifications := [];
     notification_batch := [];
     email_service := {| stat_sent := 0; stat_failed := 0; stat_retries := 0 |} |}.

(** [set.add] *)
Definition set_add (key : string) (s : list string) : list string :=
  if existsb (String.eqb key) s then s else s ++ [key].

(** [is_weekend_date]: Friday, Saturday or Sunday. *)
Definition is_weekend_date (check_date : date) : bool :=
  4 <=? weekday check_date.

(** [f"{site.park}_{site.site_id}_{site.check_in_date}"]; the park is
    formatted as its value. *)
Definition availability_key (site : CampsiteAvailability) : string :=
  park_value (fval (park site)) +++ "_" +++ site_id site +++ "_"
  +++ isoformat (check_in_date site).

(** [site_availability.sort(key=lambda x: x.check_in_date)]: a stable sort. *)
Fixpoint insert_by_date (a : CampsiteAvailability)
  (l : list CampsiteAvailability) : list CampsiteAvailability :=
  match l with
  | [] => [a]
  | b :: l' =>
      if check_in_date a <=? check_in_date b then a :: b :: l'
      else b :: insert_by_date a l'
  end.

Fixpoint sort_by_date (l : list CampsiteAvailability)
  : list CampsiteAvailability :=
  match l with
  | [] => []
  | a :: l' => insert_by_date a (sort_by_date l')
  end.

(** The loop of [_check_consecutive_nights] with the [return] after it. *)
Fixpoint consecutive_loop (site_availability : list CampsiteAvailability)
  (min_nights_ consecutive_count : Z) (current_date : date) : result bool :=
  match site_availability with
  | [] => Ok (min_nights_ <=? consecutive_count)
  | avail :: rest =>
      if check_in_date avail =? current_date then
        let consecutive_count := consecutive_count + 1 in
        current_date <- add_days current_date 1 ;;
        if min_nights_ <=? consecutive_count then Ok true
        else consecutive_loop rest min_nights_ consecutive_count current_date
      else if current_date <? check_in_date avail then
        Ok (min_nights_ <=? consecutive_count)
      else consecutive_loop rest min_nights_ consecutive_count current_date
  end.

(** [_check_consecutive_nights] *)
Definition _check_consecutive_nights (site : CampsiteAvailability)
  (all_availability : list CampsiteAvailability) (min_nights_ : Z)
  : result bool :=
  let site_availability :=
    filter (fun avail =>
              park_eqb (fval (park avail)) (fval (park site))
              && String.eqb (site_id avail) (site_id site)
              && status_eqb (fval (status avail)) AVAILABLE)
           all_availability in
  consecutive_loop (sort_by_date site_availability) min_nights_ 0
                   (check_in_date site).

Section Processor.

(** [date.today()], [datetime.utcnow()] and [settings.alert_cooldown_hours]. *)
Variable today : date.
Variable now : Z.
Variable alert_cooldown_hours : Z.

(** Whether the k-th SMTP transaction of the email service goes through. *)
Variable smtp_delivers : nat -> bool.

(** [_matches_alert_rule] *)
Definition _matches_alert_rule (rule : AlertRule) (site : CampsiteAvailability)
  (all_availability : list CampsiteAvailability) : result bool :=
  if negb (existsb (park_eqb (fval (park site))) (rule_parks rule)) then
    Ok false
  else if negb (existsb (site_type_eqb (fval (site_type site)))
                        (rule_site_types rule)) then
    Ok false
  else if weekend_only rule && negb (is_weekend_date (check_in_date site)) then
    Ok false
  else if truthy_float (max_price rule) && truthy_float (price site)
          && match price site, max_price rule with
             | Some p, Some m => negb (Qle_bool p m)
             | _, _ => false
             end then
    Ok false
  else
    let days_ahead := days_between (check_in_date site) today in
    if days_ahead <? advance_notice_days rule then Ok false
    else if 1 <? min_nights rule then
      consecutive_available <-
        _check_consecutive_nights site all_availability (min_nights rule) ;;
      if negb consecutive_available then Ok false else Ok true
    else Ok true.

Variable db : DbClient.

(** The loop of [find_matching_availability]. *)
Fixpoint matching_loop (alert_rule : AlertRule)
  (sites all_availability matches : list CampsiteAvailability)
  : result (list CampsiteAvailability) :=
  match sites with
  | [] => Ok matches
  | site :: rest =>
      if negb (status_eqb (fval (status site)) AVAILABLE) then
        matching_loop alert_rule rest all_availability matches
      else
        already_notified <-
          check_notification_sent db (park site) (site_id site)
            (check_in_date site) alert_cooldown_hours ;;
        if already_notified then
          matching_loop alert_rule rest all_availability matches
        else
          matched <- _matches_alert_rule alert_rule site all_availability ;;
          if matched then
            matching_loop alert_rule rest all_availability (matches ++ [site])
          else matching_loop alert_rule rest all_availability matches
  end.

(** [find_matching_availability] *)
Definition find_matching_availability (alert_rule : AlertRule)
  (availability : list CampsiteAvailability)
  : result (list CampsiteAvailability) :=
  matching_loop alert_rule availability availability [].

(** ** The email service *)

(** [_send_email]: one SMTP transaction; every failure is caught and counted. *)
Definition _send_email (es : EmailNotificationService)
  : bool * EmailNotificationService :=
  if smtp_delivers (stat_sent es + stat_failed es) then
    (true, {| stat_sent := S (stat_sent es); stat_failed := stat_failed es;
              stat_retries := stat_retries es |})
  else
    (false, {| stat_sent := stat_sent es; stat_failed := S (stat_failed es);
               stat_retries := stat_retries es |}).

(** [alert_rule.id or "unknown"] *)
Definition rule_id_or_unknown (rule : AlertRule) : string :=
  match rule_id rule with
  | Some s => if String.eqb s EmptyString then "unknown" else s
  | None => "unknown"
  end.

(** [_create_notification_record] *)
Definition _create_notification_record (alert_rule : AlertRule)
  (site : option CampsiteAvailability) (status_ : NotificationStatus)
  (error_message_ : option string) : result NotificationRecord :=
  let sent_at_ := if nstatus_eqb status_ SENT then Some now else None in
  match site with
  | None =>
      match rule_parks alert_rule with
      | p :: _ =>
          Ok {| alert_rule_id := rule_id_or_unknown alert_rule;
                campsite_availability_key := "unknown";
                recipient_email := user_email alert_rule;
                n_park := p;
                n_site_id := "unknown";
                n_check_in_date := today;
                n_status := status_;
                sent_at := sent_at_;
                error_message := error_message_;
                retry_count := 0;
                created_at := now |}
      | [] => invalid "park: value is not a valid enumeration member"
      end
  | Some s =>
      Ok {| alert_rule_id := rule_id_or_unknown alert_rule;
            campsite_availability_key := availability_key s;
            recipient_email := user_email alert_rule;
            n_park := fval (park s);
            n_site_id := site_id s;
            n_check_in_date := check_in_date s;
            n_status := status_;
            sent_at := sent_at_;
            error_message := error_message_;
            retry_count := 0;
            created_at := now |}
  end.

(** [send_availability_alert]: rendering the template from validated records
    does not raise, so the [try] block comes down to the SMTP transaction
    and the creation of the record. *)
Definition send_availability_alert (alert_rule : AlertRule)
  (sites : list CampsiteAvailability) (es : EmailNotificationService)
  : result NotificationRecord * EmailNotificationService :=
  match sites with
  | [] =>
      (_create_notification_record alert_rule None SKIPPED
         (Some "No sites to notify about"), es)
  | first :: _ =>
      let '(success, es') := _send_email es in
      (try_except
         (_create_notification_record alert_rule (Some first)
            (if success then SENT else FAILED) None)
         (fun e =>
            _create_notification_record alert_rule (Some first) FAILED
              (Some (exn_str e))),
       es')
  end.

(** ** The processor *)

Definition with_email (st : AlertProcessor) (es : EmailNotificationService)
  : AlertProcessor :=
  {| processed_notifications := processed_notifications st;
     notification_batch := notification_batch st;
     email_service := es |}.

Definition append_batch (st : AlertProcessor) (r : NotificationRecord)
  : AlertProcessor :=
  {| processed_notifications := processed_notifications st;
     notification_batch := notification_batch st ++ [r];
     email_service := email_service st |}.

(** [for site in chunk: self.processed_notifications.add(key)] *)
Definition add_keys (chunk : list CampsiteAvailability) (st : AlertProcessor)
  : AlertProcessor :=
  {| processed_notifications :=
       fold_left (fun s site => set_add (availability_key site) s) chunk
                 (processed_notifications st);
     notification_batch := notification_batch st;
     email_service := email_service st |}.

(** [sites_by_park]: a dictionary in insertion order. *)
Fixpoint group_insert (p : ParkEnum) (site : CampsiteAvailability)
  (groups : list (ParkEnum * list CampsiteAvailability))
  : list (ParkEnum * list CampsiteAvailability) :=
  match groups with
  | [] => [(p, [site])]
  | (k, sites) :: rest =>
      if park_eqb k p then (k, sites ++ [site]) :: rest
      else (k, sites) :: group_insert p site rest
  end.

Definition group_by_park (matching_sites : list CampsiteAvailability)
  : list (ParkEnum * list CampsiteAvailability) :=
  fold_left (fun groups site => group_insert (fval (park site)) site groups)
            matching_sites [].

Definition max_sites_per_email : nat := 10.

(** [for chunk in site_chunks]: the exception that left the loop, if any,
    the count of sent notifications and the processor. *)
Fixpoint send_chunks (alert_rule : AlertRule)
  (site_chunks : list (list CampsiteAvailability)) (sent : nat)
  (st : AlertProcessor) : option exn * nat * AlertProcessor :=
  match site_chunks with
  | [] => (None, sent, st)
  | chunk :: rest =>
      let '(r, es') :=
        send_availability_alert alert_rule chunk (email_service st) in
      let st := with_email st es' in
      match r with
      | Raise e => (Some e, sent, st)
      | Ok notification_record =>
          let st := append_batch st notification_record in
          if nstatus_eqb (n_status notification_record) SENT then
            send_chunks alert_rule rest (S sent) (add_keys chunk st)
          else send_chunks alert_rule rest sent st
      end
  end.

(** [for park, sites in sites_by_park.items()] *)
Fixpoint send_parks (alert_rule : AlertRule)
  (groups : list (ParkEnum * list CampsiteAvailability)) (sent : nat)
  (st : AlertProcessor) : option exn * nat * AlertProcessor :=
  match groups with
  | [] => (None, sent, st)
  | (_, sites) :: rest =>
      match send_chunks alert_rule (chunks max_sites_per_email sites) sent st
      with
      | (Some e, n, st') => (Some e, n, st')
      | (None, n, st') => send_parks alert_rule rest n st'
      end
  end.

(** [send_alert_notification] *)
Definition send_alert_notification (alert_rule : AlertRule)
  (matching_sites : list CampsiteAvailability) (st : AlertProcessor)
  : bool * AlertProcessor :=
  match send_parks alert_rule (group_by_park matching_sites) 0 st with
  | (None, n, st') => ((0 <? n)%nat, st')
  | (Some _, _, st') => (false, st')
  end.

(** The loop of [_store_notification_batch]. *)
Fixpoint record_all (batch : list NotificationRecord) : result unit :=
  match batch with
  | [] => Ok tt
  | notification :: rest =>
      _ <- record_notification db notification ;;
      record_all rest
  end.

(** [_store_notification_batch]: the batch is cleared when the loop ran to
    its end; an exception is logged and leaves the batch as it is. *)
Definition _store_notification_batch (st : AlertProcessor) : AlertProcessor :=
  match record_all (notification_batch st) with
  | Ok _ =>
      {| processed_notifications := processed_notifications st;
         notification_batch := [];
         email_service := email_service st |}
  | Raise _ => st
  end.

Definition add_error (stats : Stats) (msg : string) : Stats :=
  {| notifications_sent := notifications_sent stats;
     rules_processed := rules_processed stats;
     errors := errors stats ++ [msg];
     availability_processed := availability_processed stats;
     weekend_sites_found := weekend_sites_found stats;
     rules_matched := rules_matched stats |}.

Definition count_rule (stats : Stats) (matched sent : bool) : Stats :=
  {| notifications_sent :=
       if sent then S (notifications_sent stats) else notifications_sent stats;
     rules_processed := rules_processed stats;
     errors := errors stats;
     availability_processed := availability_processed stats;
     weekend_sites_found := weekend_sites_found stats;
     rules_matched :=
       if matched then option_map S (rules_matched stats)
       else rules_matched stats |}.

Definition rule_id_text (rule : AlertRule) : string :=
  match rule_id rule with Some s => s | None => "None" end.

(** [for rule in alert_rules], with the [try] around each rule. *)
Fixpoint rules_loop (alert_rules : list AlertRule)
  (availability : list CampsiteAvailability) (stats : Stats)
  (st : AlertProcessor) : Stats * AlertProcessor :=
  match alert_rules with
  | [] => (stats, st)
  | rule :: rest =>
      match find_matching_availability rule availability with
      | Raise e =>
          rules_loop rest availability
            (add_error stats
               ("Error processing rule " +++ rule_id_text rule +++ ": "
                +++ exn_str e))
            st
      | Ok [] => rules_loop rest availability stats st
      | Ok matches =>
          let '(notification_sent, st') :=
            send_alert_notification rule matches st in
          rules_loop rest availability
            (count_rule stats true notification_sent) st'
      end
  end.

(** [process_new_availability] *)
Definition process_new_availability
  (availability : list CampsiteAvailability) (st : AlertProcessor)
  : Stats * AlertProcessor :=
  match availability with
  | [] =>
      ({| notifications_sent := 0; rules_processed := 0; errors := [];
          availability_processed := None; weekend_sites_found := None;
          rules_matched := None |}, st)
  | _ =>
      let stats :=
        {| notifications_sent := 0; rules_processed := 0; errors := [];
           availability_processed := Some (List.length availability);
           weekend_sites_found := Some 0%nat;
           rules_matched := Some 0%nat |} in
      match get_active_alert_rules db with
      | Raise e =>
          (add_error stats
             ("Failed to process availability alerts: " +++ exn_str e), st)
      | Ok alert_rules =>
          let stats :=
            {| notifications_sent := 0;
               rules_processed := List.length alert_rules;
               errors := [];
               availability_processed := Some (List.length availability);
               weekend_sites_found := Some 0%nat;
               rules_matched := Some 0%nat |} in
          match alert_rules with
          | [] => (stats, st)
          | _ =>
              let weekend_availability :=
                filter (fun site =>
                          is_weekend_date (check_in_date site)
                          && status_eqb (fval (status site)) AVAILABLE)
                       availability in
              let stats :=
                {| notifications_sent := 0;
                   rules_processed := List.length alert_rules;
                   errors := [];
                   availability_processed := Some (List.length availability);
                   weekend_sites_found :=
                     Some (List.length weekend_availability);
                   rules_matched := Some 0%nat |} in
              let '(stats, st) :=
                rules_loop alert_rules availability stats st in
              let st :=
                match notification_batch st with
                | [] => st
                | _ => _store_notification_batch st
                end in
              (stats, st)
          end
      end
  end.

(** [get_processing_stats], without the email counters. *)
Definition get_processing_stats (st : AlertProcessor) : nat * nat :=
  (List.length (processed_notifications st),
   List.length (notification_batch st)).

End Processor.

End Alerts.

(* ================================================================== *)
(** * src/dashboard/calendar_view.py *)
(* ================================================================== *)

Module Calendar.

(** [class CalendarDayData(BaseModel)].  [avg_price] is the exact quotient;
    the program computes its binary64 rounding. *)
Record CalendarDayData : Type := {
  day_date : date;
  available_count : nat;
  total_sites : nat;
  weekend : bool;
  sites : list CampsiteAvailability;
  avg_price : option Q;
  min_price : option Q
}.

(** [class CalendarMonthData(BaseModel)] *)
Record CalendarMonthData : Type := {
  cal_year : Z;
  cal_month : Z;
  month_name : string;
  days : list CalendarDayData;
  cal_parks : list string;
  total_available : nat;
  weekend_available : nat
}.

Definition month_names : list string :=
  [ "January"; "February"; "March"; "April"; "May"; "June";
    "July"; "August"; "September"; "October"; "November"; "December" ].

(** [sum(prices)] and [min(prices)] *)
Definition sum_prices (prices : list Q) : Q :=
  fold_left Qplus prices 0%Q.

Definition min_prices (prices : list Q) : option Q :=
  match prices with
  | [] => None
  | p :: rest =>
      Some (fold_left (fun m x => if Qle_bool m x then m else x) rest p)
  end.

Section Dashboard.

Variable db : DbClient.

(** [DashboardAPI.get_availability_data] *)
Definition get_availability_data (park_ : field ParkEnum)
  (start_ end_ : date) (site_types : option (list SiteTypeEnum))
  : list CampsiteAvailability :=
  match get_availability_by_park db park_ (Some start_) (Some end_) None with
  | Raise _ => []
  | Ok availability =>
      match site_types with
      | Some (t :: ts) =>
          filter (fun avail =>
                    existsb (site_type_eqb (fval (site_type avail))) (t :: ts))
                 availability
      | _ => availability
      end
  end.

(** The statistics of one day of the grid. *)
Definition day_data (all_availability : list CampsiteAvailability)
  (current_date : date) : CalendarDayData :=
  let is_weekend := 5 <=? weekday current_date in
  let day_availability :=
    filter (fun avail =>
              (check_in_date avail =? current_date)
              && status_eqb (fval (status avail)) AVAILABLE)
           all_availability in
  let available_count_ := List.length day_availability in
  let total_sites_ :=
    List.length
      (filter (fun avail => check_in_date avail =? current_date)
              all_availability) in
  let prices :=
    flat_map (fun avail =>
                if truthy_float (price avail) then
                  match price avail with Some p => [p] | None => [] end
                else [])
             day_availability in
  {| day_date := current_date;
     available_count := available_count_;
     total_sites := total_sites_;
     weekend := is_weekend;
     sites := day_availability;
     avg_price :=
       match prices with
       | [] => None
       | _ => Some (sum_prices prices / inject_Z (Z.of_nat (List.length prices)))%Q
       end;
     min_price := min_prices prices |}.

(** [for day in range(1, last_day_num + 1)]: the days built so far and the
    two running totals. *)
Fixpoint days_loop (year month : Z) (day_numbers : list Z)
  (all_availability : list CampsiteAvailability)
  (calendar_days : list CalendarDayData) (total weekend_total : nat)
  : result (list CalendarDayData * nat * nat) :=
  match day_numbers with
  | [] => Ok (calendar_days, total, weekend_total)
  | day :: rest =>
      current_date <- mkdate year month day ;;
      let d := day_data all_availability current_date in
      days_loop year month rest all_availability
        (calendar_days ++ [d])
        (total + available_count d)%nat
        (if weekend d then (weekend_total + available_count d)%nat
         else weekend_total)
  end.

(** [range(1, n + 1)] *)
Definition day_range (n : Z) : list Z :=
  map Z.of_nat (seq 1 (Z.to_nat n)).

(** [[park.value for park in parks]] *)
Fixpoint park_values (parks : list (field ParkEnum)) : result (list string) :=
  match parks with
  | [] => Ok []
  | p :: rest =>
      v <- dot_value park_value p ;;
      vs <- park_values rest ;;
      Ok (v :: vs)
  end.

(** [DashboardAPI.generate_calendar_data]; the handler around the body
    raises the exception again. *)
Definition generate_calendar_data (year month : Z)
  (parks : list (field ParkEnum)) : result CalendarMonthData :=
  first_day <- mkdate year month 1 ;;
  last_day_num <- monthrange_ndays year month ;;
  last_day <- mkdate year month last_day_num ;;
  let all_availability :=
    flat_map (fun p => get_availability_data p first_day last_day None)
             parks in
  r <- days_loop year month (day_range last_day_num) all_availability [] 0 0 ;;
  let '(calendar_days, total, weekend_total) := r in
  name <-
    match nth_error month_names (Z.to_nat (month - 1)) with
    | Some n => Ok n
    | None => Raise (KeyError "list index out of range")
    end ;;
  parks_ <- park_values parks ;;
  Ok {| cal_year := year;
        cal_month := month;
        month_name := name;
        days := calendar_days;
        cal_parks := parks_;
        total_available := total;
        weekend_available := weekend_total |}.

End Dashboard.

End Calendar.

(* ================================================================== *)
(** * src/config/parks.py: the registry *)
(* ================================================================== *)

Module Parks.

(** [class ParkInfo(BaseModel)] *)
Record ParkInfo : Type := {
  name : string;
  display_name : string;
  base_url : string;
  search_url : string;
  park_id : option string;
  region : string;
  popular_sites : list string;
  peak_season_months : list Z;
  advance_booking_days : Z;
  notes : option string
}.

Definition joshua_tree_info : ParkInfo :=
  {| name := "joshua_tree";
     display_name := "Joshua Tree National Park Area";
     base_url := "https://www.reservecalifornia.com";
     search_url := "https://www.reservecalifornia.com/Web/Search/Joshua+Tree";
     park_id := Some "JOSH";
     region := "Southern California";
     popular_sites :=
       [ "Jumbo Rocks Campground"; "Belle Campground";
         "Hidden Valley Campground"; "Ryan Campground" ];
     peak_season_months := [10; 11; 12; 1; 2; 3; 4];
     advance_booking_days := 180;
     notes :=
       Some "Desert camping, very popular in cooler months. Sites book quickly." |}.

Definition carlsbad_info : ParkInfo :=
  {| name := "carlsbad";
     display_name := "Carlsbad State Beach";
     base_url := "https://www.reservecalifornia.com";
     search_url := "https://www.reservecalifornia.com/Web/Search/Carlsbad";
     park_id := Some "CARS";
     region := "Southern California";
     popular_sites :=
       [ "Carlsbad State Beach Campground"; "South Carlsbad State Beach" ];
     peak_season_months := [6; 7; 8; 9];
     advance_booking_days := 180;
     notes :=
       Some "Coastal camping with ocean views. Extremely popular in summer." |}.

Definition oceanside_info : ParkInfo :=
  {| name := "oceanside";
     display_name := "Oceanside Area State Parks";
     base_url := "https://www.reservecalifornia.com";
     search_url := "https://www.reservecalifornia.com/Web/Search/Oceanside";
     park_id := Some "OCEAN";
     region := "Southern California";
     popular_sites :=
       [ "San Elijo State Beach"; "Cardiff State Beach";
         "Leucadia State Beach" ];
     peak_season_months := [5; 6; 7; 8; 9; 10];
     advance_booking_days := 180;
     notes :=
       Some "Multiple beach camping options. Very competitive reservations." |}.

(** [PARK_CONFIGS], in insertion order. *)
Definition PARK_CONFIGS : list (ParkEnum * ParkInfo) :=
  [ (JOSHUA_TREE, joshua_tree_info);
    (CARLSBAD, carlsbad_info);
    (OCEANSIDE, oceanside_info) ].

(** [PARK_CONFIGS[park]] *)
Fixpoint lookup (park_ : ParkEnum) (configs : list (ParkEnum * ParkInfo))
  : option ParkInfo :=
  match configs with
  | [] => None
  | (k, info) :: rest => if park_eqb k park_ then Some info else lookup park_ rest
  end.

(** [get_park_info] *)
Definition get_park_info (park_ : ParkEnum) : result ParkInfo :=
  match lookup park_ PARK_CONFIGS with
  | None => Raise (KeyError "Park not found in configuration")
  | Some info => Ok info
  end.

(** [get_all_parks] *)
Definition get_all_parks : list ParkEnum := map fst PARK_CONFIGS.

(** [month in info.peak_season_months] *)
Definition month_in (month : Z) (months : list Z) : bool :=
  existsb (Z.eqb month) months.

(** [get_peak_season_parks] *)
Definition get_peak_season_parks (month : Z) : result (list ParkEnum) :=
  if negb ((1 <=? month) && (month <=? 12)) then
    Raise (ValueError "Month must be between 1 and 12")
  else
    Ok (flat_map (fun '(park_, info) =>
                    if month_in month (peak_season_months info)
                    then [park_] else [])
                 PARK_CONFIGS).

(** [get_search_url]; an empty [check_in_date] is the default, which adds
    nothing. *)
Definition get_search_url (park_ : ParkEnum) (check_in_date_ : string)
  (nights : Z) : result string :=
  park_info <- get_park_info park_ ;;
  let url_ := search_url park_info in
  if negb (String.eqb check_in_date_ EmptyString) then
    Ok (url_ +++ "?checkin=" +++ check_in_date_ +++ "&nights="
        +++ (if nights <? 0 then "-" +++ str_of_Z (- nights)
             else str_of_Z nights))
  else Ok url_.

End Parks.

(* ================================================================== *)
(** * src/database/models.py: the other validators and methods *)
(* ================================================================== *)

Module ModelsRest.

(** The text after the first occurrence of [c], if there is one. *)
Fixpoint after_first (c : ascii) (s : string) : option string :=
  match s with
  | EmptyString => None
  | String x s' => if Ascii.eqb x c then Some s' else after_first c s'
  end.

(** The text before the first occurrence of [c], or all of it. *)
Fixpoint up_to (c : ascii) (s : string) : string :=
  match s with
  | EmptyString => EmptyString
  | String x s' => if Ascii.eqb x c then EmptyString else String x (up_to c s')
  end.

(** [v.split('@')[1]], for a [v] that contains ['@']. *)
Definition split_at_1 (v : string) : string :=
  match after_first "@"%char v with
  | Some rest => up_to "@"%char rest
  | None => EmptyString
  end.

(** [validate_email] of [AlertRule] and of [NotificationRecord]. *)
Definition validate_email (v : string) : result string :=
  if negb (contains "@" v) || negb (contains "." (split_at_1 v)) then
    Raise (ValidationError "Invalid email format")
  else Ok (strip (lower v)).

(** [AlertRule(...)]: the email, the two lists of at least one item and
    the three bounded numbers. *)
Definition new_AlertRule (id_ : option string) (email : string)
  (parks : list ParkEnum) (site_types : list SiteTypeEnum)
  (weekend_only_ : bool) (min_nights_ : Z) (max_price_ : option Q)
  (advance_notice_days_ : Z) (is_active_ : bool) : result AlertRule :=
  let r_email := validate_email email in
  let r_parks : result (list ParkEnum) :=
    match parks with
    | [] => invalid "parks: ensure this value has at least 1 items"
    | _ => Ok parks
    end in
  let r_types : result (list SiteTypeEnum) :=
    match site_types with
    | [] => invalid "site_types: ensure this value has at least 1 items"
    | _ => Ok site_types
    end in
  let r_nights : result Z :=
    if (1 <=? min_nights_) && (min_nights_ <=? 14) then Ok min_nights_
    else invalid "min_nights: must be in 1..14" in
  let r_price : result (option Q) :=
    match max_price_ with
    | Some q => if Qle_bool 0 q then Ok max_price_
                else invalid "max_price: must be >= 0"
    | None => Ok None
    end in
  let r_days : result Z :=
    if (1 <=? advance_notice_days_) && (advance_notice_days_ <=? 180)
    then Ok advance_notice_days_
    else invalid "advance_notice_days: must be in 1..180" in
  e <- r_email ;;
  ps <- r_parks ;;
  ts <- r_types ;;
  n <- r_nights ;;
  mp <- r_price ;;
  d <- r_days ;;
  Ok {| rule_id := id_; user_email := e; rule_parks := ps;
        rule_site_types := ts; weekend_only := weekend_only_;
        min_nights := n; max_price := mp; advance_notice_days := d;
        is_active := is_active_ |}.

(** [NotificationRecord.notification_key]; the park attribute holds the
    plain value. *)
Definition notification_key (r : NotificationRecord) : string :=
  park_value (n_park r) +++ "_" +++ n_site_id r +++ "_"
  +++ isoformat (n_check_in_date r).

(** [class ScrapeResult(BaseModel)]; timestamps in seconds, the raw debug
    payload left out. *)
Record ScrapeResult : Type := {
  sr_id : option string;
  sr_park : ParkEnum;
  scrape_timestamp : Z;
  completed_at : option Z;
  sites_found : Z;
  available_sites : Z;
  sr_errors : list string;
  sr_warnings : list string;
  processing_time_seconds : option Q;
  sr_success : bool
}.

(** [ScrapeResult(...)] with the fields the repository passes:
    [validate_available_sites] and the bounds of the counts. *)
Definition new_ScrapeResult (park_ : ParkEnum) (scrape_timestamp_ : Z)
  (completed_at_ : option Z) (sites_found_ available_sites_ : Z)
  (errors_ : list string) (processing_time_ : option Q) (success_ : bool)
  : result ScrapeResult :=
  let r_found : result Z :=
    if 0 <=? sites_found_ then Ok sites_found_
    else invalid "sites_found: must be >= 0" in
  let r_available : result Z :=
    if negb (0 <=? available_sites_) then
      invalid "available_sites: must be >= 0"
    else
      match to_option r_found with
      | Some found =>
          if found <? available_sites_ then
            invalid "Available sites cannot exceed total sites found"
          else Ok available_sites_
      | None => Ok available_sites_
      end in
  let r_time : result (option Q) :=
    match processing_time_ with
    | Some t => if Qle_bool 0 t then Ok processing_time_
                else invalid "processing_time_seconds: must be >= 0"
    | None => Ok None
    end in
  f <- r_found ;;
  a <- r_available ;;
  t <- r_time ;;
  Ok {| sr_id := None; sr_park := park_;
        scrape_timestamp := scrape_timestamp_; completed_at := completed_at_;
        sites_found := f; available_sites := a; sr_errors := errors_;
        sr_warnings := []; processing_time_seconds := t;
        sr_success := success_ |}.

(** [ScrapeResult.add_error] *)
Definition add_error (r : ScrapeResult) (error : string) : ScrapeResult :=
  {| sr_id := sr_id r; sr_park := sr_park r;
     scrape_timestamp := scrape_timestamp r; completed_at := completed_at r;
     sites_found := sites_found r; available_sites := available_sites r;
     sr_errors := sr_errors r ++ [error]; sr_warnings := sr_warnings r;
     processing_time_seconds := processing_time_seconds r;
     sr_success := false |}.

(** [ScrapeResult.add_warning] *)
Definition add_warning (r : ScrapeResult) (warning : string) : ScrapeResult :=
  {| sr_id := sr_id r; sr_park := sr_park r;
     scrape_timestamp := scrape_timestamp r; completed_at := completed_at r;
     sites_found := sites_found r; available_sites := available_sites r;
     sr_errors := sr_errors r; sr_warnings := sr_warnings r ++ [warning];
     processing_time_seconds := processing_time_seconds r;
     sr_success := sr_success r |}.

End ModelsRest.

(* ================================================================== *)
(** * src/database/supabase_client.py: the other operations *)
(* ================================================================== *)

Module Client.
Import Store ModelsRest.

(** The dictionaries built for the other three tables. *)
Record RuleRow : Type := {
  ar_id : string;
  ar_user_email : string;
  ar_parks : list string;
  ar_site_types : list string;
  ar_weekend_only : bool;
  ar_min_nights : Z;
  ar_max_price : option Q;
  ar_advance_notice_days : Z;
  ar_is_active : bool;
  ar_created_at : string;
  ar_updated_at : string
}.

Record NotificationRow : Type := {
  nr_id : string;
  nr_alert_rule_id : string;
  nr_campsite_availability_key : string;
  nr_recipient_email : string;
  nr_park : string;
  nr_site_id : string;
  nr_check_in_date : string;
  nr_status : string;
  nr_sent_at : option string;
  nr_error_message : option string;
  nr_retry_count : Z;
  nr_created_at : string
}.

Record ScrapeRow : Type := {
  sc_id : string;
  sc_park : string;
  sc_scrape_timestamp : string;
  sc_completed_at : option string;
  sc_sites_found : Z;
  sc_available_sites : Z;
  sc_errors : list string;
  sc_warnings : list string;
  sc_processing_time_seconds : option Q;
  sc_success : bool;
  sc_created_at : string
}.

(** The [data] of an [insert_rows] call on one of these tables: a list of
    one row. *)
Inductive one_row : Type :=
| ARule (r : RuleRow)
| ANotification (r : NotificationRow)
| AScrape (r : ScrapeRow).

(** The parameters of such a call; they carry no conflict handling. *)
Record RowInsert : Type := {
  ri_table : string;
  ri_data : one_row
}.

Section Operations.

Variable Row : Type.

(** Construction of an [AlertRule] from a row (the call in the loop of
    [get_active_alert_rules]) and the [count] entry of a row, if it has
    one. *)
Variable decode_rule : Row -> result AlertRule.
Variable row_count : Row -> option Z.

(** The tool implementations: an insert of one row and a query. *)
Variable insert_row : RowInsert -> result (Response Row).
Variable execute : string -> result (Response Row).

(** [str(uuid4())], [datetime.utcnow().isoformat()], [datetime.isoformat]
    and the text of [datetime.utcnow() - timedelta(hours=h)], which raises
    when the difference is out of range. *)
Variable uuid4 : string.
Variable utcnow_iso : string.
Variable datetime_isoformat : Z -> string.
Variable cutoff_iso : Z -> result string.

(** [_call_mcp_tool] for the two tools, every exception wrapped. *)
Definition call_insert (p : RowInsert) : result (Response Row) :=
  try_except (insert_row p)
    (fun e => Raise (SupabaseError ("MCP tool call failed: " +++ exn_str e))).

Definition call_query (query : string) : result (Response Row) :=
  try_except (execute query)
    (fun e => Raise (SupabaseError ("MCP tool call failed: " +++ exn_str e))).

(** [health_check] *)
Definition health_check : bool :=
  match call_query
          "SELECT table_name FROM information_schema.tables WHERE table_schema = 'public' LIMIT 1"
  with
  | Ok response => success Row response
  | Raise _ => false
  end.

(** [[x.value for x in xs]] on a list attribute of a model instance, whose
    items are plain values. *)
Fixpoint values_of {A} (value_of : A -> string) (xs : list A)
  : result (list string) :=
  match xs with
  | [] => Ok []
  | x :: rest =>
      v <- dot_value value_of (Plain x) ;;
      vs <- values_of value_of rest ;;
      Ok (v :: vs)
  end.

(** [create_alert_rule]: the outcome and the insert calls issued. *)
Definition create_alert_rule (alert_rule : AlertRule)
  : result string * list RowInsert :=
  let creation_failed (e : exn) : result string :=
    Raise (SupabaseError ("Alert rule creation failed: " +++ exn_str e)) in
  let rule_id_ := uuid4 in
  match
    (ps <- values_of park_value (rule_parks alert_rule) ;;
     ts <- values_of site_type_value (rule_site_types alert_rule) ;;
     Ok {| ar_id := rule_id_;
           ar_user_email := user_email alert_rule;
           ar_parks := ps;
           ar_site_types := ts;
           ar_weekend_only := weekend_only alert_rule;
           ar_min_nights := min_nights alert_rule;
           ar_max_price := max_price alert_rule;
           ar_advance_notice_days := advance_notice_days alert_rule;
           ar_is_active := is_active alert_rule;
           ar_created_at := utcnow_iso;
           ar_updated_at := utcnow_iso |})
  with
  | Raise e => (creation_failed e, [])
  | Ok record =>
      let params := {| ri_table := "alert_rules"; ri_data := ARule record |} in
      match call_insert params with
      | Raise e => (creation_failed e, [params])
      | Ok response =>
          if success Row response then (Ok rule_id_, [params])
          else
            (creation_failed
               (SupabaseError ("Failed to create alert rule: "
                               +++ str_option (error Row response))),
             [params])
      end
  end.

(** The loop of [get_active_alert_rules] over the rows. *)
Fixpoint rules_of_rows (rows_ : list Row) (alert_rules : list AlertRule)
  : result (list AlertRule) :=
  match rows_ with
  | [] => Ok alert_rules
  | row :: rest =>
      match decode_rule row with
      | Ok alert_rule => rules_of_rows rest (alert_rules ++ [alert_rule])
      | Raise (ValidationError _) | Raise (ValueError _) =>
          rules_of_rows rest alert_rules
      | Raise e => Raise e
      end
  end.

Definition active_rules_query : string :=
  newline +++ "            SELECT * FROM alert_rules"
  +++ newline +++ "            WHERE is_active = true"
  +++ newline +++ "            ORDER BY created_at"
  +++ newline +++ "            ".

(** [get_active_alert_rules] *)
Definition get_active_alert_rules : result (list AlertRule) :=
  try_except
    (response <- call_query active_rules_query ;;
     if negb (success Row response) then
       Raise (SupabaseError ("Query failed: "
                             +++ str_option (error Row response)))
     else rules_of_rows (data Row response) [])
    (fun _ => Ok []).

Definition status_text (s : NotificationStatus) : string :=
  match s with
  | PENDING => "pending" | SENT => "sent" | FAILED => "failed"
  | SKIPPED => "skipped"
  end.

(** [record_notification]: the outcome and the insert calls issued.  The
    enum attributes of the record hold plain values. *)
Definition record_notification (notification : NotificationRecord)
  : result bool * list RowInsert :=
  match
    (p <- dot_value park_value (Plain (n_park notification)) ;;
     s <- dot_value status_text (Plain (n_status notification)) ;;
     Ok {| nr_id := uuid4;
           nr_alert_rule_id := alert_rule_id notification;
           nr_campsite_availability_key :=
             campsite_availability_key notification;
           nr_recipient_email := recipient_email notification;
           nr_park := p;
           nr_site_id := n_site_id notification;
           nr_check_in_date := isoformat (n_check_in_date notification);
           nr_status := s;
           nr_sent_at := option_map datetime_isoformat (sent_at notification);
           nr_error_message := error_message notification;
           nr_retry_count := retry_count notification;
           nr_created_at := utcnow_iso |})
  with
  | Raise _ => (Ok false, [])
  | Ok record =>
      let params :=
        {| ri_table := "notification_records";
           ri_data := ANotification record |} in
      match call_insert params with
      | Raise _ => (Ok false, [params])
      | Ok response => (Ok (success Row response), [params])
      end
  end.

Definition notification_count_query (p site_id_ check_in cutoff : string)
  : string :=
  newline +++ "            SELECT COUNT(*) as count FROM notification_records"
  +++ newline +++ "            WHERE park = '" +++ p +++ "'"
  +++ newline +++ "            AND site_id = '" +++ site_id_ +++ "'"
  +++ newline +++ "            AND check_in_date = '" +++ check_in +++ "'"
  +++ newline +++ "            AND status = 'sent'"
  +++ newline +++ "            AND created_at >= '" +++ cutoff +++ "'"
  +++ newline +++ "            ".

(** [check_notification_sent]: the outcome and the queries issued. *)
Definition check_notification_sent (park_ : field ParkEnum)
  (site_id_ : string) (check_in_date_ : date) (hours_back : Z)
  : result bool * list string :=
  match
    (cutoff <- cutoff_iso hours_back ;;
     p <- dot_value park_value park_ ;;
     Ok (notification_count_query p site_id_ (isoformat check_in_date_)
           cutoff))
  with
  | Raise _ => (Ok false, [])
  | Ok query =>
      match call_query query with
      | Raise _ => (Ok false, [query])
      | Ok response =>
          if success Row response then
            match data Row response with
            | [] => (Ok false, [query])
            | row :: _ =>
                let count := match row_count row with
                             | Some c => c
                             | None => 0
                             end in
                (Ok (0 <? count), [query])
            end
          else (Ok false, [query])
      end
  end.

(** [store_scrape_result]: the outcome and the insert calls issued. *)
Definition store_scrape_result (scrape_result : ScrapeResult)
  : result bool * list RowInsert :=
  match
    (p <- dot_value park_value (Plain (sr_park scrape_result)) ;;
     Ok {| sc_id := uuid4;
           sc_park := p;
           sc_scrape_timestamp :=
             datetime_isoformat (scrape_timestamp scrape_result);
           sc_completed_at :=
             option_map datetime_isoformat (completed_at scrape_result);
           sc_sites_found := sites_found scrape_result;
           sc_available_sites := available_sites scrape_result;
           sc_errors := sr_errors scrape_result;
           sc_warnings := sr_warnings scrape_result;
           sc_processing_time_seconds :=
             processing_time_seconds scrape_result;
           sc_success := sr_success scrape_result;
           sc_created_at := utcnow_iso |})
  with
  | Raise _ => (Ok false, [])
  | Ok record =>
      let params :=
        {| ri_table := "scrape_results"; ri_data := AScrape record |} in
      match call_insert params with
      | Raise _ => (Ok false, [params])
      | Ok response => (Ok (success Row response), [params])
      end
  end.

End Operations.

Section AsDbClient.

Variable Row : Type.
Variable decode_row : Row -> result CampsiteAvailability.
Variable decode_rule : Row -> result AlertRule.
Variable row_count : Row -> option Z.
Variable insert_rows_ : InsertParams -> result (Response Row).
Variable insert_row : RowInsert -> result (Response Row).
Variable execute : string -> result (Response Row).
Variable uuid4 : string.
Variable utcnow_iso : string.
Variable datetime_isoformat : Z -> string.
Variable cutoff_iso : Z -> result string.

(** A [SupabaseClient] as the alert processor and the dashboard hold it. *)
Definition supabase_client : DbClient :=
  {| Db.get_active_alert_rules :=
       get_active_alert_rules Row decode_rule execute;
     Db.check_notification_sent :=
       fun p s d h =>
         fst (check_notification_sent Row row_count execute cutoff_iso
                p s d h);
     Db.record_notification :=
       fun n =>
         fst (record_notification Row insert_row uuid4 utcnow_iso
                datetime_isoformat n);
     Db.get_availability_by_park :=
       Store.get_availability_by_park Row decode_row insert_rows_ execute |}.

End AsDbClient.

(** The client of this build: inserts report success, queries return no
    rows. *)
Definition simulated_client (Row : Type)
  (decode_row : Row -> result CampsiteAvailability)
  (decode_rule : Row -> result AlertRule) (row_count : Row -> option Z)
  (uuid4 utcnow_iso : string) (datetime_isoformat : Z -> string)
  (cutoff_iso : Z -> result string) : DbClient :=
  supabase_client Row decode_row decode_rule row_count
    (simulated_insert Row)
    (fun _ => Ok {| success := true; error := None; data := [] |})
    (simulated_query Row)
    uuid4 utcnow_iso datetime_isoformat cutoff_iso.

End Client.

(* ================================================================== *)
(** * src/notifications/alert_rules.py: the daily summary *)
(* ================================================================== *)

Module Summary.
Import Alerts.

(** One entry of [summary['parks']]. *)
Record ParkSummary : Type := {
  ps_name : string;
  ps_available_count : nat;
  ps_weekend_count : nat;
  ps_lowest_price : option Q
}.

(** The dictionary [generate_daily_summary] returns; [ds_error] is the key
    that only the handler sets. *)
Record DailySummary : Type := {
  ds_total_available : nat;
  ds_weekend_available : nat;
  ds_notifications_sent : nat;
  ds_parks : list ParkSummary;
  ds_error : option string
}.

(** [[site.price for site in park_availability if site.price]] *)
Definition truthy_prices (sites : list CampsiteAvailability) : list Q :=
  flat_map (fun site =>
              if truthy_float (price site) then
                match price site with Some p => [p] | None => [] end
              else [])
           sites.

Section Processor.

Variable today : date.
Variable db : DbClient.

(** The body of the loop over the parks, for one park. *)
Definition park_summary (park_ : ParkEnum) (target_date : date)
  : result ParkSummary :=
  park_availability <-
    get_availability_by_park db (Member park_) (Some target_date)
      (Some target_date) (Some [Member AVAILABLE]) ;;
  let weekend_count :=
    List.length (filter (fun site => is_weekend_date (check_in_date site))
                        park_availability) in
  let lowest_price := Calendar.min_prices (truthy_prices park_availability) in
  park_info <- Parks.get_park_info park_ ;;
  Ok {| ps_name := Parks.display_name park_info;
        ps_available_count := List.length park_availability;
        ps_weekend_count := weekend_count;
        ps_lowest_price := lowest_price |}.

(** [for park in ParkEnum], with the sums kept in the summary. *)
Fixpoint parks_loop (parks : list ParkEnum) (target_date : date)
  (summary : DailySummary) : result DailySummary :=
  match parks with
  | [] => Ok summary
  | park_ :: rest =>
      s <- park_summary park_ target_date ;;
      parks_loop rest target_date
        {| ds_total_available :=
             (ds_total_available summary + ps_available_count s)%nat;
           ds_weekend_available :=
             (ds_weekend_available summary + ps_weekend_count s)%nat;
           ds_notifications_sent := ds_notifications_sent summary;
           ds_parks := ds_parks summary ++ [s];
           ds_error := ds_error summary |}
  end.

Definition empty_summary (error : option string) : DailySummary :=
  {| ds_total_available := 0; ds_weekend_available := 0;
     ds_notifications_sent := 0; ds_parks := []; ds_error := error |}.

(** [generate_daily_summary]; the default date is computed before the
    [try] block. *)
Definition generate_daily_summary (target_date : option date)
  : result DailySummary :=
  target <-
    match target_date with
    | Some d => Ok d
    | None => add_days today (-1)
    end ;;
  try_except
    (summary <- parks_loop all_parks target (empty_summary None) ;;
     Ok {| ds_total_available := ds_total_available summary;
           ds_weekend_available := ds_weekend_available summary;
           ds_notifications_sent := 0;
           ds_parks := ds_parks summary;
           ds_error := ds_error summary |})
    (fun e => Ok (empty_summary (Some (exn_str e)))).

End Processor.

End Summary.

(* ================================================================== *)
(** * src/scraper/rate_limiter.py: the token bucket and the host table *)
(* ================================================================== *)

Module TokenBucket.
Import Limiter.

Local Open Scope Q_scope.

(** How a call of [acquire] ends. *)
Inductive outcome : Type :=
| Acquired
| RaisedValueError (msg : string)
| RaisedZeroDivisionError (msg : string).

Definition set_tokens (rl : RateLimiter) (tokens_ : Q) : RateLimiter :=
  {| requests_per_minute := requests_per_minute rl;
     burst_size := burst_size rl;
     backoff_multiplier := backoff_multiplier rl;
     max_backoff_seconds := max_backoff_seconds rl;
     tokens := tokens_;
     last_update := last_update rl;
     token_rate := token_rate rl;
     consecutive_errors := consecutive_errors rl;
     last_error_time := last_error_time rl |}.

(** [str(n)] for an [int]. *)
Definition str_int (n : Z) : string :=
  if (n <? 0)%Z then "-" +++ str_of_Z (- n) else str_of_Z n.

Section Clock.

(** What [time.time()] reads after [asyncio.sleep(wait)] returns, from the
    reading before it. *)
Variable reading_after_sleep : Q -> Q -> Q.

(** [_wait_for_tokens]: [now] is what [time.time()] reads in this round of
    the loop; the division by a zero rate raises. *)
Fixpoint _wait_for_tokens_fuel (fuel : nat) (tokens_ : Z) (now : Q)
  (rl : RateLimiter) : option (RateLimiter * outcome) :=
  match fuel with
  | O => None
  | S fuel' =>
      let rl := _update_tokens now rl in
      if Qle_bool (inject_Z tokens_) (tokens rl) then Some (rl, Acquired)
      else if Qeq_bool (token_rate rl) 0 then
        Some (rl, RaisedZeroDivisionError "float division by zero")
      else
        let time_for_next_token :=
          (inject_Z tokens_ - tokens rl) / token_rate rl in
        let wait_time := py_min time_for_next_token 1 in
        _wait_for_tokens_fuel fuel' tokens_
          (reading_after_sleep now wait_time) rl
  end.

(** [acquire] *)
Definition acquire_fuel (fuel : nat) (tokens_ : Z) (now : Q)
  (rl : RateLimiter) : option (RateLimiter * outcome) :=
  if (burst_size rl <? tokens_)%Z then
    Some (rl, RaisedValueError
                ("Requested " +++ str_int tokens_
                 +++ " tokens exceeds burst size "
                 +++ str_int (burst_size rl)))
  else
    match _wait_for_tokens_fuel fuel tokens_ now rl with
    | None => None
    | Some (rl, Acquired) =>
        Some (set_tokens rl (tokens rl - inject_Z tokens_), Acquired)
    | Some (rl, raised) => Some (rl, raised)
    end.

End Clock.

(** [get_status]: the refreshed limiter and the five values of the
    dictionary, or the exception the property [is_backing_off] raised. *)
Definition get_status (now : Q) (rl : RateLimiter)
  : RateLimiter * result (Q * Z * Z * bool * option Q) :=
  let rl := _update_tokens now rl in
  (rl,
   backing_off <- is_backing_off now rl ;;
   Ok (tokens rl, requests_per_minute rl, consecutive_errors rl,
       backing_off, last_error_time rl)).

End TokenBucket.

Module HostLimiter.
Import Limiter.

(** [class HostRateLimiter]: [limiters] in insertion order. *)
Record HostRateLimiter : Type := {
  default_requests_per_minute : Z;
  limiters : list (string * RateLimiter)
}.

Definition init (default_requests_per_minute_ : Z) : HostRateLimiter :=
  {| default_requests_per_minute := default_requests_per_minute_;
     limiters := [] |}.

(** [self.limiters[host]], when the host is a key. *)
Fixpoint get (host : string) (table : list (string * RateLimiter))
  : option RateLimiter :=
  match table with
  | [] => None
  | (h, rl) :: rest => if String.eqb h host then Some rl else get host rest
  end.

(** The limiter of [host] after a method changed it. *)
Fixpoint put (host : string) (rl : RateLimiter)
  (table : list (string * RateLimiter)) : list (string * RateLimiter) :=
  match table with
  | [] => [(host, rl)]
  | (h, old) :: rest =>
      if String.eqb h host then (h, rl) :: rest
      else (h, old) :: put host rl rest
  end.

Definition with_limiters (hl : HostRateLimiter)
  (table : list (string * RateLimiter)) : HostRateLimiter :=
  {| default_requests_per_minute := default_requests_per_minute hl;
     limiters := table |}.

Section Clock.

Variable reading_after_sleep : Q -> Q -> Q.

(** [acquire]: [created] is what [time.time()] reads in the constructor of
    a new limiter, [now] what it first reads in [RateLimiter.acquire]. *)
Definition acquire_fuel (fuel : nat) (host : string) (tokens_ : Z)
  (requests_per_minute_ : option Z) (created now : Q) (hl : HostRateLimiter)
  : option (HostRateLimiter * TokenBucket.outcome) :=
  let rl :=
    match get host (limiters hl) with
    | Some rl => rl
    | None =>
        let rpm :=
          match requests_per_minute_ with
          | Some r =>
              if (r =? 0)%Z then default_requests_per_minute hl else r
          | None => default_requests_per_minute hl
          end in
        Limiter.init created rpm None 2 300
    end in
  match TokenBucket.acquire_fuel reading_after_sleep fuel tokens_ now rl with
  | None => None
  | Some (rl, out) => Some (with_limiters hl (put host rl (limiters hl)), out)
  end.

End Clock.

(** [handle_error]: the table and, when the host has a limiter, the
    duration its [handle_error] slept or the exception it raised. *)
Definition handle_error (host : string) (now : Q) (hl : HostRateLimiter)
  : HostRateLimiter * option (result Q) :=
  match get host (limiters hl) with
  | Some rl =>
      let '(rl, slept) := Limiter.handle_error now rl in
      (with_limiters hl (put host rl (limiters hl)), Some slept)
  | None => (hl, None)
  end.

(** [handle_success] *)
Definition handle_success (host : string) (hl : HostRateLimiter)
  : HostRateLimiter :=
  match get host (limiters hl) with
  | Some rl =>
      with_limiters hl (put host (Limiter.handle_success rl) (limiters hl))
  | None => hl
  end.

End HostLimiter.

(* ================================================================== *)
(** * src/scraper/crawl4ai_client.py: the query filters and the result *)
(* ================================================================== *)

Module Crawl.
Import ModelsRest.

(** Python truthiness of an [Optional[int]]: [None] and [0] are falsy. *)
Definition truthy_int (x : option Z) : bool :=
  match x with
  | None => false
  | Some n => negb (n =? 0)
  end.

(** [[st.value for st in site_types]] *)
Fixpoint values_of (site_types : list (field SiteTypeEnum))
  : result (list string) :=
  match site_types with
  | [] => Ok []
  | st :: rest =>
      v <- dot_value site_type_value st ;;
      vs <- values_of rest ;;
      Ok (v :: vs)
  end.

(** [[st.value for st in query.site_types] if query.site_types else None];
    the query holds plain values. *)
Definition site_types_argument (query : CampsiteSearchQuery)
  : result (option (list string)) :=
  match q_site_types query with
  | Some (t :: ts) =>
      vs <- values_of (map Plain (t :: ts)) ;;
      Ok (Some vs)
  | _ => Ok None
  end.

(** The three filters of the loop: [true] when the record is appended. *)
Definition keeps (query : CampsiteSearchQuery) (avail : CampsiteAvailability)
  : bool :=
  negb (truthy_float (q_max_price query) && truthy_float (price avail)
        && match price avail, q_max_price query with
           | Some p, Some m => negb (Qle_bool p m)
           | _, _ => false
           end)
  && negb (q_weekend_only query && (weekday (check_in_date avail) <? 5))
  && negb (truthy_int (min_occupancy query)
           && truthy_int (max_occupancy avail)
           && match max_occupancy avail, min_occupancy query with
              | Some o, Some m => o <? m
              | _, _ => false
              end).

(** [results[park] = value] on a dictionary in insertion order. *)
Fixpoint dict_set {V} (key : ParkEnum) (value : V)
  (d : list (ParkEnum * V)) : list (ParkEnum * V) :=
  match d with
  | [] => [(key, value)]
  | (k, v) :: rest =>
      if park_eqb k key then (k, value) :: rest
      else (k, v) :: dict_set key value rest
  end.

Fixpoint dict_get {V} (key : ParkEnum) (d : list (ParkEnum * V))
  : option V :=
  match d with
  | [] => None
  | (k, v) :: rest => if park_eqb k key then Some v else dict_get key rest
  end.

Section Client.

(** [scrape_park_availability], as its n-th call answers. *)
Variable scrape_park_availability :
  nat -> ParkEnum -> date * date -> option (list string)
  -> result (list CampsiteAvailability).

(** [for park in query.parks]: the dictionary and the parks the scraper
    was called for, in order. *)
Fixpoint parks_loop (parks : list ParkEnum) (query : CampsiteSearchQuery)
  (results : list (ParkEnum * list CampsiteAvailability))
  (calls : list ParkEnum)
  : list (ParkEnum * list CampsiteAvailability) * list ParkEnum :=
  match parks with
  | [] => (results, calls)
  | park_ :: rest =>
      match site_types_argument query with
      | Raise _ => parks_loop rest query (dict_set park_ [] results) calls
      | Ok site_types =>
          match scrape_park_availability (List.length calls) park_
                  (start_date query, end_date query) site_types with
          | Raise _ =>
              parks_loop rest query (dict_set park_ [] results)
                (calls ++ [park_])
          | Ok availability =>
              parks_loop rest query
                (dict_set park_ (filter (keeps query) availability) results)
                (calls ++ [park_])
          end
      end
  end.

(** [scrape_multiple_parks] *)
Definition scrape_multiple_parks (query : CampsiteSearchQuery)
  : list (ParkEnum * list CampsiteAvailability) * list ParkEnum :=
  parks_loop (q_parks query) query [] [].

End Client.

(** [get_scrape_result], called at [utcnow]; times in seconds. *)
Definition get_scrape_result (utcnow : Z) (park_ : ParkEnum) (start_time : Z)
  (availability_count : Z) (errors_ : option (list string)) (success_ : bool)
  : result ScrapeResult :=
  let end_time := utcnow in
  let processing_time := inject_Z (end_time - start_time) in
  new_ScrapeResult park_ start_time (Some end_time) availability_count
    availability_count
    (match errors_ with Some (e :: es) => e :: es | _ => [] end)
    (Some processing_time) success_.

End Crawl.

(* ================================================================== *)
(** * Properties *)
(* ================================================================== *)

(** ** Calendar and string helpers on known values *)

Example ymd2ord_2026_11_04 : ymd2ord 2026 11 4 = 739924.
Proof. reflexivity. Qed.

Example weekday_2024_02_29_is_thursday : weekday (ymd2ord 2024 2 29) = 3.
Proof. reflexivity. Qed.

Example weekday_2000_01_01_is_saturday : weekday (ymd2ord 2000 1 1) = 5.
Proof. reflexivity. Qed.

Example ord2ymd_2024_02_29 : ord2ymd 738945 = (2024, 2, 29).
Proof. reflexivity. Qed.

Example ord2ymd_date_max : ord2ymd MAXORDINAL = (9999, 12, 31).
Proof. reflexivity. Qed.

Example isoformat_2026_11_14 : isoformat 739934 = "2026-11-14".
Proof. reflexivity. Qed.

Example strip_lower_reserved : strip (lower "  Reserved ") = "reserved".
Proof. reflexivity. Qed.

Example chunks_of_seven_by_three :
  chunks 3 [1; 2; 3; 4; 5; 6; 7] = [[1; 2; 3]; [4; 5; 6]; [7]].
Proof. reflexivity. Qed.

Lemma park_eqb_eq a b : park_eqb a b = true <-> a = b.
Proof. destruct a, b; simpl; split; congruence. Qed.

Lemma site_type_eqb_eq a b : site_type_eqb a b = true <-> a = b.
Proof. destruct a, b; simpl; split; congruence. Qed.

Lemma status_eqb_eq a b : status_eqb a b = true <-> a = b.
Proof. destruct a, b; simpl; split; congruence. Qed.

Lemma nstatus_eqb_eq a b : nstatus_eqb a b = true <-> a = b.
Proof. destruct a, b; simpl; split; congruence. Qed.

(* ------------------------------------------------------------------ *)
(** ** The reservation parser *)
(* ------------------------------------------------------------------ *)

Module ParserProofs.
Import Parser.

Definition never_closed : exn := SyntaxError "'(' was never closed".

(** Lines 1 to 298 of the module leave no bracket open: the first unclosed
    bracket is the one of line 299. *)
Lemma lines_before_299_are_balanced :
  scan_source (firstn 298 reservation_parser_py) = lex_start.
Proof. vm_compute. reflexivity. Qed.

(** C2.  In reservation_parser.py the assignments to [site_name] (line 299)
    and [site_type_raw] (line 302) each open one more parenthesis than they
    close; read by the lexer, the whole file ends with these two parentheses
    still open, so importing the module raises [SyntaxError] and every
    operation of the parser, reached through the import, raises with it for
    every input. *)
Theorem reservation_parser_never_loads :
  nth 298 reservation_parser_py EmptyString
  = "            site_name = item.get('siteName', item.get('name', item.get('site_name', f'Site {site_id}'))"
  /\ nth 301 reservation_parser_py EmptyString
     = "            site_type_raw = item.get('siteType', item.get('type', item.get('site_type', 'tent'))"
  /\ open_brackets
       (scan_line 299 (nth 298 reservation_parser_py EmptyString) lex_start)
     = [("("%char, 299%nat)]
  /\ open_brackets
       (scan_line 302 (nth 301 reservation_parser_py EmptyString) lex_start)
     = [("("%char, 302%nat)]
  /\ open_brackets (scan_source reservation_parser_py)
     = [("("%char, 302%nat); ("("%char, 299%nat)]
  /\ import_reservation_parser = Raise never_closed
  /\ forall (A B : Type) (operation : ReservationParser -> A -> B) (input : A),
       call_parser operation input = Raise never_closed.
Proof.
  assert (Himport : import_reservation_parser = Raise never_closed)
    by (vm_compute; reflexivity).
  split; [vm_compute; reflexivity |].
  split; [vm_compute; reflexivity |].
  split; [vm_compute; reflexivity |].
  split; [vm_compute; reflexivity |].
  split; [vm_compute; reflexivity |].
  split; [exact Himport |].
  intros A B operation input. unfold call_parser.
  rewrite Himport. reflexivity.
Qed.

(** The table itself maps both tokens to booked. *)
Lemma status_mapping_says_booked :
  In ("unavailable", BOOKED) status_mapping /\ In ("na", BOOKED) status_mapping.
Proof. split; simpl; tauto. Qed.

(** C3.  As written, [_normalize_status] sends the tokens "unavailable" and
    "na" to available, not to booked: the keys are tried in insertion order
    and the earlier keys "available" and "a" are contained in them. *)
Theorem normalize_status_unavailable_and_na :
  _normalize_status "unavailable" = AVAILABLE
  /\ _normalize_status "na" = AVAILABLE
  /\ contains "available" "unavailable" = true
  /\ contains "a" "na" = true.
Proof. repeat split; reflexivity. Qed.

(** The tokens of the spec's own example still normalize to booked. *)
Example normalize_status_reserved :
  map _normalize_status ["Reserved"; "r"; "RESERVED"] = [BOOKED; BOOKED; BOOKED].
Proof. reflexivity. Qed.

End ParserProofs.

(* ------------------------------------------------------------------ *)
(** ** The rate limiter *)
(* ------------------------------------------------------------------ *)

Module LimiterProofs.
Import Limiter.

Local Open Scope Q_scope.













End LimiterProofs.

(* ------------------------------------------------------------------ *)
(** ** The search query *)
(* ------------------------------------------------------------------ *)

Module QueryProofs.

(** The dates from [start] on, [n] of them, in ascending order. *)
Fixpoint span (start : date) (n : nat) : list date :=
  match n with
  | O => []
  | S n' => start :: span (start + 1) n'
  end.

(** Every date from the start date to the end date inclusive. *)
Definition dates_from_to (start_ end_ : date) : list date :=
  span start_ (Z.to_nat (end_ + 1 - start_)).

(** Saturday or Sunday. *)
Definition is_sat_or_sun (d : date) : bool :=
  (weekday d =? 5) || (weekday d =? 6).

Lemma weekday_range d : 0 <= weekday d < 7.
Proof. unfold weekday. apply Z.mod_pos_bound. lia. Qed.

Lemma weekend_test_is_sat_or_sun d : (5 <=? weekday d) = is_sat_or_sun d.
Proof.
  unfold is_sat_or_sun. pose proof (weekday_range d) as H.
  destruct (Z.leb_spec 5 (weekday d)) as [Hle | Hlt];
    destruct (Z.eqb_spec (weekday d) 5); destruct (Z.eqb_spec (weekday d) 6);
    simpl; try reflexivity; lia.
Qed.

Lemma span_In start n d : In d (span start n) <-> start <= d < start + Z.of_nat n.
Proof.
  revert start. induction n as [|n IH]; intro start; simpl.
  - split; [tauto | lia].
  - rewrite IH. lia.
Qed.

Lemma date_range_loop_spec (wo : bool) (end_ : date) :
  end_ < MAXORDINAL ->
  forall (fuel : nat) (current : date) (dates : list date),
    1 <= current ->
    (Z.to_nat (end_ + 1 - current) < fuel)%nat ->
    date_range_loop fuel wo end_ current dates
    = Some (Ok (dates
                ++ filter (fun d => negb wo || (5 <=? weekday d))
                          (dates_from_to current end_))).
Proof.
  intros Hend fuel. induction fuel as [|fuel IH]; intros current dates Hc Hf.
  - lia.
  - simpl. unfold dates_from_to.
    destruct (Z.leb_spec current end_) as [Hle | Hgt].
    + unfold fromordinal.
      replace ((1 <=? current + 1) && (current + 1 <=? MAXORDINAL)) with true
        by (symmetry; apply andb_true_iff; split; apply Z.leb_le; lia).
      rewrite IH by lia.
      replace (Z.to_nat (end_ + 1 - current))
        with (S (Z.to_nat (end_ + 1 - (current + 1)))) by lia.
      simpl span. simpl filter. unfold dates_from_to.
      destruct (negb wo || (5 <=? weekday current)).
      * rewrite <- app_assoc. reflexivity.
      * reflexivity.
    + replace (Z.to_nat (end_ + 1 - current)) with 0%nat by lia.
      simpl. rewrite app_nil_r. reflexivity.
Qed.

(** The constructor rejects a range that does not go forward and a start
    date in the past. *)
Lemma new_CampsiteSearchQuery_rejects (today : date) parks start_ end_
  site_types max_price_ min_occupancy_ weekend_only_ :
  end_ <= start_ \/ start_ < today ->
  is_ok (new_CampsiteSearchQuery today parks start_ end_ site_types max_price_
           min_occupancy_ weekend_only_) = false.
Proof.
  intros H. unfold new_CampsiteSearchQuery, validate_start_date.
  destruct parks as [|p ps]; [reflexivity |]. simpl.
  destruct (Z.ltb_spec start_ today) as [Hpast | Hfut]; [reflexivity |].
  simpl. destruct (Z.leb_spec end_ start_) as [Hle | Hgt]; [reflexivity |].
  lia.
Qed.

Lemma new_CampsiteSearchQuery_fields (today : date) parks start_ end_
  site_types max_price_ min_occupancy_ weekend_only_ q :
  new_CampsiteSearchQuery today parks start_ end_ site_types max_price_
    min_occupancy_ weekend_only_ = Ok q ->
  start_date q = start_ /\ end_date q = end_
  /\ q_weekend_only q = weekend_only_ /\ today <= start_ < end_.
Proof.
  unfold new_CampsiteSearchQuery, validate_start_date.
  destruct parks as [|p ps]; [discriminate |]. simpl.
  destruct (Z.ltb_spec start_ today) as [Hpast | Hfut]; [discriminate |].
  simpl. destruct (Z.leb_spec end_ start_) as [Hle | Hgt]; [discriminate |].
  simpl.
  destruct max_price_ as [mp|]; [destruct (Qle_bool 0 mp); [| discriminate] |];
    (destruct min_occupancy_ as [mo|];
       [destruct (1 <=? mo); [| discriminate] |]);
    simpl; intro H; inversion H; subst; simpl; repeat split; lia.
Qed.

(** The date sequence is as specified for every query whose end
    date is before [date.max]: the sequence is returned, and it lists the
    dates from start to end in ascending order, all of them, or the
    Saturdays and Sundays among them when the flag is set. *)
Lemma get_date_range_before_date_max (today : date) parks start_ end_
  site_types max_price_ min_occupancy_ weekend_only_ q :
  1 <= today -> end_ < MAXORDINAL ->
  new_CampsiteSearchQuery today parks start_ end_ site_types max_price_
    min_occupancy_ weekend_only_ = Ok q ->
  get_date_range q
  = Some (Ok (if weekend_only_
              then filter is_sat_or_sun (dates_from_to start_ end_)
              else dates_from_to start_ end_)).
Proof.
  intros Htoday Hend Hq.
  apply new_CampsiteSearchQuery_fields in Hq.
  destruct Hq as (Hs & He & Hw & Hrange).
  unfold get_date_range, get_date_range_fuel. rewrite Hs, He, Hw.
  rewrite date_range_loop_spec by lia. simpl app.
  destruct weekend_only_; simpl negb; simpl orb.
  - f_equal. f_equal. apply filter_ext. intro d.
    apply weekend_test_is_sat_or_sun.
  - f_equal. f_equal. clear. induction (dates_from_to start_ end_) as [|d l IH].
    + reflexivity.
    + simpl. rewrite IH. reflexivity.
Qed.

(** C9.  A query ending on 9999-12-31 ([date.max]) is validly constructed,
    and [get_date_range] raises on it instead of returning the dates: after
    the last date the loop still computes
    [date.fromordinal(current.toordinal() + 1)], which is out of range. *)
Theorem get_date_range_raises_at_date_max :
  let today := ymd2ord 2026 11 4 in
  let start_ := ymd2ord 9999 12 30 in
  let end_ := ymd2ord 9999 12 31 in
  exists q,
    new_CampsiteSearchQuery today [CARLSBAD] start_ end_ None None None false
    = Ok q
    /\ start_date q = start_ /\ end_date q = end_
    /\ get_date_range q
       = Some (Raise (ValueError "ordinal or year is out of range")).
Proof.
  eexists. split; [vm_compute; reflexivity |].
  repeat split.
Qed.

End QueryProofs.

(* ------------------------------------------------------------------ *)
(** ** The direct scraper *)
(* ------------------------------------------------------------------ *)

Module DirectProofs.
Import Direct.

(** What the constructor stores comes from the keywords named after the
    declared fields, and from nothing else. *)
Lemma new_CampsiteAvailability_fields (today : date) (now : Z) (args : kwargs)
  (a : CampsiteAvailability) :
  new_CampsiteAvailability today now args = Ok a ->
  coerce_status (kw "status" args) = Ok (status a)
  /\ coerce_url (kw "url" args) = Ok (url a)
  /\ validate_future_date today (kw "check_in_date" args)
     = Ok (check_in_date a).
Proof.
  unfold new_CampsiteAvailability.
  repeat match goal with
         | |- context [bind ?r _] => destruct r; simpl; [| discriminate]
         end.
  intro H. inversion H; subst; simpl. repeat split.
Qed.

Lemma rstrip_head_not_space c s :
  is_space c = false -> rstrip (String c s) <> EmptyString.
Proof.
  intro Hc. simpl. destruct (rstrip s); [rewrite Hc |]; discriminate.
Qed.

Lemma validate_not_empty_head c s :
  is_space c = false ->
  exists t, validate_not_empty (Some (VStr (String c s))) = Ok t.
Proof.
  intro Hc.
  assert (Hne : String.eqb (rstrip (String c s)) EmptyString = false)
    by (apply String.eqb_neq; apply rstrip_head_not_space; exact Hc).
  unfold validate_not_empty, strip.
  change (lstrip (String c s)) with (if is_space c then lstrip s else String c s).
  rewrite Hc, Hne.
  change (String.eqb (String c s) EmptyString) with false.
  eexists. reflexivity.
Qed.

Section Scraper.

Variable today : date.
Variable utcnow : date -> Z.

(** The property of a synthesized record: stored status available, no URL,
    check-in date not in the past. *)
Definition synthesized (a : CampsiteAvailability) : Prop :=
  status a = Plain AVAILABLE /\ url a = None /\ today <= check_in_date a.

Ltac body_sound :=
  let a := fresh "a" in
  let H := fresh "H" in
  let E := fresh "E" in
  let Hs := fresh "Hs" in
  let Hu := fresh "Hu" in
  let Hd := fresh "Hd" in
  intros ? ? a H;
  match type of H with
  | ?f _ _ _ _ = _ => unfold f in H
  end;
  destruct (weekday_in _ _); [| discriminate];
  destruct (add_days _ 1); simpl in H; [| discriminate];
  match type of H with
  | context [new_CampsiteAvailability ?t ?n ?args] =>
      destruct (new_CampsiteAvailability t n args) as [r|] eqn:E;
      simpl in H; [| discriminate]
  end;
  inversion H; subst; clear H;
  apply new_CampsiteAvailability_fields in E;
  destruct E as (Hs & Hu & Hd);
  cbn in Hs, Hu, Hd;
  unfold synthesized;
  repeat split;
  [ congruence
  | congruence
  | match type of Hd with
    | context [?d <? today] =>
        destruct (Z.ltb_spec d today); [discriminate | inversion Hd; subst; lia]
    end ].

Lemma carlsbad_body_sound park current a :
  carlsbad_body today utcnow park current = Ok (Some a) -> synthesized a.
Proof. revert park current a. body_sound. Qed.

Lemma joshua_tree_body_sound park current a :
  joshua_tree_body today utcnow park current = Ok (Some a) -> synthesized a.
Proof. revert park current a. body_sound. Qed.

Lemma oceanside_body_sound park current a :
  oceanside_body today utcnow park current = Ok (Some a) -> synthesized a.
Proof. revert park current a. body_sound. Qed.

Lemma sample_loop_invariant (P : CampsiteAvailability -> Prop)
  (body : date -> result (option CampsiteAvailability)) (end_ : date) :
  (forall current a, body current = Ok (Some a) -> P a) ->
  forall (fuel : nat) (current : date) (acc recs : list CampsiteAvailability),
    Forall P acc ->
    sample_loop fuel body end_ current acc = Some (Ok recs) ->
    Forall P recs.
Proof.
  intros Hbody fuel. induction fuel as [|fuel IH]; intros current acc recs Hacc H.
  - discriminate.
  - simpl in H. destruct (current <=? end_).
    + destruct (body current) as [appended|] eqn:Eb; [| discriminate].
      destruct (add_days current 1) as [next|]; [| discriminate].
      apply IH in H; [exact H |].
      destruct appended as [a|]; [| exact Hacc].
      apply Forall_app. split; [exact Hacc |].
      constructor; [| constructor]. eapply Hbody. exact Eb.
    + inversion H; subst. exact Hacc.
Qed.

Lemma sample_loop_returns
  (body : date -> result (option CampsiteAvailability)) (lo end_ : date) :
  (forall current, lo <= current <= end_ -> exists r, body current = Ok r) ->
  1 <= lo -> end_ < MAXORDINAL ->
  forall (fuel : nat) (current : date) (acc : list CampsiteAvailability),
    lo <= current ->
    (Z.to_nat (end_ + 1 - current) < fuel)%nat ->
    exists recs, sample_loop fuel body end_ current acc = Some (Ok recs).
Proof.
  intros Hbody Hlo Hend fuel.
  induction fuel as [|fuel IH]; intros current acc Hc Hf.
  - lia.
  - simpl. destruct (Z.leb_spec current end_) as [Hle | Hgt].
    + destruct (Hbody current) as [r Hr]; [lia |]. rewrite Hr.
      unfold add_days.
      replace ((0 <? current + 1) && (current + 1 <=? MAXORDINAL)) with true
        by (symmetry; apply andb_true_iff; split;
            [apply Z.ltb_lt | apply Z.leb_le]; lia).
      apply IH; lia.
    + eexists. reflexivity.
Qed.

Ltac body_returns :=
  let t1 := fresh "t" in
  let Ht1 := fresh "Ht" in
  let t2 := fresh "t" in
  let Ht2 := fresh "Ht" in
  intros ? ? ? ? ?;
  match goal with
  | |- exists r, ?f _ _ _ _ = Ok r => unfold f
  end;
  destruct (weekday_in _ _); [| eexists; reflexivity];
  unfold add_days;
  match goal with
  | |- context [(0 <? ?c + 1) && (?c + 1 <=? MAXORDINAL)] =>
      replace ((0 <? c + 1) && (c + 1 <=? MAXORDINAL)) with true
        by (symmetry; apply andb_true_iff; split;
            [apply Z.ltb_lt | apply Z.leb_le]; lia)
  end;
  cbn -[append str_of_Z strftime_md validate_not_empty Z.add Z.modulo
        weekday Z.leb Z.ltb day_of];
  cbn [append];
  match goal with
  | |- context [validate_not_empty (Some (VStr (String ?c ?s)))] =>
      destruct (validate_not_empty_head c s eq_refl) as [t1 Ht1]
  end;
  rewrite Ht1; cbn [bind];
  match goal with
  | |- context [validate_not_empty (Some (VStr (String ?c ?s)))] =>
      destruct (validate_not_empty_head c s eq_refl) as [t2 Ht2]
  end;
  rewrite Ht2; cbn [bind];
  match goal with
  | |- context [?d <? today] =>
      replace (d <? today) with false by (symmetry; apply Z.ltb_ge; lia)
  end;
  cbn [bind];
  try match goal with
      | |- context [5 <=? weekday ?c] => destruct (5 <=? weekday c)
      end;
  eexists; reflexivity.

Lemma carlsbad_body_returns park current :
  1 <= today -> today <= current -> current < MAXORDINAL ->
  exists r, carlsbad_body today utcnow park current = Ok r.
Proof. revert park current. body_returns. Qed.

Lemma joshua_tree_body_returns park current :
  1 <= today -> today <= current -> current < MAXORDINAL ->
  exists r, joshua_tree_body today utcnow park current = Ok r.
Proof. revert park current. body_returns. Qed.

Lemma oceanside_body_returns park current :
  1 <= today -> today <= current -> current < MAXORDINAL ->
  exists r, oceanside_body today utcnow park current = Ok r.
Proof. revert park current. body_returns. Qed.

End Scraper.

Lemma kw_app_extra (name : string) (args extra : kwargs) :
  kw name extra = None -> kw name (args ++ extra) = kw name args.
Proof.
  intro Hx. induction args as [|[k v] rest IH]; simpl.
  - exact Hx.
  - destruct (String.eqb k name); [reflexivity | exact IH].
Qed.

(** Keywords [check_out_date] and [booking_url] name no field of the model:
    with or without them the constructor builds the same record. *)
Lemma constructor_ignores_undeclared_keywords (today : date) (now : Z)
  (args : kwargs) (v1 v2 : pyval) :
  new_CampsiteAvailability today now
    (args ++ [("check_out_date", v1); ("booking_url", v2)])
  = new_CampsiteAvailability today now args.
Proof.
  unfold new_CampsiteAvailability.
  repeat rewrite kw_app_extra by reflexivity. reflexivity.
Qed.

(** C10.  Whatever the park and the date range, every record the direct
    scraper returns has status available and no URL, the keyword
    [booking_url] naming no field of the model; and when the start of the
    range is not in the past (and the range ends before [date.max]) the
    scraper does return a list of records. *)
Theorem direct_scraper_records (today : date) (utcnow : date -> Z)
  (park : ParkEnum) (start_ end_ : date) :
  1 <= today -> today <= start_ ->
  (end_ < MAXORDINAL ->
   exists recs,
     scrape_park_availability today utcnow park (start_, end_)
     = Some (Ok recs))
  /\ (forall (fuel : nat) (recs : list CampsiteAvailability),
        scrape_park_availability_fuel today utcnow fuel park (start_, end_)
        = Some (Ok recs) ->
        Forall (fun a => fval (status a) = AVAILABLE /\ url a = None) recs).
Proof.
  intros Htoday Hstart. split.
  - intro Hend. unfold scrape_park_availability, scrape_park_availability_fuel.
    simpl fst. simpl snd.
    destruct park.
    + apply sample_loop_returns with (lo := start_); try lia.
      intros current Hc. apply joshua_tree_body_returns; lia.
    + apply sample_loop_returns with (lo := start_); try lia.
      intros current Hc. apply carlsbad_body_returns; lia.
    + apply sample_loop_returns with (lo := start_); try lia.
      intros current Hc. apply oceanside_body_returns; lia.
  - intros fuel recs H.
    assert (Hs : Forall (synthesized today) recs).
    { unfold scrape_park_availability_fuel in H. destruct park.
      - eapply sample_loop_invariant; [| constructor | exact H].
        intros current a. apply joshua_tree_body_sound.
      - eapply sample_loop_invariant; [| constructor | exact H].
        intros current a. apply carlsbad_body_sound.
      - eapply sample_loop_invariant; [| constructor | exact H].
        intros current a. apply oceanside_body_sound. }
    eapply Forall_impl; [| exact Hs].
    intros a (Hst & Hu & _). rewrite Hst. split; [reflexivity | exact Hu].
Qed.

(** The week from Wednesday 2026-11-04 at Carlsbad. *)
Lemma direct_scraper_records_witness :
  exists recs,
    scrape_park_availability 739924 (fun _ => 0) CARLSBAD (739924, 739930)
    = Some (Ok recs).
Proof.
  apply (direct_scraper_records 739924 (fun _ => 0) CARLSBAD 739924 739930);
    unfold MAXORDINAL; lia.
Defined.

Example direct_scraper_week :
  option_map (fun r => match r with
                       | Ok recs => map (fun a => (site_id a, check_in_date a, price a, url a)) recs
                       | Raise _ => []
                       end)
    (scrape_park_availability 739924 (fun _ => 0) CARLSBAD (739924, 739930))
  = Some [ ("CARL-1106-47", 739926, Some 55%Q, None);
           ("CARL-1109-47", 739929, Some 55%Q, None);
           ("CARL-1110-47", 739930, Some 55%Q, None) ].
Proof. vm_compute. reflexivity. Qed.

End DirectProofs.

(* ------------------------------------------------------------------ *)
(** ** Slicing a list into chunks *)
(* ------------------------------------------------------------------ *)

Module ChunkProofs.

Lemma chunks_nil {A} (n : nat) : (0 < n)%nat -> chunks n (@nil A) = [].
Proof.
  intro Hn. unfold chunks, range_step. simpl List.length.
  replace ((0 + n - 1) / n)%nat with 0%nat; [reflexivity |].
  symmetry. apply Nat.div_small. lia.
Qed.

Lemma range_count_step (len n : nat) :
  (0 < n)%nat -> (0 < len)%nat ->
  ((len + n - 1) / n = S ((len - n + n - 1) / n))%nat.
Proof.
  intros Hn Hlen. destruct (Nat.le_gt_cases n len) as [Hge | Hlt].
  - replace (len + n - 1)%nat with ((len - n + n - 1) + 1 * n)%nat by lia.
    rewrite Nat.div_add by lia. lia.
  - replace (len - n + n - 1)%nat with (n - 1)%nat by lia.
    rewrite (Nat.div_small (n - 1) n) by lia.
    replace (len + n - 1)%nat with ((len - 1) + 1 * n)%nat by lia.
    rewrite Nat.div_add by lia. rewrite Nat.div_small by lia. reflexivity.
Qed.

(** The comprehension goes chunk by chunk through the list. *)
Lemma chunks_step {A} (n : nat) (l : list A) :
  (0 < n)%nat -> l <> [] ->
  chunks n l = firstn n l :: chunks n (skipn n l).
Proof.
  intros Hn Hl. unfold chunks, range_step.
  assert (Hlen : (0 < List.length l)%nat)
    by (destruct l; [congruence | simpl; lia]).
  rewrite (range_count_step (List.length l) n Hn Hlen).
  rewrite length_skipn. simpl seq. simpl map. f_equal.
  - unfold slice. simpl. f_equal. lia.
  - rewrite <- seq_shift. rewrite !map_map. apply map_ext.
    intro k. unfold slice.
    replace (S k * n + n - S k * n)%nat with n by lia.
    replace (k * n + n - k * n)%nat with n by lia.
    rewrite skipn_skipn. f_equal. f_equal. lia.
Qed.

(** Induction along the chunks. *)
Lemma chunks_ind {A} (n : nat) (P : list A -> Prop) :
  (0 < n)%nat ->
  P [] ->
  (forall l, l <> [] -> P (skipn n l) -> P l) ->
  forall l, P l.
Proof.
  intros Hn Hnil Hstep l.
  remember (List.length l) as k eqn:Hk.
  revert l Hk. induction k as [k IH] using lt_wf_ind. intros l Hk.
  destruct l as [|x l'].
  - exact Hnil.
  - apply Hstep; [discriminate |].
    apply (IH (List.length (skipn n (x :: l')))); [| reflexivity].
    rewrite length_skipn. subst k. simpl List.length. lia.
Qed.

Lemma concat_chunks {A} (n : nat) (l : list A) :
  (0 < n)%nat -> List.concat (chunks n l) = l.
Proof.
  intro Hn. revert l. apply (chunks_ind n); [exact Hn | | intros l Hl IH].
  - rewrite chunks_nil by exact Hn. reflexivity.
  - rewrite chunks_step by assumption. simpl. rewrite IH.
    apply firstn_skipn.
Qed.

Lemma chunks_bounds {A} (n : nat) (l : list A) :
  (0 < n)%nat ->
  Forall (fun c => (0 < List.length c <= n)%nat) (chunks n l).
Proof.
  intro Hn. revert l. apply (chunks_ind n); [exact Hn | | intros l Hl IH].
  - rewrite chunks_nil by exact Hn. constructor.
  - rewrite chunks_step by assumption. constructor; [| exact IH].
    rewrite length_firstn. destruct l; [congruence | simpl; lia].
Qed.

Lemma length_chunks {A} (n : nat) (l : list A) :
  List.length (chunks n l) = ((List.length l + n - 1) / n)%nat.
Proof.
  unfold chunks, range_step. rewrite !length_map. apply length_seq.
Qed.

Lemma chunks_nonempty {A} (n : nat) (l : list A) :
  (0 < n)%nat -> Forall (fun c => c <> []) (chunks n l).
Proof.
  intro Hn. eapply Forall_impl; [| apply chunks_bounds; exact Hn].
  intros c [Hc _] E. subst c. simpl in Hc. lia.
Qed.

(** 23 elements in chunks of 10: three chunks, of 10, 10 and 3. *)
Lemma chunks_of_23 {A} (l : list A) :
  List.length l = 23%nat -> map (@List.length A) (chunks 10 l) = [10; 10; 3]%nat.
Proof.
  intro H.
  assert (Hne : forall (m : list A) k, List.length m = S k -> m <> [])
    by (intros m k Hm E; subst m; discriminate).
  rewrite chunks_step; [| lia | eapply Hne; exact H].
  rewrite chunks_step;
    [| lia | apply (Hne _ 12%nat); rewrite length_skipn; lia].
  rewrite chunks_step;
    [| lia | apply (Hne _ 2%nat); rewrite !length_skipn; lia].
  assert (E : skipn 10 (skipn 10 (skipn 10 l)) = []).
  { apply length_zero_iff_nil. rewrite !length_skipn. lia. }
  rewrite E. rewrite chunks_nil by lia. cbn [map].
  rewrite !length_firstn, !length_skipn. rewrite H. reflexivity.
Qed.

End ChunkProofs.

(* ------------------------------------------------------------------ *)
(** ** The data store client *)
(* ------------------------------------------------------------------ *)

Module StoreProofs.
Import Store.

Definition no_value : string := "'str' object has no attribute 'value'".

(** The constructor stores plain values in the three enum fields. *)
Lemma constructor_stores_plain (today : date) (now : Z) (args : kwargs)
  (a : CampsiteAvailability) :
  new_CampsiteAvailability today now args = Ok a ->
  (exists p, park a = Plain p) /\ (exists t, site_type a = Plain t)
  /\ (exists s, status a = Plain s).
Proof.
  unfold new_CampsiteAvailability.
  destruct (coerce_park (kw "park" args)) as [p|] eqn:Ep; [| discriminate].
  simpl.
  destruct (validate_not_empty (kw "site_id" args)); [| discriminate]. simpl.
  destruct (validate_not_empty (kw "site_name" args)); [| discriminate]. simpl.
  destruct (coerce_site_type (kw "site_type" args)) as [t|] eqn:Et;
    [| discriminate]. simpl.
  destruct (validate_future_date today (kw "check_in_date" args));
    [| discriminate]. simpl.
  destruct (coerce_status (kw "status" args)) as [s|] eqn:Es;
    [| discriminate]. simpl.
  destruct (coerce_price (kw "price" args)); [| discriminate]. simpl.
  destruct (coerce_max_occupancy (kw "max_occupancy" args)); [| discriminate].
  simpl.
  destruct (coerce_amenities (kw "amenities" args)); [| discriminate]. simpl.
  destruct (coerce_scraped_at now (kw "scraped_at" args)); [| discriminate].
  simpl.
  destruct (coerce_url (kw "url" args)); [| discriminate]. simpl.
  intro H. inversion H; subst; simpl. clear H.
  repeat split.
  - unfold coerce_park in Ep.
    destruct (kw "park" args) as [[]|]; try discriminate;
      [destruct (enum_of_value _ _ _); [| discriminate] |];
      inversion Ep; eexists; reflexivity.
  - unfold coerce_site_type in Et.
    destruct (kw "site_type" args) as [[]|]; try discriminate;
      [destruct (enum_of_value _ _ _); [| discriminate] |];
      inversion Et; eexists; reflexivity.
  - unfold coerce_status in Es.
    destruct (kw "status" args) as [[]|]; try discriminate;
      [destruct (enum_of_value _ _ _); [| discriminate] |];
      inversion Es; eexists; reflexivity.
Qed.

Section Client.

Variable Row : Type.
Variable decode_row : Row -> result CampsiteAvailability.
Variable insert : InsertParams -> result (Response Row).
Variable query : string -> result (Response Row).
Variable uuid4 : nat -> string.
Variable utcnow_iso : string.
Variable datetime_isoformat : Z -> string.

Local Abbreviation store :=
  (store_availability_data Row insert query uuid4 utcnow_iso datetime_isoformat).
Local Abbreviation records := (to_records uuid4 utcnow_iso datetime_isoformat).
Local Abbreviation inserts := (insert_chunks Row insert query).
Local Abbreviation fetch := (get_availability_by_park Row decode_row insert query).

(** An empty list is a success without any insert. *)
Lemma store_nothing : store [] = (Ok true, []).
Proof. reflexivity. Qed.

(** A record whose park is a plain value stops the call before any insert. *)
Lemma store_plain_park_raises (first : CampsiteAvailability)
  (rest : list CampsiteAvailability) (p : ParkEnum) :
  park first = Plain p ->
  store (first :: rest)
  = (Raise (SupabaseError ("Storage failed: " +++ no_value)), []).
Proof.
  intro Hp. unfold store_availability_data. simpl to_records.
  unfold to_record. rewrite Hp. reflexivity.
Qed.

(** Records as the constructor builds them are never inserted. *)
Lemma store_constructed_raises (today : date) (now : Z) (args : kwargs)
  (first : CampsiteAvailability) (rest : list CampsiteAvailability) :
  new_CampsiteAvailability today now args = Ok first ->
  store (first :: rest)
  = (Raise (SupabaseError ("Storage failed: " +++ no_value)), []).
Proof.
  intro H. apply constructor_stores_plain in H. destruct H as ((p & Hp) & _).
  eapply store_plain_park_raises. exact Hp.
Qed.

(** Every exception of the write path is the client's own error type. *)
Lemma store_raises_typed (availability : list CampsiteAvailability)
  (e : exn) (calls : list InsertParams) :
  store availability = (Raise e, calls) -> exists msg, e = SupabaseError msg.
Proof.
  unfold store_availability_data. destruct availability as [|a l].
  - discriminate.
  - destruct (records 0%nat (a :: l)) as [rs|e0].
    + destruct (inserts (chunks chunk_size rs)) as [[u|e1] c];
        intro H; inversion H; eexists; reflexivity.
    + intro H; inversion H; eexists; reflexivity.
Qed.

(** Records whose enum fields hold members. *)
Definition holds_members (a : CampsiteAvailability) : Prop :=
  (exists p, park a = Member p) /\ (exists t, site_type a = Member t)
  /\ (exists s, status a = Member s).

Lemma records_of_members (l : list CampsiteAvailability) (k : nat) :
  Forall holds_members l ->
  exists rs, records k l = Ok rs /\ List.length rs = List.length l.
Proof.
  intro H. revert k. induction H as [|a l Ha Hl IH]; intro k; simpl.
  - eexists. split; reflexivity.
  - destruct Ha as ((p & Hp) & (t & Ht) & (s & Hs)).
    unfold to_record. rewrite Hp, Ht, Hs. simpl.
    destruct (IH (S k)) as (rs & Hrs & Hlen). rewrite Hrs. simpl.
    eexists. split; [reflexivity |]. simpl. rewrite Hlen. reflexivity.
Qed.

Lemma inserts_all_succeed (cs : list (list StoredRow)) :
  (forall p, exists r, insert p = Ok r /\ success Row r = true) ->
  inserts cs = (Ok tt, map insert_params cs).
Proof.
  intro Hok. induction cs as [|c cs IH]; simpl.
  - reflexivity.
  - unfold _call_mcp_tool. simpl.
    destruct (Hok (insert_params c)) as (r & Hr & Hs). rewrite Hr. simpl.
    rewrite Hs, IH. reflexivity.
Qed.

Lemma inserts_first_failure (c : list StoredRow) (cs : list (list StoredRow))
  (r : Response Row) :
  insert (insert_params c) = Ok r -> success Row r = false ->
  inserts (c :: cs)
  = (Raise (SupabaseError ("Failed to insert availability batch: "
                           +++ str_option (error Row r))),
     [insert_params c]).
Proof.
  intros Hr Hs. simpl. unfold _call_mcp_tool. simpl. rewrite Hr. simpl.
  rewrite Hs. reflexivity.
Qed.

(** With members in the enum fields and a backend that accepts every batch,
    the rows go out in consecutive batches of at most 1000, each an upsert
    on (park, site_id, check_in_date). *)
Lemma store_members_in_batches (availability : list CampsiteAvailability) :
  availability <> [] ->
  Forall holds_members availability ->
  (forall p, exists r, insert p = Ok r /\ success Row r = true) ->
  exists rs,
    records 0%nat availability = Ok rs
    /\ store availability = (Ok true, map insert_params (chunks 1000 rs))
    /\ List.concat (chunks 1000 rs) = rs
    /\ Forall (fun c => (0 < List.length c <= 1000)%nat) (chunks 1000 rs)
    /\ Forall (fun p => on_conflict p = Some "update"
                        /\ conflict_columns p
                           = ["park"; "site_id"; "check_in_date"])
              (map insert_params (chunks 1000 rs)).
Proof.
  intros Hne Hm Hok.
  destruct (records_of_members availability 0 Hm) as (rs & Hrs & Hlen).
  exists rs. split; [exact Hrs |]. split; [| split; [| split]].
  - unfold store_availability_data.
    destruct availability as [|a l]; [congruence |].
    rewrite Hrs. rewrite inserts_all_succeed by exact Hok. reflexivity.
  - apply ChunkProofs.concat_chunks. lia.
  - apply ChunkProofs.chunks_bounds. lia.
  - apply Forall_forall. intros p Hp. apply in_map_iff in Hp.
    destruct Hp as (c & Hc & _). subst p. split; reflexivity.
Qed.

Lemma rows_loop_returns_or_raises (rs : list Row)
  (acc : list CampsiteAvailability) :
  (exists l, rows_loop Row decode_row rs acc = Ok l)
  \/ (exists e, rows_loop Row decode_row rs acc = Raise e).
Proof.
  destruct (rows_loop Row decode_row rs acc); [left | right]; eexists;
    reflexivity.
Qed.

(** The read path never raises, and a failing query gives the empty list. *)
Lemma fetch_never_raises (park_ : field ParkEnum) (start_ end_ : option date)
  (status_filter : option (list (field AvailabilityStatus))) :
  exists l, fetch park_ start_ end_ status_filter = Ok l.
Proof.
  unfold get_availability_by_park, try_except.
  destruct (get_availability_by_park_body Row decode_row insert query
              park_ start_ end_ status_filter);
    eexists; reflexivity.
Qed.

Lemma fetch_degrades (park_ : field ParkEnum) (start_ end_ : option date)
  (status_filter : option (list (field AvailabilityStatus))) :
  (forall q, is_ok (query q) = false
             \/ exists r, query q = Ok r /\ success Row r = false) ->
  fetch park_ start_ end_ status_filter = Ok [].
Proof.
  intro Hfail. unfold get_availability_by_park, try_except.
  destruct (get_availability_by_park_body Row decode_row insert query
              park_ start_ end_ status_filter) as [l|e] eqn:E;
    [| reflexivity].
  exfalso. unfold get_availability_by_park_body in E.
  destruct (dot_value park_value park_) as [p|]; [| discriminate].
  simpl in E.
  match type of E with
  | bind ?c _ = _ => destruct c as [conds|]; [| discriminate]
  end.
  simpl in E. unfold _execute_query, _call_mcp_tool in E. simpl in E.
  match type of E with
  | context [query ?q] => destruct (Hfail q) as [Hq | (r & Hq & Hs)]
  end.
  - match type of E with
    | context [query ?q] => destruct (query q); [discriminate |]
    end.
    discriminate.
  - rewrite Hq in E. simpl in E. rewrite Hs in E. discriminate.
Qed.

End Client.

(** C7.  A record built by the model constructor holds plain values in its
    enum fields, and [store_availability_data] on it raises the client's
    error while building the row, at [avail.park.value], before any
    [insert_rows] call: nothing is inserted, although the backend of this
    build accepts every batch. *)
Theorem store_availability_data_never_inserts :
  let today := ymd2ord 2026 11 4 in
  let args :=
    [ ("park", VPark CARLSBAD); ("site_id", VStr "47");
      ("site_name", VStr "Site 47"); ("site_type", VSiteType RV);
      ("check_in_date", VDate (ymd2ord 2026 11 14));
      ("status", VStatus AVAILABLE); ("price", VFloat 60) ] in
  exists a,
    new_CampsiteAvailability today 0 args = Ok a
    /\ (forall (uuid4 : nat -> string) (utcnow_iso : string)
               (datetime_isoformat : Z -> string),
          store_availability_data unit (simulated_insert unit)
            (simulated_query unit) uuid4 utcnow_iso datetime_isoformat [a]
          = (Raise (SupabaseError
                      "Storage failed: 'str' object has no attribute 'value'"),
             [])).
Proof.
  eexists. split; [vm_compute; reflexivity |].
  intros uuid4 utcnow_iso datetime_isoformat. reflexivity.
Qed.

End StoreProofs.

(* ------------------------------------------------------------------ *)
(** ** The calendar grid *)
(* ------------------------------------------------------------------ *)

Module CalendarProofs.
Import Calendar.

(** The Gregorian rule, and the length of a month by it. *)
Definition gregorian_leap (year : Z) : bool :=
  if year mod 400 =? 0 then true
  else if year mod 100 =? 0 then false
  else year mod 4 =? 0.

Definition true_month_length (year month : Z) : Z :=
  match month with
  | 2 => if gregorian_leap year then 29 else 28
  | 4 | 6 | 9 | 11 => 30
  | _ => 31
  end.

Lemma is_leap_gregorian year : is_leap year = gregorian_leap year.
Proof.
  unfold is_leap, gregorian_leap.
  destruct (Z.eqb_spec (year mod 400) 0) as [H400 | H400];
    destruct (Z.eqb_spec (year mod 100) 0) as [H100 | H100];
    destruct (Z.eqb_spec (year mod 4) 0) as [H4 | H4];
    simpl; try reflexivity; exfalso;
    Z.to_euclidean_division_equations; lia.
Qed.

Lemma month_cases month :
  1 <= month <= 12 ->
  month = 1 \/ month = 2 \/ month = 3 \/ month = 4 \/ month = 5 \/ month = 6
  \/ month = 7 \/ month = 8 \/ month = 9 \/ month = 10 \/ month = 11
  \/ month = 12.
Proof. lia. Qed.

Ltac each_month H :=
  apply month_cases in H;
  repeat (destruct H as [H | H]); subst.

Lemma days_in_month_true year month :
  1 <= month <= 12 -> days_in_month year month = true_month_length year month.
Proof.
  intro H. unfold days_in_month, true_month_length.
  rewrite is_leap_gregorian.
  each_month H; simpl; reflexivity.
Qed.

Lemma days_in_month_bounds year month :
  1 <= month <= 12 -> 28 <= days_in_month year month <= 31.
Proof.
  intro H. unfold days_in_month.
  each_month H; simpl; try lia; destruct (is_leap year); lia.
Qed.

Lemma monthrange_ndays_ok year month :
  1 <= month <= 12 ->
  monthrange_ndays year month = Ok (days_in_month year month).
Proof.
  intro H. unfold monthrange_ndays, days_in_month.
  replace ((1 <=? month) && (month <=? 12)) with true
    by (symmetry; apply andb_true_iff; split; apply Z.leb_le; lia).
  simpl. destruct ((month =? 2) && is_leap year) eqn:E.
  - apply andb_true_iff in E. destruct E as [E _].
    apply Z.eqb_eq in E. subst. reflexivity.
  - f_equal. lia.
Qed.

Lemma mkdate_ok year month day :
  1 <= year <= 9999 -> 1 <= month <= 12 ->
  1 <= day <= days_in_month year month ->
  mkdate year month day = Ok (ymd2ord year month day).
Proof.
  intros Hy Hm Hd. unfold mkdate, MINYEAR, MAXYEAR.
  replace ((1 <=? year) && (year <=? 9999)) with true
    by (symmetry; apply andb_true_iff; split; apply Z.leb_le; lia).
  replace ((1 <=? month) && (month <=? 12)) with true
    by (symmetry; apply andb_true_iff; split; apply Z.leb_le; lia).
  replace ((1 <=? day) && (day <=? days_in_month year month)) with true
    by (symmetry; apply andb_true_iff; split; apply Z.leb_le; lia).
  reflexivity.
Qed.

Lemma day_range_In n day : In day (day_range n) <-> 1 <= day <= n.
Proof.
  unfold day_range. rewrite in_map_iff. split.
  - intros (k & Hk & Hin). apply in_seq in Hin. lia.
  - intro H. exists (Z.to_nat day). split; [lia |]. apply in_seq. lia.
Qed.

Lemma length_day_range n : 0 <= n -> Z.of_nat (List.length (day_range n)) = n.
Proof.
  intro H. unfold day_range. rewrite length_map, length_seq. lia.
Qed.

(** The available count of the weekend days of a grid. *)
Definition weekend_sum (ds : list CalendarDayData) : nat :=
  list_sum (map available_count (filter weekend ds)).

Definition available_sum (ds : list CalendarDayData) : nat :=
  list_sum (map available_count ds).

Lemma available_sum_app ds d :
  available_sum (ds ++ [d]) = (available_sum ds + available_count d)%nat.
Proof.
  unfold available_sum. rewrite map_app, list_sum_app. simpl. lia.
Qed.

Lemma weekend_sum_app ds d :
  weekend_sum (ds ++ [d])
  = if weekend d then (weekend_sum ds + available_count d)%nat
    else weekend_sum ds.
Proof.
  unfold weekend_sum. rewrite filter_app. simpl. destruct (weekend d).
  - rewrite map_app, list_sum_app. simpl. lia.
  - rewrite app_nil_r. reflexivity.
Qed.

Lemma days_loop_spec (year month : Z) (all : list CampsiteAvailability) :
  1 <= year <= 9999 -> 1 <= month <= 12 ->
  forall (day_numbers : list Z) (acc : list CalendarDayData),
    (forall day, In day day_numbers -> 1 <= day <= days_in_month year month) ->
    days_loop year month day_numbers all acc (available_sum acc)
              (weekend_sum acc)
    = let ds := acc ++ map (fun day => day_data all (ymd2ord year month day))
                           day_numbers in
      Ok (ds, available_sum ds, weekend_sum ds).
Proof.
  intros Hy Hm day_numbers.
  induction day_numbers as [|day rest IH]; intros acc Hdays.
  - simpl. rewrite app_nil_r. reflexivity.
  - cbn [days_loop].
    rewrite mkdate_ok by (try assumption; apply Hdays; left; reflexivity).
    cbn [bind].
    rewrite <- available_sum_app, <- weekend_sum_app.
    rewrite IH by (intros d Hd; apply Hdays; right; exact Hd).
    cbn zeta. cbn [map]. rewrite <- app_assoc. reflexivity.
Qed.

Lemma park_values_members (parks : list ParkEnum) :
  park_values (map Member parks) = Ok (map park_value parks).
Proof.
  induction parks as [|p ps IH]; simpl; [reflexivity |].
  rewrite IH. reflexivity.
Qed.

Lemma month_name_exists month :
  1 <= month <= 12 ->
  exists name, nth_error month_names (Z.to_nat (month - 1)) = Some name.
Proof.
  intro H. each_month H; eexists; reflexivity.
Qed.

(** What a query of the store contributes to the grid: the records it
    returned, and nothing when it raised. *)
Definition entries (answer : result (list CampsiteAvailability))
  : list CampsiteAvailability :=
  match answer with
  | Ok records => records
  | Raise _ => []
  end.

Lemma get_availability_data_entries (db : DbClient) (first_ last_ : date)
  (answers : ParkEnum -> result (list CampsiteAvailability))
  (parks : list ParkEnum) :
  (forall p, In p parks ->
     get_availability_by_park db (Member p) (Some first_) (Some last_) None
     = answers p) ->
  flat_map (fun p => get_availability_data db (Member p) first_ last_ None)
           parks
  = flat_map (fun p => entries (answers p)) parks.
Proof.
  induction parks as [|p ps IH]; intro H; cbn [flat_map]; [reflexivity |].
  rewrite IH by (intros q Hq; apply H; right; exact Hq).
  f_equal. unfold get_availability_data.
  rewrite (H p (or_introl eq_refl)). reflexivity.
Qed.

(** C8.  For a year in 1..9999 and a month in 1..12 the generator returns a
    grid with one entry per day of the month, as many as the month truly has
    (29 for February of a leap year), in order.  The entries of a day are
    the records the store returned, for the parks asked and the month, with
    that check-in date: the entry of a day carries the weekend flag exactly
    when the day is a Saturday or a Sunday, counts the records of that day
    with status available in [available_count] and the records of any
    status in [total_sites]; the totals of the month are the sums of the
    available counts over all days and over the weekend days. *)
Theorem generate_calendar_data_month_grid (db : DbClient) (year month : Z)
  (parks : list ParkEnum)
  (answers : ParkEnum -> result (list CampsiteAvailability)) :
  1 <= year <= 9999 -> 1 <= month <= 12 ->
  (forall p, In p parks ->
     get_availability_by_park db (Member p)
       (Some (ymd2ord year month 1))
       (Some (ymd2ord year month (true_month_length year month))) None
     = answers p) ->
  exists data,
    generate_calendar_data db year month (map Member parks) = Ok data
    /\ let all := flat_map (fun p => entries (answers p)) parks in
       Z.of_nat (List.length (days data)) = true_month_length year month
       /\ (gregorian_leap year = true -> month = 2 ->
           List.length (days data) = 29%nat)
       /\ map day_date (days data)
          = map (ymd2ord year month) (day_range (true_month_length year month))
       /\ Forall (fun d =>
                    weekend d = QueryProofs.is_sat_or_sun (day_date d)
                    /\ available_count d
                       = List.length
                           (filter (fun a =>
                                      (check_in_date a =? day_date d)
                                      && status_eqb (fval (status a)) AVAILABLE)
                                   all)
                    /\ total_sites d
                       = List.length
                           (filter (fun a => check_in_date a =? day_date d)
                                   all))
                 (days data)
       /\ total_available data = list_sum (map available_count (days data))
       /\ weekend_available data
          = list_sum (map available_count (filter weekend (days data))).
Proof.
  intros Hy Hm Hanswers.
  pose proof (days_in_month_bounds year month Hm) as Hdim.
  rewrite <- (days_in_month_true year month Hm) in Hanswers.
  unfold generate_calendar_data.
  rewrite mkdate_ok by (try assumption; lia). cbn [bind].
  rewrite monthrange_ndays_ok by assumption. cbn [bind].
  rewrite mkdate_ok by (try assumption; lia). cbn [bind].
  rewrite flat_map_concat_map, map_map, <- flat_map_concat_map.
  rewrite (get_availability_data_entries db _ _ answers parks Hanswers).
  set (all := flat_map _ parks).
  pose proof (days_loop_spec year month all Hy Hm
                (day_range (days_in_month year month)) []) as Hloop.
  change (available_sum []) with 0%nat in Hloop.
  change (weekend_sum []) with 0%nat in Hloop.
  rewrite Hloop by (intros day Hd; apply day_range_In in Hd; exact Hd).
  cbn zeta. cbn [app bind].
  destruct (month_name_exists month Hm) as (name & Hname). rewrite Hname.
  cbn [bind]. rewrite park_values_members. cbn [bind].
  eexists. split; [reflexivity |]. cbn [days total_available weekend_available].
  rewrite <- (days_in_month_true year month Hm).
  split; [| split; [| split; [| split; [| split]]]].
  - rewrite length_map. apply length_day_range. lia.
  - intros Hleap H2. subst month.
    rewrite length_map. unfold day_range. rewrite length_map, length_seq.
    unfold days_in_month. rewrite is_leap_gregorian, Hleap. reflexivity.
  - rewrite map_map. reflexivity.
  - apply Forall_forall. intros d Hd. apply in_map_iff in Hd.
    destruct Hd as (day & Hday & _). subst d. cbn.
    split; [apply QueryProofs.weekend_test_is_sat_or_sun |].
    split; reflexivity.
  - reflexivity.
  - reflexivity.
Qed.

(** The store of this build, which returns no rows. *)
Definition empty_db : DbClient :=
  {| get_active_alert_rules := Ok [];
     check_notification_sent := fun _ _ _ _ => Ok false;
     record_notification := fun _ => Ok true;
     get_availability_by_park := fun _ _ _ _ => Ok [] |}.

(** A record of February 2024 at Carlsbad. *)
Definition february_record (site : string) (day : Z)
  (status_ : AvailabilityStatus) : CampsiteAvailability :=
  {| park := Plain CARLSBAD;
     site_id := site;
     site_name := "Site " +++ site;
     site_type := Plain RV;
     check_in_date := ymd2ord 2024 2 day;
     status := Plain status_;
     price := Some 55%Q;
     max_occupancy := Some 6;
     amenities := [];
     scraped_at := 0;
     url := None |}.

(** What a store with four records of February 2024 answers: at Carlsbad
    an available and a booked site on Saturday the 10th, an available site
    on Monday the 12th and one on Thursday the 29th; nothing at Joshua
    Tree; an error at Oceanside. *)
Definition february_answers (p : ParkEnum)
  : result (list CampsiteAvailability) :=
  match p with
  | CARLSBAD =>
      Ok [ february_record "A1" 10 AVAILABLE;
           february_record "A2" 10 BOOKED;
           february_record "A1" 12 AVAILABLE;
           february_record "A3" 29 AVAILABLE ]
  | JOSHUA_TREE => Ok []
  | OCEANSIDE => Raise (SupabaseError "Query failed: timeout")
  end.

Definition february_db : DbClient :=
  {| get_active_alert_rules := Ok [];
     check_notification_sent := fun _ _ _ _ => Ok false;
     record_notification := fun _ => Ok true;
     get_availability_by_park :=
       fun p _ _ _ => february_answers (fval p) |}.

Lemma generate_calendar_data_month_grid_witness :
  exists data,
    generate_calendar_data february_db 2024 2 (map Member all_parks) = Ok data
    /\ List.length (days data) = 29%nat
    /\ Forall (fun d =>
                 available_count d
                 = List.length
                     (filter (fun a =>
                                (check_in_date a =? day_date d)
                                && status_eqb (fval (status a)) AVAILABLE)
                             (flat_map (fun p => entries (february_answers p))
                                       all_parks)))
              (days data).
Proof.
  destruct (generate_calendar_data_month_grid february_db 2024 2 all_parks
              february_answers)
    as (data & Hdata & _ & Hleap & _ & Hdays & _);
    [lia | lia | intros p _; reflexivity |].
  exists data. split; [exact Hdata |].
  split; [apply Hleap; reflexivity |].
  eapply Forall_impl; [| exact Hdays].
  intros d (_ & Hcount & _). exact Hcount.
Defined.

(** The grid of February 2024 for that store: the 10th has one available
    site out of two, the 12th and the 29th one out of one, every other day
    none; two of the three available sites of the month are on weekdays. *)
Example february_2024_counts :
  match generate_calendar_data february_db 2024 2 (map Member all_parks) with
  | Ok data =>
      (flat_map (fun d =>
                   match total_sites d with
                   | O => []
                   | _ => [(day_of (day_date d), available_count d,
                            total_sites d)]
                   end)
                (days data),
       total_available data, weekend_available data)
  | Raise _ => ([], 0%nat, 0%nat)
  end = ([(10, 1%nat, 2%nat); (12, 1%nat, 1%nat); (29, 1%nat, 1%nat)],
         3%nat, 1%nat).
Proof. vm_compute. reflexivity. Qed.

(** The Saturdays and Sundays of February 2024: 3, 4, 10, 11, 17, 18, 24, 25. *)
Example february_2024_weekends :
  match generate_calendar_data february_db 2024 2 (map Member all_parks) with
  | Ok data =>
      map (fun d => day_of (day_date d)) (filter weekend (days data))
  | Raise _ => []
  end = [3; 4; 10; 11; 17; 18; 24; 25].
Proof. vm_compute. reflexivity. Qed.

End CalendarProofs.

(* ------------------------------------------------------------------ *)
(** ** The rule match predicate *)
(* ------------------------------------------------------------------ *)

Module MatchProofs.
Import Alerts.

(** The rule match predicate in the words of the specification. *)

(** A run of [n] consecutive calendar days starting at the candidate's
    check-in date, among the available entries of the same park and site. *)
Definition consecutive_run (site : CampsiteAvailability)
  (all : list CampsiteAvailability) (n : Z) : Prop :=
  forall k, 0 <= k < n ->
    exists a, In a all
              /\ fval (park a) = fval (park site)
              /\ site_id a = site_id site
              /\ fval (status a) = AVAILABLE
              /\ check_in_date a = check_in_date site + k.

(** Friday, Saturday or Sunday. *)
Definition broad_weekend (d : date) : Prop :=
  weekday d = 4 \/ weekday d = 5 \/ weekday d = 6.

Definition rule_match_spec (today : date) (rule : AlertRule)
  (site : CampsiteAvailability) (all : list CampsiteAvailability) : Prop :=
  In (fval (park site)) (rule_parks rule)
  /\ In (fval (site_type site)) (rule_site_types rule)
  /\ (weekend_only rule = true -> broad_weekend (check_in_date site))
  /\ (forall m p, max_price rule = Some m -> price site = Some p -> (p <= m)%Q)
  /\ advance_notice_days rule <= check_in_date site - today
  /\ (1 < min_nights rule -> consecutive_run site all (min_nights rule)).

Definition by_date (a b : CampsiteAvailability) : Prop :=
  check_in_date a <= check_in_date b.

Lemma insert_by_date_In x a l : In x (insert_by_date a l) <-> x = a \/ In x l.
Proof.
  induction l as [|b l IH]; simpl.
  - intuition.
  - destruct (check_in_date a <=? check_in_date b); simpl.
    + intuition.
    + rewrite IH. intuition.
Qed.

Lemma sort_by_date_In x l : In x (sort_by_date l) <-> In x l.
Proof.
  induction l as [|a l IH]; simpl; [reflexivity |].
  rewrite insert_by_date_In, IH. intuition.
Qed.

Lemma insert_by_date_sorted a l :
  StronglySorted by_date l -> StronglySorted by_date (insert_by_date a l).
Proof.
  induction 1 as [|b l Hl IH Hb]; simpl.
  - constructor; constructor.
  - destruct (Z.leb_spec (check_in_date a) (check_in_date b)) as [Hle | Hgt].
    + constructor; [constructor; assumption |].
      constructor; [exact Hle |].
      eapply Forall_impl; [| exact Hb]. unfold by_date. intros; lia.
    + constructor; [exact IH |].
      apply Forall_forall. intros x Hx. apply insert_by_date_In in Hx.
      destruct Hx as [-> | Hx].
      * unfold by_date. lia.
      * rewrite Forall_forall in Hb. apply Hb. exact Hx.
Qed.

Lemma sort_by_date_sorted l : StronglySorted by_date (sort_by_date l).
Proof.
  induction l as [|a l IH]; simpl; [constructor |].
  apply insert_by_date_sorted. exact IH.
Qed.

(** The loop counts the run that starts at [current]: on a list sorted by
    date it answers whether every one of the days still missing has an
    entry. *)
Lemma consecutive_loop_spec (l : list CampsiteAvailability) :
  StronglySorted by_date l ->
  forall (min_nights_ count current : Z),
    count < min_nights_ -> 0 <= current ->
    current + (min_nights_ - count) <= MAXORDINAL ->
    exists b,
      consecutive_loop l min_nights_ count current = Ok b
      /\ (b = true <->
          forall k, 0 <= k < min_nights_ - count ->
            exists a, In a l /\ check_in_date a = current + k).
Proof.
  induction 1 as [|a l Hl IH Ha]; intros mn count current Hc H0 Hmax.
  - simpl. exists false. split.
    + f_equal. apply Z.leb_gt. exact Hc.
    + split; [discriminate |]. intro H.
      destruct (H 0) as (x & [] & _). lia.
  - simpl. destruct (Z.eqb_spec (check_in_date a) current) as [Heq | Hne].
    + unfold add_days.
      replace ((0 <? current + 1) && (current + 1 <=? MAXORDINAL)) with true
        by (symmetry; apply andb_true_iff; split;
            [apply Z.ltb_lt | apply Z.leb_le]; lia).
      cbn [bind].
      destruct (Z.leb_spec mn (count + 1)) as [Hdone | Hmore].
      * exists true. split; [reflexivity |]. split; [| reflexivity].
        intros _ k Hk. exists a. split; [left; reflexivity |]. lia.
      * destruct (IH mn (count + 1) (current + 1)) as (b & Hb & Hiff);
          try lia.
        exists b. split; [exact Hb |]. rewrite Hiff. split.
        -- intros H k Hk. destruct (Z.eq_dec k 0) as [-> | Hk0].
           ++ exists a. split; [left; reflexivity | lia].
           ++ destruct (H (k - 1)) as (x & Hx & Hd); [lia |].
              exists x. split; [right; exact Hx | lia].
        -- intros H k Hk. destruct (H (k + 1)) as (x & Hx & Hd); [lia |].
           destruct Hx as [-> | Hx]; [lia |].
           exists x. split; [exact Hx | lia].
    + destruct (Z.ltb_spec current (check_in_date a)) as [Hlt | Hge].
      * exists false. split.
        -- f_equal. apply Z.leb_gt. exact Hc.
        -- split; [discriminate |]. intro H. exfalso.
           destruct (H 0) as (x & Hx & Hd); [lia |].
           destruct Hx as [-> | Hx]; [lia |].
           rewrite Forall_forall in Ha. specialize (Ha x Hx).
           unfold by_date in Ha. lia.
      * destruct (IH mn count current) as (b & Hb & Hiff); try lia.
        exists b. split; [exact Hb |]. rewrite Hiff. split.
        -- intros H k Hk. destruct (H k Hk) as (x & Hx & Hd).
           exists x. split; [right; exact Hx | exact Hd].
        -- intros H k Hk. destruct (H k Hk) as (x & Hx & Hd).
           destruct Hx as [-> | Hx]; [lia |].
           exists x. split; [exact Hx | exact Hd].
Qed.

Lemma check_consecutive_nights_spec (site : CampsiteAvailability)
  (all : list CampsiteAvailability) (n : Z) :
  0 < n -> 0 <= check_in_date site ->
  check_in_date site + n <= MAXORDINAL ->
  exists b,
    _check_consecutive_nights site all n = Ok b
    /\ (b = true <-> consecutive_run site all n).
Proof.
  intros Hn H0 Hmax. unfold _check_consecutive_nights.
  match goal with
  | |- context [sort_by_date ?l] =>
      destruct (consecutive_loop_spec (sort_by_date l)
                  (sort_by_date_sorted l) n 0 (check_in_date site))
        as (b & Hb & Hiff); try lia
  end.
  exists b. split; [exact Hb |]. rewrite Hiff. unfold consecutive_run.
  replace (n - 0) with n by lia.
  split; intros H k Hk; destruct (H k Hk) as (a & Ha).
  - destruct Ha as (Hin & Hd). apply (proj1 (sort_by_date_In _ _)) in Hin.
    apply (proj1 (filter_In _ _ _)) in Hin. destruct Hin as (Hin & Hf).
    apply andb_true_iff in Hf. destruct Hf as (Hf & Hs).
    apply andb_true_iff in Hf. destruct Hf as (Hp & Hi).
    exists a. repeat split; try assumption.
    + apply park_eqb_eq. exact Hp.
    + apply String.eqb_eq. exact Hi.
    + apply status_eqb_eq. exact Hs.
  - destruct Ha as (Hin & Hp & Hi & Hs & Hd).
    exists a. split; [| exact Hd].
    apply sort_by_date_In. apply filter_In. split; [exact Hin |].
    rewrite Hp, Hi, Hs.
    replace (park_eqb (fval (park site)) (fval (park site))) with true
      by (symmetry; apply park_eqb_eq; reflexivity).
    rewrite String.eqb_refl. reflexivity.
Qed.

Lemma existsb_park p l : existsb (park_eqb p) l = true <-> In p l.
Proof.
  rewrite existsb_exists. split.
  - intros (x & Hx & He). apply park_eqb_eq in He. subst. exact Hx.
  - intro H. exists p. split; [exact H | apply park_eqb_eq; reflexivity].
Qed.

Lemma existsb_site_type t l : existsb (site_type_eqb t) l = true <-> In t l.
Proof.
  rewrite existsb_exists. split.
  - intros (x & Hx & He). apply site_type_eqb_eq in He. subst. exact Hx.
  - intro H. exists t. split; [exact H | apply site_type_eqb_eq; reflexivity].
Qed.

Lemma is_weekend_date_broad d : is_weekend_date d = true <-> broad_weekend d.
Proof.
  unfold is_weekend_date, broad_weekend.
  pose proof (QueryProofs.weekday_range d). rewrite Z.leb_le. lia.
Qed.

(** The price test of the code against the price clause of the
    specification, for a rule whose maximum, when set, is not zero. *)
Lemma price_clause (max_ price_ : option Q) :
  (forall m, max_ = Some m -> (0 < m)%Q) ->
  (truthy_float max_ && truthy_float price_
   && match price_, max_ with
      | Some p, Some m => negb (Qle_bool p m)
      | _, _ => false
      end = false)
  <-> (forall m p, max_ = Some m -> price_ = Some p -> (p <= m)%Q).
Proof.
  intro Hpos. destruct max_ as [m|]; [| simpl; split; [discriminate | reflexivity]].
  specialize (Hpos m eq_refl).
  assert (Hm : truthy_float (Some m) = true).
  { simpl. destruct (Qeq_bool m 0) eqn:E; [| reflexivity].
    apply Qeq_bool_iff in E. rewrite E in Hpos.
    exfalso. exact (Qlt_irrefl 0 Hpos). }
  rewrite Hm. destruct price_ as [p|]; cbn [andb truthy_float].
  - destruct (Qeq_bool p 0) eqn:Ep; cbn [negb andb].
    + apply Qeq_bool_iff in Ep. split; [| reflexivity].
      intros _ m' p' Hm' Hp'. inversion Hm'; inversion Hp'; subst.
      rewrite Ep. apply Qlt_le_weak. exact Hpos.
    + destruct (Qle_bool p m) eqn:Ele; cbn [negb].
      * split; [| reflexivity]. intros _ m' p' Hm' Hp'.
        inversion Hm'; inversion Hp'; subst. apply Qle_bool_iff. exact Ele.
      * split; [discriminate |]. intro H. exfalso.
        specialize (H m p eq_refl eq_refl). apply Qle_bool_iff in H.
        congruence.
  - split; [discriminate | reflexivity].
Qed.

(** The specified equivalence holds for every rule whose maximum price, when set,
    is positive, and every candidate whose run cannot reach [date.max]: the
    predicate returns, and it returns true exactly when the conditions of
    the specification hold. *)
Lemma matches_alert_rule_iff_spec (today : date) (rule : AlertRule)
  (site : CampsiteAvailability) (all : list CampsiteAvailability) :
  (forall m, max_price rule = Some m -> (0 < m)%Q) ->
  0 <= check_in_date site ->
  check_in_date site + min_nights rule <= MAXORDINAL ->
  exists b,
    _matches_alert_rule today rule site all = Ok b
    /\ (b = true <-> rule_match_spec today rule site all).
Proof.
  intros Hpos H0 Hmax. unfold _matches_alert_rule, rule_match_spec.
  destruct (existsb (park_eqb (fval (park site))) (rule_parks rule)) eqn:Ep;
    cbn [negb].
  2:{ exists false. split; [reflexivity |]. split; [discriminate |].
      intros (H & _). apply existsb_park in H. congruence. }
  apply existsb_park in Ep.
  destruct (existsb (site_type_eqb (fval (site_type site)))
                    (rule_site_types rule)) eqn:Et; cbn [negb].
  2:{ exists false. split; [reflexivity |]. split; [discriminate |].
      intros (_ & H & _). apply existsb_site_type in H. congruence. }
  apply existsb_site_type in Et.
  destruct (weekend_only rule && negb (is_weekend_date (check_in_date site)))
    eqn:Ew.
  { exists false. split; [reflexivity |]. split; [discriminate |].
    intros (_ & _ & H & _). apply andb_true_iff in Ew. destruct Ew as (Hw & Hn).
    apply is_weekend_date_broad in H; [| exact Hw]. rewrite H in Hn.
    discriminate. }
  assert (Hweek : weekend_only rule = true -> broad_weekend (check_in_date site)).
  { intro Hw. rewrite Hw in Ew. simpl in Ew. apply negb_false_iff in Ew.
    apply is_weekend_date_broad. exact Ew. }
  match goal with
  | |- context [if ?c then Ok false else _] => destruct c eqn:Ec
  end.
  { exists false. split; [reflexivity |]. split; [discriminate |].
    intros (_ & _ & _ & H & _).
    apply (proj2 (price_clause _ _ Hpos)) in H. congruence. }
  pose proof (proj1 (price_clause _ _ Hpos) Ec) as Hprice. clear Ec.
  unfold days_between.
  destruct (Z.ltb_spec (check_in_date site - today) (advance_notice_days rule))
    as [Hlate | Hadv].
  { exists false. split; [reflexivity |]. split; [discriminate |].
    intros (_ & _ & _ & _ & H & _). lia. }
  destruct (Z.ltb_spec 1 (min_nights rule)) as [Hmin | Hmin].
  - destruct (check_consecutive_nights_spec site all (min_nights rule))
      as (b & Hb & Hiff); try lia.
    rewrite Hb. cbn [bind]. exists b. split; [destruct b; reflexivity |].
    rewrite Hiff. split.
    + intro Hrun. repeat split; try assumption. intros _. exact Hrun.
    + intros (_ & _ & _ & _ & _ & H). apply H. exact Hmin.
  - exists true. split; [reflexivity |]. split; [| reflexivity].
    intros _. repeat split; try assumption. intro H. lia.
Qed.

(** The rule and the candidate of the defect: a rule with maximum price 0
    and a Carlsbad RV site at 55 dollars, ten days ahead. *)
Definition free_sites_rule : AlertRule :=
  {| rule_id := Some "rule-1";
     user_email := "camper@example.com";
     rule_parks := [CARLSBAD];
     rule_site_types := [RV];
     weekend_only := false;
     min_nights := 1;
     max_price := Some 0%Q;
     advance_notice_days := 7;
     is_active := true |}.

Definition priced_site : CampsiteAvailability :=
  {| park := Plain CARLSBAD;
     site_id := "47";
     site_name := "Site 47";
     site_type := Plain RV;
     check_in_date := ymd2ord 2026 11 14;
     status := Plain AVAILABLE;
     price := Some 55%Q;
     max_occupancy := None;
     amenities := [];
     scraped_at := 0;
     url := None |}.

(** C1.  With a rule whose maximum price is set to 0 the predicate of the
    code holds for a candidate priced at 55, although the price is not at
    most the maximum: the test [rule.max_price and site.price and ...]
    takes a maximum of 0.0 for no maximum at all. *)
Theorem matches_alert_rule_ignores_zero_max_price :
  let today := ymd2ord 2026 11 4 in
  _matches_alert_rule today free_sites_rule priced_site [priced_site] = Ok true
  /\ max_price free_sites_rule = Some 0%Q
  /\ price priced_site = Some 55%Q
  /\ ~ (55 <= 0)%Q
  /\ ~ rule_match_spec today free_sites_rule priced_site [priced_site].
Proof.
  cbv zeta. split; [vm_compute; reflexivity |].
  split; [reflexivity |]. split; [reflexivity |].
  assert (Hprice : ~ (55 <= 0)%Q) by (intro H; vm_compute in H; apply H; reflexivity).
  split; [exact Hprice |].
  intros (_ & _ & _ & H & _). apply Hprice.
  apply (H 0%Q 55%Q); reflexivity.
Qed.

(** The second example of the specification's consecutive-night test: three
    consecutive days and [min_nights = 3]. *)
Example three_consecutive_nights :
  let day n := {| park := Plain CARLSBAD; site_id := "47";
                  site_name := "Site 47"; site_type := Plain RV;
                  check_in_date := 739934 + n; status := Plain AVAILABLE;
                  price := None; max_occupancy := None; amenities := [];
                  scraped_at := 0; url := None |} in
  _check_consecutive_nights (day 0) [day 2; day 0; day 1] 3 = Ok true
  /\ _check_consecutive_nights (day 1) [day 2; day 0; day 1] 3 = Ok false.
Proof. split; vm_compute; reflexivity. Qed.

End MatchProofs.

(* ------------------------------------------------------------------ *)
(** ** Sending a notification batch *)
(* ------------------------------------------------------------------ *)

Module SendProofs.
Import Alerts.

(** The sites of park [k], in their order in [l]. *)
Definition sites_of (k : ParkEnum) (l : list CampsiteAvailability)
  : list CampsiteAvailability :=
  filter (fun s => park_eqb (fval (park s)) k) l.

Lemma park_eqb_refl p : park_eqb p p = true.
Proof. apply park_eqb_eq. reflexivity. Qed.

Lemma park_eqb_neq p k : p <> k -> park_eqb p k = false.
Proof.
  intro H. destruct (park_eqb p k) eqn:E; [| reflexivity].
  apply park_eqb_eq in E. contradiction.
Qed.

Lemma sites_of_snoc k l s :
  sites_of k (l ++ [s])
  = if park_eqb (fval (park s)) k then sites_of k l ++ [s] else sites_of k l.
Proof.
  unfold sites_of. rewrite filter_app. simpl.
  destruct (park_eqb (fval (park s)) k); [reflexivity | apply app_nil_r].
Qed.

Lemma group_insert_keys p s g :
  map fst (group_insert p s g)
  = map fst g ++ (if existsb (fun k => park_eqb k p) (map fst g) then [] else [p]).
Proof.
  induction g as [|[k sites] g IH]; simpl; [reflexivity |].
  destruct (park_eqb k p); simpl.
  - rewrite app_nil_r. reflexivity.
  - rewrite IH. reflexivity.
Qed.

Lemma existsb_key p keys :
  existsb (fun k => park_eqb k p) keys = true <-> In p keys.
Proof.
  rewrite existsb_exists. split.
  - intros (k & Hk & E). apply park_eqb_eq in E. subst. exact Hk.
  - intro H. exists p. split; [exact H | apply park_eqb_refl].
Qed.

Lemma group_insert_In p s g k sites :
  NoDup (map fst g) ->
  In (k, sites) (group_insert p s g) ->
  (k = p /\ ((exists old, In (p, old) g /\ sites = old ++ [s])
             \/ (~ In p (map fst g) /\ sites = [s])))
  \/ (k <> p /\ In (k, sites) g).
Proof.
  induction g as [|[k0 sites0] g IH]; simpl; intros Hnd Hin.
  - destruct Hin as [Hin | []]. inversion Hin; subst.
    left. split; [reflexivity |]. right. split; [tauto | reflexivity].
  - inversion Hnd as [|? ? Hnotin Hnd']; subst.
    destruct (park_eqb k0 p) eqn:E.
    + apply park_eqb_eq in E. subst k0. destruct Hin as [Hin | Hin].
      * inversion Hin; subst. left. split; [reflexivity |]. left.
        exists sites0. split; [left; reflexivity | reflexivity].
      * right. split; [| right; exact Hin].
        intro Hk. subst k. apply Hnotin.
        apply in_map_iff. exists (p, sites). split; [reflexivity | exact Hin].
    + assert (Hne : k0 <> p)
        by (intro Hk; subst; rewrite park_eqb_refl in E; discriminate).
      destruct Hin as [Hin | Hin].
      * inversion Hin; subst. right. split; [exact Hne | left; reflexivity].
      * destruct (IH Hnd' Hin) as [(Hk & Hcase) | (Hk & Hg)].
        -- left. split; [exact Hk |]. destruct Hcase as [(old & Ho & Hs) | (Hn & Hs)].
           ++ left. exists old. split; [right; exact Ho | exact Hs].
           ++ right. split; [| exact Hs]. intros [Hh | Hh]; [congruence | tauto].
        -- right. split; [exact Hk | right; exact Hg].
Qed.

(** The dictionary after the sites of [l] have been put in. *)
Definition grouped (l : list CampsiteAvailability)
  (g : list (ParkEnum * list CampsiteAvailability)) : Prop :=
  NoDup (map fst g)
  /\ (forall k sites, In (k, sites) g -> sites = sites_of k l /\ sites <> [])
  /\ (forall k, sites_of k l <> [] -> In k (map fst g)).

Lemma NoDup_snoc {A} (l : list A) (x : A) :
  NoDup l -> ~ In x l -> NoDup (l ++ [x]).
Proof.
  intros Hl Hx. induction Hl as [|y l Hy Hl IH]; simpl.
  - constructor; [tauto | constructor].
  - constructor.
    + intro H. apply in_app_or in H. destruct H as [H | [H | []]].
      * contradiction.
      * subst. apply Hx. left. reflexivity.
    + apply IH. intro H. apply Hx. right. exact H.
Qed.

Lemma grouped_step l g s :
  grouped l g -> grouped (l ++ [s]) (group_insert (fval (park s)) s g).
Proof.
  intros (Hnd & Hsites & Hkeys). set (p := fval (park s)).
  split; [| split].
  - rewrite group_insert_keys.
    destruct (existsb (fun k => park_eqb k p) (map fst g)) eqn:E.
    + rewrite app_nil_r. exact Hnd.
    + apply NoDup_snoc; [exact Hnd |]. intro H.
      apply existsb_key in H. congruence.
  - intros k sites Hin. rewrite sites_of_snoc. fold p.
    apply group_insert_In in Hin; [| exact Hnd].
    destruct Hin as [(Hk & [(old & Ho & Hs) | (Hn & Hs)]) | (Hk & Hg)].
    + subst k sites. rewrite park_eqb_refl.
      destruct (Hsites p old Ho) as (Hold & _). rewrite <- Hold.
      split; [reflexivity |]. intro H. apply app_eq_nil in H.
      destruct H as [_ H]. discriminate.
    + subst k sites. rewrite park_eqb_refl.
      assert (Hnil : sites_of p l = []).
      { destruct (sites_of p l) eqn:E; [reflexivity |].
        exfalso. apply Hn. apply Hkeys. rewrite E. discriminate. }
      rewrite Hnil. split; [reflexivity | discriminate].
    + rewrite (park_eqb_neq p k) by congruence. apply Hsites. exact Hg.
  - intros k Hk. rewrite group_insert_keys. apply in_or_app.
    rewrite sites_of_snoc in Hk. fold p in Hk.
    destruct (park_eqb p k) eqn:E.
    + apply park_eqb_eq in E. subst k.
      destruct (existsb (fun k => park_eqb k p) (map fst g)) eqn:Ex.
      * left. apply existsb_key. exact Ex.
      * right. left. reflexivity.
    + left. apply Hkeys. exact Hk.
Qed.

Lemma grouped_fold rest :
  forall l g,
    grouped l g ->
    grouped (l ++ rest)
      (fold_left (fun groups site =>
                    group_insert (fval (park site)) site groups) rest g).
Proof.
  induction rest as [|s rest IH]; intros l g H; simpl.
  - rewrite app_nil_r. exact H.
  - replace (l ++ s :: rest) with ((l ++ [s]) ++ rest)
      by (rewrite <- app_assoc; reflexivity).
    apply IH. apply grouped_step. exact H.
Qed.

(** [sites_by_park] holds, for each park that occurs, the sites of that park
    in their original order, and nothing else. *)
Lemma group_by_park_grouped (l : list CampsiteAvailability) :
  grouped l (group_by_park l).
Proof.
  unfold group_by_park. apply (grouped_fold l [] []).
  split; [constructor | split].
  - intros k sites [].
  - intros k H. exfalso. apply H. reflexivity.
Qed.

Section Sending.

Variable today : date.
Variable now : Z.
Variable smtp_delivers : nat -> bool.

Local Abbreviation send_alert :=
  (send_availability_alert today now smtp_delivers).
Local Abbreviation send_all := (send_chunks today now smtp_delivers).
Local Abbreviation send_groups := (send_parks today now smtp_delivers).
Local Abbreviation send := (send_alert_notification today now smtp_delivers).

(** SMTP transactions made by the email service so far. *)
Definition attempts (st : AlertProcessor) : nat :=
  (stat_sent (email_service st) + stat_failed (email_service st))%nat.

(** The record of one attempt: it is keyed on the first site of its chunk
    and its status is sent or failed as the transaction went. *)
Definition record_of (chunk : list CampsiteAvailability)
  (r : NotificationRecord) : Prop :=
  (0 < List.length chunk <= 10)%nat
  /\ (exists first rest,
        chunk = first :: rest
        /\ campsite_availability_key r = availability_key first)
  /\ (n_status r = SENT \/ n_status r = FAILED).

Definition was_sent (r : NotificationRecord) : bool :=
  nstatus_eqb (n_status r) SENT.

Lemma send_alert_nonempty rule first rest es :
  exists r es',
    send_alert rule (first :: rest) es = (Ok r, es')
    /\ campsite_availability_key r = availability_key first
    /\ (n_status r = SENT \/ n_status r = FAILED)
    /\ (stat_sent es' + stat_failed es' = S (stat_sent es + stat_failed es))%nat.
Proof.
  unfold send_availability_alert, _send_email.
  destruct (smtp_delivers (stat_sent es + stat_failed es)); simpl.
  - do 2 eexists. split; [reflexivity |]. simpl.
    split; [reflexivity |]. split; [left; reflexivity | lia].
  - do 2 eexists. split; [reflexivity |]. simpl.
    split; [reflexivity |]. split; [right; reflexivity | lia].
Qed.

Lemma set_add_incl key s : incl s (set_add key s).
Proof.
  unfold set_add. destruct (existsb (String.eqb key) s).
  - apply incl_refl.
  - apply incl_appl. apply incl_refl.
Qed.

Lemma add_keys_incl chunk st :
  incl (processed_notifications st) (processed_notifications (add_keys chunk st)).
Proof.
  unfold add_keys. simpl. generalize (processed_notifications st).
  induction chunk as [|site chunk IH]; intro s; simpl.
  - apply incl_refl.
  - eapply incl_tran; [apply set_add_incl | apply IH].
Qed.

(** The inner loop over chunks that are not empty and hold at most 10
    sites. *)
Lemma send_all_spec rule (cs : list (list CampsiteAvailability)) :
  Forall (fun c => (0 < List.length c <= 10)%nat) cs ->
  forall (sent : nat) (st : AlertProcessor),
    exists recs st',
      send_all rule cs sent st
      = (None, (sent + List.length (filter was_sent recs))%nat, st')
      /\ notification_batch st' = notification_batch st ++ recs
      /\ Forall2 record_of cs recs
      /\ attempts st' = (attempts st + List.length cs)%nat
      /\ incl (processed_notifications st) (processed_notifications st').
Proof.
  induction 1 as [|c cs Hc Hcs IH]; intros sent st.
  - exists [], st. simpl. repeat split.
    + f_equal. f_equal. lia.
    + rewrite app_nil_r. reflexivity.
    + constructor.
    + lia.
    + apply incl_refl.
  - destruct c as [|first rest]; [simpl in Hc; lia |].
    destruct (send_alert_nonempty rule first rest (email_service st))
      as (r & es' & Hsend & Hkey & Hstatus & Hcount).
    cbn [send_chunks]. rewrite Hsend.
    assert (Hrec : record_of (first :: rest) r).
    { split; [exact Hc |]. split; [| exact Hstatus].
      exists first, rest. split; [reflexivity | exact Hkey]. }
    destruct (nstatus_eqb (n_status r) SENT) eqn:Es.
    + destruct (IH (S sent)
                  (add_keys (first :: rest)
                     (append_batch (with_email st es') r)))
        as (recs & st' & Hrun & Hbatch & Hrecs & Hatt & Hincl).
      exists (r :: recs), st'. split; [| split; [| split; [| split]]].
      * rewrite Hrun. simpl filter. unfold was_sent at 2. rewrite Es.
        simpl List.length. f_equal. f_equal. lia.
      * rewrite Hbatch. simpl. rewrite <- app_assoc. reflexivity.
      * constructor; assumption.
      * rewrite Hatt. unfold attempts. simpl. lia.
      * eapply incl_tran; [| exact Hincl].
        apply (add_keys_incl (first :: rest)
                 (append_batch (with_email st es') r)).
    + destruct (IH sent (append_batch (with_email st es') r))
        as (recs & st' & Hrun & Hbatch & Hrecs & Hatt & Hincl).
      exists (r :: recs), st'. split; [| split; [| split; [| split]]].
      * rewrite Hrun. simpl filter. unfold was_sent at 2. rewrite Es.
        reflexivity.
      * rewrite Hbatch. simpl. rewrite <- app_assoc. reflexivity.
      * constructor; assumption.
      * rewrite Hatt. unfold attempts. simpl. lia.
      * exact Hincl.
Qed.

(** The chunks of all parks, in the order the emails go out. *)
Definition all_chunks (groups : list (ParkEnum * list CampsiteAvailability))
  : list (list CampsiteAvailability) :=
  flat_map (fun g => chunks max_sites_per_email (snd g)) groups.

Lemma send_groups_spec rule
  (groups : list (ParkEnum * list CampsiteAvailability)) :
  forall (sent : nat) (st : AlertProcessor),
    exists recs st',
      send_groups rule groups sent st
      = (None, (sent + List.length (filter was_sent recs))%nat, st')
      /\ notification_batch st' = notification_batch st ++ recs
      /\ Forall2 record_of (all_chunks groups) recs
      /\ attempts st' = (attempts st + List.length (all_chunks groups))%nat
      /\ incl (processed_notifications st) (processed_notifications st').
Proof.
  induction groups as [|[p sites] groups IH]; intros sent st.
  - exists [], st. simpl. repeat split.
    + f_equal. f_equal. lia.
    + rewrite app_nil_r. reflexivity.
    + constructor.
    + lia.
    + apply incl_refl.
  - cbn [send_parks].
    destruct (send_all_spec rule (chunks max_sites_per_email sites)
                (ChunkProofs.chunks_bounds 10 sites ltac:(lia)) sent st)
      as (recs1 & st1 & Hrun1 & Hb1 & Hr1 & Ha1 & Hi1).
    rewrite Hrun1.
    destruct (IH (sent + List.length (filter was_sent recs1))%nat st1)
      as (recs2 & st2 & Hrun2 & Hb2 & Hr2 & Ha2 & Hi2).
    exists (recs1 ++ recs2), st2. split; [| split; [| split; [| split]]].
    + rewrite Hrun2. rewrite filter_app, length_app.
      f_equal. f_equal. lia.
    + rewrite Hb2, Hb1. rewrite app_assoc. reflexivity.
    + unfold all_chunks. simpl. apply Forall2_app; assumption.
    + rewrite Ha2, Ha1. unfold all_chunks. simpl. rewrite length_app. lia.
    + eapply incl_tran; eassumption.
Qed.

Lemma filter_was_sent_Exists recs :
  (0 < List.length (filter was_sent recs))%nat
  <-> Exists (fun r => n_status r = SENT) recs.
Proof.
  induction recs as [|r recs IH]; simpl.
  - split; [lia | intro H; inversion H].
  - unfold was_sent at 1. destruct (nstatus_eqb (n_status r) SENT) eqn:E.
    + apply nstatus_eqb_eq in E. simpl. split; [| lia].
      intros _. left. exact E.
    + rewrite IH. split.
      * intro H. right. exact H.
      * intro H. inversion H as [? ? Hs | ? ? Hs]; subst; [| exact Hs].
        apply nstatus_eqb_eq in Hs. congruence.
Qed.

End Sending.

Lemma single_key (keys : list ParkEnum) (p : ParkEnum) :
  NoDup keys -> (forall k, In k keys -> k = p) -> In p keys -> keys = [p].
Proof.
  intros Hnd Hall Hin. destruct keys as [|k keys]; [destruct Hin |].
  assert (k = p) by (apply Hall; left; reflexivity). subst k.
  destruct keys as [|k' keys]; [reflexivity |].
  assert (k' = p) by (apply Hall; right; left; reflexivity). subst k'.
  inversion Hnd as [|? ? Hnotin _]; subst. exfalso. apply Hnotin.
  left. reflexivity.
Qed.

(** Sites of one park form one group. *)
Lemma group_by_park_one_park (l : list CampsiteAvailability) (p : ParkEnum) :
  l <> [] -> (forall s, In s l -> fval (park s) = p) ->
  group_by_park l = [(p, l)].
Proof.
  intros Hne Hp. destruct (group_by_park_grouped l) as (Hnd & Hsites & Hkeys).
  assert (Hall : sites_of p l = l).
  { unfold sites_of. clear - Hp. induction l as [|s l IH]; [reflexivity |].
    simpl. rewrite (Hp s) by (left; reflexivity). rewrite park_eqb_refl.
    f_equal. apply IH. intros x Hx. apply Hp. right. exact Hx. }
  assert (Hk : map fst (group_by_park l) = [p]).
  { apply single_key; [exact Hnd | |].
    - intros k Hin. apply in_map_iff in Hin.
      destruct Hin as ([k' sites] & Hfst & Hin). simpl in Hfst. subst k'.
      destruct (Hsites k sites Hin) as (Hs & Hnn).
      destruct sites as [|x sites]; [congruence |].
      assert (Hx : In x (sites_of k l)) by (rewrite <- Hs; left; reflexivity).
      apply filter_In in Hx. destruct Hx as (Hx & Hpk).
      apply park_eqb_eq in Hpk. rewrite (Hp x Hx) in Hpk. congruence.
    - apply Hkeys. rewrite Hall. exact Hne. }
  destruct (group_by_park l) as [|[k sites] g] eqn:E; [discriminate |].
  destruct g as [|? ?]; [| discriminate].
  simpl in Hk. inversion Hk; subst k.
  destruct (Hsites p sites) as (Hs & _); [left; reflexivity |].
  rewrite Hs, Hall. reflexivity.
Qed.

(** C6.  [send_alert_notification] groups the matched sites by park, each
    group holding the sites of its park in their order; it cuts every group
    into consecutive chunks of at least one and at most 10 sites, makes one
    email attempt per chunk and appends one notification record per attempt
    to the pending batch, in order; it returns true exactly when one of
    these records has status sent.  When the matches are 23 sites of one
    park, the chunks hold 10, 10 and 3 sites and 3 records are appended. *)
Theorem send_alert_notification_chunks (today : date) (now : Z)
  (smtp_delivers : nat -> bool) (rule : AlertRule)
  (matches : list CampsiteAvailability) (st : AlertProcessor) :
  let groups := group_by_park matches in
  let site_chunks := all_chunks groups in
  let outcome :=
    send_alert_notification today now smtp_delivers rule matches st in
  grouped matches groups
  /\ (forall g, In g groups -> List.concat (chunks 10 (snd g)) = snd g)
  /\ Forall (fun c => (0 < List.length c <= 10)%nat) site_chunks
  /\ (exists recs,
        notification_batch (snd outcome) = notification_batch st ++ recs
        /\ Forall2 record_of site_chunks recs
        /\ attempts (snd outcome)
           = (attempts st + List.length site_chunks)%nat
        /\ (fst outcome = true <-> Exists (fun r => n_status r = SENT) recs)
        /\ (List.length matches = 23%nat ->
            (exists p, forall s, In s matches -> fval (park s) = p) ->
            map (@List.length _) site_chunks = [10; 10; 3]%nat
            /\ List.length recs = 3%nat)).
Proof.
  intros groups site_chunks outcome.
  split; [apply group_by_park_grouped |].
  split; [intros g _; apply ChunkProofs.concat_chunks; lia |].
  split.
  { unfold site_chunks, all_chunks. apply Forall_flat_map.
    apply Forall_forall. intros g _. apply ChunkProofs.chunks_bounds.
    unfold max_sites_per_email. lia. }
  destruct (send_groups_spec today now smtp_delivers rule groups 0 st)
    as (recs & st' & Hrun & Hbatch & Hrecs & Hatt & _).
  exists recs. unfold outcome, send_alert_notification. fold groups.
  rewrite Hrun. cbn [fst snd].
  split; [exact Hbatch |]. split; [exact Hrecs |]. split; [exact Hatt |].
  split.
  - rewrite <- filter_was_sent_Exists. simpl. rewrite Nat.ltb_lt. reflexivity.
  - intros Hlen (p & Hp).
    assert (Hne : matches <> [])
      by (intro E; rewrite E in Hlen; discriminate).
    assert (Hchunks : map (@List.length _) site_chunks = [10; 10; 3]%nat).
    { unfold site_chunks, groups.
      rewrite (group_by_park_one_park matches p Hne Hp).
      unfold all_chunks. simpl. rewrite app_nil_r.
      apply ChunkProofs.chunks_of_23. exact Hlen. }
    split; [exact Hchunks |].
    assert (Hl : List.length site_chunks = 3%nat)
      by (rewrite <- (length_map (@List.length _) site_chunks), Hchunks;
          reflexivity).
    rewrite <- (Forall2_length Hrecs). exact Hl.
Qed.

(** 23 Carlsbad sites on consecutive days, the second email failing. *)
Definition carlsbad_site (n : nat) : CampsiteAvailability :=
  {| park := Plain CARLSBAD;
     site_id := str_of_Z (Z.of_nat n);
     site_name := "Site " +++ str_of_Z (Z.of_nat n);
     site_type := Plain RV;
     check_in_date := 739934;
     status := Plain AVAILABLE;
     price := Some 60%Q;
     max_occupancy := None;
     amenities := [];
     scraped_at := 0;
     url := None |}.

Definition weekend_rule : AlertRule :=
  {| rule_id := Some "rule-1";
     user_email := "camper@example.com";
     rule_parks := [CARLSBAD];
     rule_site_types := [RV];
     weekend_only := true;
     min_nights := 1;
     max_price := Some 100%Q;
     advance_notice_days := 7;
     is_active := true |}.

Lemma send_alert_notification_chunks_witness :
  map (@List.length _) (all_chunks (group_by_park (map carlsbad_site (seq 1 23))))
  = [10; 10; 3]%nat.
Proof.
  destruct (send_alert_notification_chunks 739924 0
              (fun k => negb (Nat.eqb k 1)) weekend_rule
              (map carlsbad_site (seq 1 23)) Alerts.init)
    as (_ & _ & _ & recs & _ & _ & _ & _ & H).
  apply H.
  - reflexivity.
  - exists CARLSBAD. intros s Hs. apply in_map_iff in Hs.
    destruct Hs as (n & Hn & _). subst s. reflexivity.
Defined.

Example twenty_three_sites_three_records :
  let outcome :=
    send_alert_notification 739924 0 (fun k => negb (Nat.eqb k 1)) weekend_rule
      (map carlsbad_site (seq 1 23)) Alerts.init in
  fst outcome = true
  /\ map n_status (notification_batch (snd outcome)) = [SENT; FAILED; SENT]
  /\ map n_site_id (notification_batch (snd outcome)) = ["1"; "11"; "21"]
  /\ List.length (processed_notifications (snd outcome)) = 13%nat.
Proof. vm_compute. repeat split. Qed.

End SendProofs.

(* ------------------------------------------------------------------ *)
(** ** The accumulator of the alert processor *)
(* ------------------------------------------------------------------ *)

Module AccumulatorProofs.
Import Alerts.

Section Processor.

Variable today : date.
Variable now : Z.
Variable alert_cooldown_hours : Z.
Variable smtp_delivers : nat -> bool.
Variable db : DbClient.

Local Abbreviation send := (send_alert_notification today now smtp_delivers).
Local Abbreviation loop :=
  (rules_loop today now alert_cooldown_hours smtp_delivers db).
Local Abbreviation process :=
  (process_new_availability today now alert_cooldown_hours smtp_delivers db).

(** [st'] keeps every processed key of [st] and its batch is the batch of
    [st] with records added at the end. *)
Definition extends (st st' : AlertProcessor) : Prop :=
  incl (processed_notifications st) (processed_notifications st')
  /\ exists recs, notification_batch st' = notification_batch st ++ recs.

Lemma extends_refl st : extends st st.
Proof.
  split; [apply incl_refl |]. exists []. rewrite app_nil_r. reflexivity.
Qed.

Lemma extends_trans st1 st2 st3 :
  extends st1 st2 -> extends st2 st3 -> extends st1 st3.
Proof.
  intros (Hi1 & r1 & Hb1) (Hi2 & r2 & Hb2). split.
  - eapply incl_tran; eassumption.
  - exists (r1 ++ r2). rewrite Hb2, Hb1, app_assoc. reflexivity.
Qed.

Lemma send_extends rule matches st : extends st (snd (send rule matches st)).
Proof.
  unfold send_alert_notification.
  destruct (SendProofs.send_groups_spec today now smtp_delivers rule
              (group_by_park matches) 0 st)
    as (recs & st' & Hrun & Hbatch & _ & _ & Hincl).
  rewrite Hrun. simpl. split; [exact Hincl |]. exists recs. exact Hbatch.
Qed.

Lemma loop_extends rules availability :
  forall stats st, extends st (snd (loop rules availability stats st)).
Proof.
  induction rules as [|rule rules IH]; intros stats st; simpl.
  - apply extends_refl.
  - destruct (find_matching_availability today alert_cooldown_hours db rule
                availability) as [[|m ms]|e].
    + apply IH.
    + destruct (send rule (m :: ms) st) as [sent st1] eqn:E.
      eapply extends_trans; [| apply IH].
      pose proof (send_extends rule (m :: ms) st) as H.
      rewrite E in H. exact H.
    + apply IH.
Qed.

Lemma store_batch_keys st :
  processed_notifications (_store_notification_batch db st)
  = processed_notifications st.
Proof.
  unfold _store_notification_batch.
  destruct (record_all db (notification_batch st)); reflexivity.
Qed.

Lemma store_batch_cases st :
  notification_batch (_store_notification_batch db st) = []
  \/ notification_batch (_store_notification_batch db st)
     = notification_batch st.
Proof.
  unfold _store_notification_batch.
  destruct (record_all db (notification_batch st)); [left | right];
    reflexivity.
Qed.

Lemma record_all_ok batch :
  (forall r, is_ok (record_notification db r) = true) ->
  record_all db batch = Ok tt.
Proof.
  intro Hok. induction batch as [|r batch IH]; simpl; [reflexivity |].
  specialize (Hok r). destruct (record_notification db r);
    [| discriminate]. simpl. exact IH.
Qed.

(** What a call does to the accumulator. *)
Lemma process_accumulator availability st :
  let st' := snd (process availability st) in
  incl (processed_notifications st) (processed_notifications st')
  /\ (notification_batch st' = []
      \/ exists recs, notification_batch st' = notification_batch st ++ recs)
  /\ ((forall r, is_ok (record_notification db r) = true) ->
      notification_batch st = [] -> notification_batch st' = []).
Proof.
  unfold process_new_availability.
  destruct availability as [|a availability].
  { simpl. split; [apply incl_refl |]. split; [| tauto].
    right. exists []. rewrite app_nil_r. reflexivity. }
  destruct (get_active_alert_rules db) as [[|rule rules]|e].
  { simpl. split; [apply incl_refl |]. split; [| tauto].
    right. exists []. rewrite app_nil_r. reflexivity. }
  2:{ simpl. split; [apply incl_refl |]. split; [| tauto].
      right. exists []. rewrite app_nil_r. reflexivity. }
  match goal with
  | |- context [loop ?rs ?av ?stats st] =>
      pose proof (loop_extends rs av stats st) as Hext;
      destruct (loop rs av stats st) as [stats1 st1]
  end.
  cbn [snd] in Hext. destruct Hext as (Hincl & recs & Hbatch).
  cbn zeta. cbn [snd].
  destruct (notification_batch st1) as [|r rs] eqn:Eb.
  - split; [exact Hincl |]. split; [left; exact Eb | intros _ _; exact Eb].
  - split; [| split].
    + rewrite store_batch_keys. exact Hincl.
    + destruct (store_batch_cases st1) as [H | H];
        [left; exact H | right].
      exists recs. rewrite H, Eb. exact Hbatch.
    + intros Hok _. unfold _store_notification_batch.
      rewrite record_all_ok by exact Hok. reflexivity.
Qed.

End Processor.

(** A store with one active rule that has recorded no notification yet. *)
Definition one_rule_db : DbClient :=
  {| get_active_alert_rules := Ok [SendProofs.weekend_rule];
     check_notification_sent := fun _ _ _ _ => Ok false;
     record_notification := fun _ => Ok true;
     get_availability_by_park := fun _ _ _ _ => Ok [] |}.

(** An available Carlsbad RV site at 60 dollars on Saturday 2026-11-14, and
    a booked site on the Sunday after. *)
Definition saturday_site : CampsiteAvailability :=
  {| park := Plain CARLSBAD; site_id := "47"; site_name := "Site 47";
     site_type := Plain RV; check_in_date := ymd2ord 2026 11 14;
     status := Plain AVAILABLE; price := Some 60%Q; max_occupancy := None;
     amenities := []; scraped_at := 0; url := None |}.

Definition booked_site : CampsiteAvailability :=
  {| park := Plain CARLSBAD; site_id := "48"; site_name := "Site 48";
     site_type := Plain RV; check_in_date := ymd2ord 2026 11 15;
     status := Plain BOOKED; price := Some 60%Q; max_occupancy := None;
     amenities := []; scraped_at := 0; url := None |}.

(** C4, as stated: a processor that sent one notification in a first call
    enters its next call with the key of that notification in its set of
    processed keys, and still holds it after a second call that found
    nothing to send. *)
Lemma accumulator_survives_call :
  let today := ymd2ord 2026 11 4 in
  let call :=
    process_new_availability today 0 24 (fun _ => true) one_rule_db in
  let first := call [saturday_site] init in
  let second := call [booked_site] (snd first) in
  notifications_sent (fst first) = 1%nat
  /\ processed_notifications (snd first) = ["carlsbad_47_2026-11-14"]
  /\ processed_notifications (snd first) <> processed_notifications init
  /\ notifications_sent (fst second) = 0%nat
  /\ processed_notifications (snd second) = ["carlsbad_47_2026-11-14"]
  /\ get_processing_stats (snd second) = (1%nat, 0%nat).
Proof.
  vm_compute. repeat split. discriminate.
Qed.

(** C4, amended.  The accumulator belongs to the processor instance: the
    constructor creates the set of processed keys and the pending batch
    empty, and [process_new_availability] does not reset them.  A call
    removes no processed key; after it the pending batch is empty or is the
    batch before the call with the records of the call added, and it is
    empty whenever it was empty before the call and the store client
    returns from every [record_notification]. *)
Theorem accumulator_is_instance_state (today : date)
  (now alert_cooldown_hours : Z) (smtp_delivers : nat -> bool)
  (db : DbClient) (availability : list CampsiteAvailability)
  (st : AlertProcessor) :
  let st' :=
    snd (process_new_availability today now alert_cooldown_hours
           smtp_delivers db availability st) in
  processed_notifications init = []
  /\ notification_batch init = []
  /\ incl (processed_notifications st) (processed_notifications st')
  /\ (notification_batch st' = []
      \/ exists recs, notification_batch st' = notification_batch st ++ recs)
  /\ ((forall r, is_ok (record_notification db r) = true) ->
      notification_batch st = [] -> notification_batch st' = []).
Proof.
  intro st'. split; [reflexivity |]. split; [reflexivity |].
  apply process_accumulator.
Qed.

Lemma accumulator_is_instance_state_witness :
  notification_batch
    (snd (process_new_availability (ymd2ord 2026 11 4) 0 24 (fun _ => true)
            one_rule_db [saturday_site] init)) = [].
Proof.
  destruct (accumulator_is_instance_state (ymd2ord 2026 11 4) 0 24
              (fun _ => true) one_rule_db [saturday_site] init)
    as (_ & _ & _ & _ & H).
  apply H.
  - intro r. reflexivity.
  - reflexivity.
Defined.

End AccumulatorProofs.

(* ------------------------------------------------------------------ *)
(** ** The other operations of the store client *)
(* ------------------------------------------------------------------ *)

Module ClientProofs.
Import Store ModelsRest Client.

Section Operations.

Variable Row : Type.
Variable decode_row : Row -> result CampsiteAvailability.
Variable decode_rule : Row -> result AlertRule.
Variable row_count : Row -> option Z.
Variable insert_rows_ : InsertParams -> result (Response Row).
Variable insert_row : RowInsert -> result (Response Row).
Variable execute : string -> result (Response Row).
Variable uuid4 : string.
Variable utcnow_iso : string.
Variable datetime_isoformat : Z -> string.
Variable cutoff_iso : Z -> result string.

(** A row that can be kept or skipped: its construction returns or raises
    one of the two exceptions the loops catch. *)
Definition skippable {A} (decode : Row -> result A) (row : Row) : Prop :=
  match decode row with
  | Ok _ | Raise (ValidationError _) | Raise (ValueError _) => True
  | Raise _ => False
  end.

(** The records of the rows that construct, in order. *)
Definition decoded {A} (decode : Row -> result A) (rows_ : list Row)
  : list A :=
  flat_map (fun row => match decode row with Ok a => [a] | Raise _ => [] end)
           rows_.

Lemma rows_loop_decoded (rows_ : list Row) :
  Forall (skippable decode_row) rows_ ->
  forall acc,
    rows_loop Row decode_row rows_ acc = Ok (acc ++ decoded decode_row rows_).
Proof.
  induction 1 as [|row rows_ Hrow Hrows IH]; intro acc; simpl.
  - rewrite app_nil_r. reflexivity.
  - unfold skippable in Hrow.
    destruct (decode_row row) as [a|[]]; try contradiction.
    + rewrite IH. rewrite <- app_assoc. reflexivity.
    + apply IH.
    + apply IH.
Qed.

Lemma rules_of_rows_decoded (rows_ : list Row) :
  Forall (skippable decode_rule) rows_ ->
  forall acc,
    rules_of_rows Row decode_rule rows_ acc
    = Ok (acc ++ decoded decode_rule rows_).
Proof.
  induction 1 as [|row rows_ Hrow Hrows IH]; intro acc; simpl.
  - rewrite app_nil_r. reflexivity.
  - unfold skippable in Hrow.
    destruct (decode_rule row) as [a|[]]; try contradiction.
    + rewrite IH. rewrite <- app_assoc. reflexivity.
    + apply IH.
    + apply IH.
Qed.

(** [get_availability_by_park] for a park given as a member and no status
    filter, on a backend that answers the query: the rows that construct
    are returned in the order of the answer, and rows that fail validation
    are left out. *)
Theorem get_availability_by_park_rows (park_ : ParkEnum)
  (start_ end_ : option date) (response : Response Row) :
  (forall q, execute q = Ok response) ->
  success Row response = true ->
  Forall (skippable decode_row) (data Row response) ->
  Store.get_availability_by_park Row decode_row insert_rows_ execute
    (Member park_) start_ end_ None
  = Ok (decoded decode_row (data Row response)).
Proof.
  intros Hq Hs Hrows.
  unfold Store.get_availability_by_park, get_availability_by_park_body.
  cbn [dot_value bind]. unfold _execute_query, _call_mcp_tool.
  cbn [String.eqb Ascii.eqb Bool.eqb]. rewrite Hq. cbn [try_except bind].
  rewrite Hs. cbn [negb]. rewrite rows_loop_decoded by exact Hrows.
  reflexivity.
Qed.

(** [get_active_alert_rules] never raises; a query that raises or reports
    failure gives the empty list; when the query is answered, the rules of
    the rows that construct are returned in order. *)
Theorem get_active_alert_rules_reads :
  (exists l, get_active_alert_rules Row decode_rule execute = Ok l)
  /\ ((forall q, is_ok (execute q) = false
                 \/ exists r, execute q = Ok r /\ success Row r = false) ->
      get_active_alert_rules Row decode_rule execute = Ok [])
  /\ (forall response,
        (forall q, execute q = Ok response) ->
        success Row response = true ->
        Forall (skippable decode_rule) (data Row response) ->
        get_active_alert_rules Row decode_rule execute
        = Ok (decoded decode_rule (data Row response))).
Proof.
  split; [| split].
  - unfold get_active_alert_rules, try_except.
    match goal with
    | |- exists l, match ?b with _ => _ end = _ => destruct b
    end; eexists; reflexivity.
  - intro Hfail. unfold get_active_alert_rules, call_query.
    destruct (Hfail active_rules_query) as [Hq | (r & Hq & Hs)].
    + destruct (execute active_rules_query); [discriminate | reflexivity].
    + rewrite Hq. simpl. rewrite Hs. reflexivity.
  - intros response Hq Hs Hrows.
    unfold get_active_alert_rules, call_query. rewrite Hq. simpl.
    rewrite Hs. simpl. rewrite rules_of_rows_decoded by exact Hrows.
    reflexivity.
Qed.

(** [check_notification_sent] always returns a boolean.  For a park given
    as a plain value, as the attribute of a record is, it returns false
    without sending any query; for a member it sends one query and returns
    true exactly when the query succeeds and the count of its first row is
    positive. *)
Theorem check_notification_sent_answers (site_id_ : string)
  (check_in_date_ : date) (hours_back : Z) :
  (forall park_,
     exists b queries,
       check_notification_sent Row row_count execute cutoff_iso park_ site_id_
         check_in_date_ hours_back = (Ok b, queries))
  /\ (forall p,
        check_notification_sent Row row_count execute cutoff_iso (Plain p)
          site_id_ check_in_date_ hours_back = (Ok false, []))
  /\ (forall p cutoff,
        cutoff_iso hours_back = Ok cutoff ->
        let q := notification_count_query (park_value p) site_id_
                   (isoformat check_in_date_) cutoff in
        exists b,
          check_notification_sent Row row_count execute cutoff_iso (Member p)
            site_id_ check_in_date_ hours_back = (Ok b, [q])
          /\ (b = true <->
              exists response row rest c,
                execute q = Ok response
                /\ success Row response = true
                /\ data Row response = row :: rest
                /\ row_count row = Some c /\ 0 < c)).
Proof.
  split; [| split].
  - intro park_. unfold check_notification_sent.
    destruct (cutoff_iso hours_back) as [cutoff|]; cbn [bind];
      [| do 2 eexists; reflexivity].
    destruct (dot_value park_value park_) as [p|]; cbn [bind];
      [| do 2 eexists; reflexivity].
    destruct (call_query Row execute _) as [response|];
      [| do 2 eexists; reflexivity].
    destruct (success Row response); [| do 2 eexists; reflexivity].
    destruct (data Row response); do 2 eexists; reflexivity.
  - intro p. unfold check_notification_sent.
    destruct (cutoff_iso hours_back); reflexivity.
  - intros p cutoff Hc q. unfold check_notification_sent.
    rewrite Hc. cbn [bind dot_value]. fold q. unfold call_query.
    destruct (execute q) as [response|e] eqn:Eq; cbn [try_except].
    + destruct (success Row response) eqn:Es.
      * destruct (data Row response) as [|row rest] eqn:Ed.
        -- exists false. split; [reflexivity |]. split; [discriminate |].
           intros (r' & row & rest & c & Hr & _ & Hd & _).
           inversion Hr; subst r'. congruence.
        -- eexists. split; [reflexivity |]. rewrite Z.ltb_lt. split.
           ++ intro Hpos. destruct (row_count row) as [c|] eqn:Ec; [| lia].
              exists response, row, rest, c. repeat split; assumption.
           ++ intros (r' & row' & rest' & c & Hr & _ & Hd & Hcount & Hpos).
              inversion Hr; subst r'. rewrite Ed in Hd.
              inversion Hd; subst row' rest'. rewrite Hcount. exact Hpos.
      * exists false. split; [reflexivity |]. split; [discriminate |].
        intros (r' & row & rest & c & Hr & Hs & _).
        inversion Hr; subst r'. congruence.
    + exists false. split; [reflexivity |]. split; [discriminate |].
      intros (r' & row & rest & c & Hr & _). discriminate.
Qed.

(** The records that [record_notification] and [store_scrape_result] are
    given hold plain values in their enum attributes: both return false
    without issuing any insert, whatever the record and the backend. *)
Theorem notification_and_scrape_rows_never_inserted :
  (forall n,
     record_notification Row insert_row uuid4 utcnow_iso datetime_isoformat n
     = (Ok false, []))
  /\ (forall r,
        store_scrape_result Row insert_row uuid4 utcnow_iso
          datetime_isoformat r = (Ok false, [])).
Proof. split; intro x; reflexivity. Qed.

(** [create_alert_rule] raises the client's error, before any insert, for
    every rule the model constructor accepts. *)
Theorem create_alert_rule_raises (id_ : option string) (email : string)
  (parks : list ParkEnum) (site_types : list SiteTypeEnum)
  (weekend_only_ : bool) (min_nights_ : Z) (max_price_ : option Q)
  (advance_notice_days_ : Z) (is_active_ : bool) (rule : AlertRule) :
  new_AlertRule id_ email parks site_types weekend_only_ min_nights_
    max_price_ advance_notice_days_ is_active_ = Ok rule ->
  create_alert_rule Row insert_row uuid4 utcnow_iso rule
  = (Raise (SupabaseError
              "Alert rule creation failed: 'str' object has no attribute 'value'"),
     []).
Proof.
  unfold new_AlertRule.
  destruct (validate_email email); [| discriminate]. cbn [bind].
  destruct parks as [|p ps]; [discriminate |]. cbn [bind].
  destruct site_types as [|t ts]; [discriminate |]. cbn [bind].
  destruct ((1 <=? min_nights_) && (min_nights_ <=? 14)); [| discriminate].
  cbn [bind].
  destruct max_price_ as [q|];
    [destruct (Qle_bool 0 q); [| discriminate] |]; cbn [bind];
    (destruct ((1 <=? advance_notice_days_) && (advance_notice_days_ <=? 180));
       [| discriminate]);
    cbn [bind]; intro H; inversion H; subst; reflexivity.
Qed.

End Operations.

(** The rule the [create-alert] command builds for all parks. *)
Lemma create_alert_rule_raises_witness :
  exists rule,
    new_AlertRule None "Camper@Example.com" all_parks [TENT; RV] true 1
      (Some 100%Q) 7 true = Ok rule
    /\ create_alert_rule unit (fun _ => Ok {| success := true; error := None;
                                               data := [] |})
         "id" "now" rule
       = (Raise (SupabaseError
                   "Alert rule creation failed: 'str' object has no attribute 'value'"),
          []).
Proof.
  eexists. split; [vm_compute; reflexivity |].
  eapply (create_alert_rule_raises unit _ "id" "now" None "Camper@Example.com"
            all_parks [TENT; RV] true 1 (Some 100%Q) 7 true).
  vm_compute. reflexivity.
Defined.

Lemma get_availability_by_park_rows_witness :
  Store.get_availability_by_park nat
    (fun n => if Nat.eqb n 2 then Raise (ValidationError "past date")
              else Ok (SendProofs.carlsbad_site n))
    (simulated_insert nat)
    (fun _ => Ok {| success := true; error := None; data := [1; 2; 3]%nat |})
    (Member CARLSBAD) None None None
  = Ok [SendProofs.carlsbad_site 1; SendProofs.carlsbad_site 3].
Proof.
  refine (get_availability_by_park_rows nat
           (fun n => if Nat.eqb n 2 then Raise (ValidationError "past date")
                     else Ok (SendProofs.carlsbad_site n))
           (simulated_insert nat)
           (fun _ => Ok {| success := true; error := None;
                           data := [1; 2; 3]%nat |})
           CARLSBAD None None
           {| success := true; error := None; data := [1; 2; 3]%nat |}
           (fun _ => eq_refl) eq_refl _).
  simpl. repeat constructor.
Defined.

Lemma get_active_alert_rules_reads_witness :
  get_active_alert_rules nat (fun _ => Raise (ValueError "row"))
    (fun _ => Raise (SupabaseError "connection refused"))
  = Ok [].
Proof.
  apply (proj1 (proj2 (get_active_alert_rules_reads nat
                         (fun _ => Raise (ValueError "row"))
                         (fun _ => Raise (SupabaseError "connection refused"))))).
  intro q. left. reflexivity.
Defined.

Lemma check_notification_sent_answers_witness :
  exists b,
    check_notification_sent nat (fun n => Some (Z.of_nat n))
      (fun _ => Ok {| success := true; error := None; data := [2%nat] |})
      (fun _ => Ok "2026-11-03T00:00:00") (Member CARLSBAD) "A1" 739934 24
    = (Ok b,
       [notification_count_query "carlsbad" "A1" (isoformat 739934)
          "2026-11-03T00:00:00"]).
Proof.
  destruct (proj2 (proj2 (check_notification_sent_answers nat
                            (fun n => Some (Z.of_nat n))
                            (fun _ => Ok {| success := true; error := None;
                                            data := [2%nat] |})
                            (fun _ => Ok "2026-11-03T00:00:00")
                            "A1" 739934 24))
              CARLSBAD "2026-11-03T00:00:00" eq_refl) as (b & H & _).
  exists b. exact H.
Defined.

End ClientProofs.

(* ------------------------------------------------------------------ *)
(** ** Matching, statistics and the daily summary *)
(* ------------------------------------------------------------------ *)

Module ProcessorProofs.
Import Alerts.

Section Matching.

Variable today : date.
Variable now : Z.
Variable alert_cooldown_hours : Z.
Variable smtp_delivers : nat -> bool.
Variable db : DbClient.

Lemma matching_loop_filter (rule : AlertRule)
  (all : list CampsiteAvailability)
  (notified matched : CampsiteAvailability -> bool) :
  forall (sites matches : list CampsiteAvailability),
    (forall s, In s sites ->
       fval (status s) = AVAILABLE ->
       check_notification_sent db (park s) (site_id s) (check_in_date s)
         alert_cooldown_hours = Ok (notified s)) ->
    (forall s, In s sites ->
       fval (status s) = AVAILABLE -> notified s = false ->
       _matches_alert_rule today rule s all = Ok (matched s)) ->
    matching_loop today alert_cooldown_hours db rule sites all matches
    = Ok (matches
          ++ filter (fun s => status_eqb (fval (status s)) AVAILABLE
                              && negb (notified s) && matched s)
                    sites).
Proof.
  induction sites as [|s sites IH]; intros matches Hn Hm; simpl.
  - rewrite app_nil_r. reflexivity.
  - assert (Hn' : forall x, In x sites ->
               fval (status x) = AVAILABLE ->
               check_notification_sent db (park x) (site_id x)
                 (check_in_date x) alert_cooldown_hours = Ok (notified x))
      by (intros x Hx; apply Hn; right; exact Hx).
    assert (Hm' : forall x, In x sites ->
               fval (status x) = AVAILABLE -> notified x = false ->
               _matches_alert_rule today rule x all = Ok (matched x))
      by (intros x Hx; apply Hm; right; exact Hx).
    destruct (status_eqb (fval (status s)) AVAILABLE) eqn:Es; cbn [negb andb].
    + apply status_eqb_eq in Es.
      rewrite (Hn s (or_introl eq_refl) Es). cbn [bind].
      destruct (notified s) eqn:En; cbn [negb andb].
      * apply IH; assumption.
      * rewrite (Hm s (or_introl eq_refl) Es En). cbn [bind].
        destruct (matched s).
        -- rewrite IH by assumption. rewrite <- app_assoc. reflexivity.
        -- apply IH; assumption.
    + apply IH; assumption.
Qed.

(** [find_matching_availability] keeps, in their order, the sites that are
    available, have no sent notification on record and match the rule,
    when the history check and the rule predicate return for them. *)
Theorem find_matching_availability_filter (rule : AlertRule)
  (availability : list CampsiteAvailability)
  (notified matched : CampsiteAvailability -> bool) :
  (forall s, In s availability ->
     fval (status s) = AVAILABLE ->
     check_notification_sent db (park s) (site_id s) (check_in_date s)
       alert_cooldown_hours = Ok (notified s)) ->
  (forall s, In s availability ->
     fval (status s) = AVAILABLE -> notified s = false ->
     _matches_alert_rule today rule s availability = Ok (matched s)) ->
  find_matching_availability today alert_cooldown_hours db rule availability
  = Ok (filter (fun s => status_eqb (fval (status s)) AVAILABLE
                         && negb (notified s) && matched s)
               availability).
Proof.
  intros Hn Hm. unfold find_matching_availability.
  rewrite (matching_loop_filter rule availability notified matched)
    by assumption.
  reflexivity.
Qed.

(** The counters of the statistics while the rules are gone through. *)
Lemma rules_loop_counters (rules : list AlertRule)
  (availability : list CampsiteAvailability) :
  forall (stats : Stats) (st : AlertProcessor) (m : nat),
    rules_matched stats = Some m ->
    let out := fst (rules_loop today now alert_cooldown_hours smtp_delivers db
                      rules availability stats st) in
    exists ds dm more,
      notifications_sent out = (notifications_sent stats + ds)%nat
      /\ rules_matched out = Some (m + dm)%nat
      /\ errors out = errors stats ++ more
      /\ (ds <= dm)%nat
      /\ (dm + List.length more <= List.length rules)%nat
      /\ rules_processed out = rules_processed stats
      /\ availability_processed out = availability_processed stats
      /\ weekend_sites_found out = weekend_sites_found stats.
Proof.
  induction rules as [|rule rules IH]; intros stats st m Hm;
    cbn [rules_loop]; cbn zeta.
  - exists 0%nat, 0%nat, []. cbn [fst].
    rewrite app_nil_r, Hm, !Nat.add_0_r. repeat split; lia.
  - destruct (find_matching_availability today alert_cooldown_hours db rule
                availability) as [[|x xs]|e].
    + pose proof (IH stats st m Hm) as H. cbn zeta in H.
      destruct H as (ds & dm & more & H1 & H2 & H3 & H4 & H5 & H6).
      exists ds, dm, more. cbn [List.length].
      repeat split; try tauto. lia.
    + destruct (send_alert_notification today now smtp_delivers rule
                  (x :: xs) st) as [sent st1].
      assert (Hm1 : rules_matched (count_rule stats true sent) = Some (S m))
        by (cbn; rewrite Hm; reflexivity).
      pose proof (IH (count_rule stats true sent) st1 (S m) Hm1) as H.
      cbn zeta in H.
      destruct H as (ds & dm & more & H1 & H2 & H3 & H4 & H5 & H6 & H7 & H8).
      exists ((if sent then 1 else 0) + ds)%nat, (S dm), more.
      rewrite H1, H2, H3, H6, H7, H8.
      cbn [count_rule notifications_sent rules_processed errors
           availability_processed weekend_sites_found List.length].
      repeat split; try (destruct sent; lia).
      f_equal. lia.
    + pose proof (IH (add_error stats
                        ("Error processing rule " +++ rule_id_text rule
                         +++ ": " +++ exn_str e)) st m Hm) as H.
      cbn zeta in H.
      destruct H as (ds & dm & more & H1 & H2 & H3 & H4 & H5 & H6 & H7 & H8).
      exists ds, dm,
        (("Error processing rule " +++ rule_id_text rule +++ ": "
          +++ exn_str e) :: more).
      rewrite H1, H2, H3, H6, H7, H8.
      cbn [add_error notifications_sent rules_processed errors
           availability_processed weekend_sites_found List.length].
      repeat split; try lia.
      rewrite <- app_assoc. reflexivity.
Qed.

(** The statistics of a call that found rules: every rule is counted as
    processed, a rule is counted as matched at most once, and a rule
    counted as notified was counted as matched; a rule that raised is in
    the error list and not among the matched. *)
Theorem process_new_availability_statistics
  (availability : list CampsiteAvailability) (rules : list AlertRule)
  (st : AlertProcessor) :
  availability <> [] ->
  get_active_alert_rules db = Ok rules ->
  let stats := fst (process_new_availability today now alert_cooldown_hours
                      smtp_delivers db availability st) in
  rules_processed stats = List.length rules
  /\ availability_processed stats = Some (List.length availability)
  /\ exists matched,
       rules_matched stats = Some matched
       /\ (notifications_sent stats <= matched)%nat
       /\ (matched + List.length (errors stats) <= List.length rules)%nat
       /\ (rules <> [] ->
           weekend_sites_found stats
           = Some (List.length
                     (filter (fun s => is_weekend_date (check_in_date s)
                                       && status_eqb (fval (status s)) AVAILABLE)
                             availability))).
Proof.
  intros Hne Hrules. unfold process_new_availability.
  destruct availability as [|a availability]; [congruence |].
  rewrite Hrules. destruct rules as [|rule rules].
  - simpl. repeat split. exists 0%nat. repeat split; try lia. congruence.
  - match goal with
    | |- context [rules_loop _ _ _ _ _ ?rs ?av ?stats0 st] =>
        pose proof (rules_loop_counters rs av stats0 st 0 eq_refl) as H;
        destruct (rules_loop today now alert_cooldown_hours smtp_delivers db
                    rs av stats0 st) as [stats1 st1]
    end.
    cbn [fst] in H.
    destruct H as (ds & dm & more & H1 & H2 & H3 & H4 & H5 & H6 & H7 & H8).
    cbn zeta. cbn [fst]. cbn [notifications_sent rules_processed errors
      availability_processed weekend_sites_found rules_matched] in *.
    rewrite H6, H7, H8. split; [reflexivity |]. split; [reflexivity |].
    exists dm. rewrite H1, H2, H3.
    split; [reflexivity |]. split; [lia |].
    split; [cbn [List.length app] in *; lia |].
    intros _. reflexivity.
Qed.

End Matching.

(** With no availability nothing is asked of the store and nothing changes;
    with no active rule nothing changes either. *)
Lemma process_new_availability_nothing_to_do (today : date)
  (now alert_cooldown_hours : Z) (smtp_delivers : nat -> bool)
  (db : DbClient) (availability : list CampsiteAvailability)
  (st : AlertProcessor) :
  availability = [] \/ get_active_alert_rules db = Ok [] ->
  let out := process_new_availability today now alert_cooldown_hours
               smtp_delivers db availability st in
  snd out = st
  /\ notifications_sent (fst out) = 0%nat
  /\ rules_processed (fst out) = 0%nat
  /\ errors (fst out) = [].
Proof.
  intros [H | H]; unfold process_new_availability.
  - subst. repeat split.
  - destruct availability; [repeat split |]. rewrite H. repeat split.
Qed.

Lemma process_new_availability_statistics_witness :
  rules_processed
    (fst (process_new_availability 739924 0 24 (fun _ => true)
            AccumulatorProofs.one_rule_db [AccumulatorProofs.saturday_site]
            init)) = 1%nat.
Proof.
  apply (process_new_availability_statistics 739924 0 24 (fun _ => true)
           AccumulatorProofs.one_rule_db [AccumulatorProofs.saturday_site]
           [SendProofs.weekend_rule] init).
  - discriminate.
  - reflexivity.
Defined.

Lemma find_matching_availability_filter_witness :
  find_matching_availability 739000 24 CalendarProofs.empty_db
    SendProofs.weekend_rule [SendProofs.carlsbad_site 1]
  = Ok [SendProofs.carlsbad_site 1].
Proof.
  apply (find_matching_availability_filter 739000 24 CalendarProofs.empty_db
           SendProofs.weekend_rule [SendProofs.carlsbad_site 1]
           (fun _ => false) (fun _ => true)).
  - intros s _ _. reflexivity.
  - intros s [<- | []] _ _. vm_compute. reflexivity.
Defined.

End ProcessorProofs.

(* ------------------------------------------------------------------ *)
(** ** The daily summary *)
(* ------------------------------------------------------------------ *)

Module SummaryProofs.
Import Alerts Summary.

(** [min(prices)] is an element of the list and below every element. *)
Lemma fold_min_spec (rest : list Q) :
  forall p : Q,
    let m := fold_left (fun m x => if Qle_bool m x then m else x) rest p in
    In m (p :: rest) /\ (m <= p)%Q /\ Forall (fun x => (m <= x)%Q) rest.
Proof.
  induction rest as [|x rest IH]; intros p; cbn [fold_left]; cbn zeta.
  - split; [left; reflexivity |]. split; [apply Qle_refl | constructor].
  - destruct (Qle_bool p x) eqn:E.
    + destruct (IH p) as (Hin & Hle & Hall).
      split; [destruct Hin as [<- | Hin]; [left; reflexivity | right; right; exact Hin] |].
      split; [exact Hle |].
      constructor; [| exact Hall].
      apply Qle_bool_iff in E. eapply Qle_trans; eassumption.
    + destruct (IH x) as (Hin & Hle & Hall).
      split; [right; exact Hin |].
      assert (Hxp : (x <= p)%Q).
      { apply Qlt_le_weak, Qnot_le_lt. intros H.
        apply Qle_bool_iff in H. congruence. }
      split; [eapply Qle_trans; eassumption |].
      constructor; assumption.
Qed.

Lemma min_prices_spec (prices : list Q) :
  match Calendar.min_prices prices with
  | None => prices = []
  | Some m => In m prices /\ Forall (fun x => (m <= x)%Q) prices
  end.
Proof.
  destruct prices as [|p rest]; cbn [Calendar.min_prices]; [reflexivity |].
  destruct (fold_min_spec rest p) as (Hin & Hle & Hall).
  split; [exact Hin | constructor; assumption].
Qed.

Lemma truthy_prices_In (sites : list CampsiteAvailability) (p : Q) :
  In p (truthy_prices sites)
  <-> exists site, In site sites /\ price site = Some p
                   /\ truthy_float (price site) = true.
Proof.
  unfold truthy_prices. rewrite in_flat_map. split.
  - intros (site & Hin & Hp). exists site. split; [exact Hin |].
    destruct (truthy_float (price site)) eqn:E; [| destruct Hp].
    destruct (price site) as [q|]; [| destruct Hp].
    destruct Hp as [<- | []]. split; reflexivity.
  - intros (site & Hin & Hp & Ht). exists site. split; [exact Hin |].
    rewrite Ht, Hp. left. reflexivity.
Qed.

(** The configuration of each park. *)
Definition info_of (park_ : ParkEnum) : Parks.ParkInfo :=
  match park_ with
  | JOSHUA_TREE => Parks.joshua_tree_info
  | CARLSBAD => Parks.carlsbad_info
  | OCEANSIDE => Parks.oceanside_info
  end.

(** What one entry of the summary says about the records of its park. *)
Definition entry_of (park_ : ParkEnum) (records : list CampsiteAvailability)
  (entry : ParkSummary) : Prop :=
  Parks.get_park_info park_ = Ok (info_of park_)
  /\ ps_name entry = Parks.display_name (info_of park_)
  /\ ps_available_count entry = List.length records
  /\ ps_weekend_count entry
     = List.length
         (filter (fun site => is_weekend_date (check_in_date site)) records)
  /\ match ps_lowest_price entry with
     | None =>
         forall site, In site records -> truthy_float (price site) = false
     | Some lowest =>
         (exists site, In site records /\ price site = Some lowest
                       /\ truthy_float (price site) = true)
         /\ forall site p, In site records -> price site = Some p ->
              truthy_float (price site) = true -> (lowest <= p)%Q
     end.

Lemma park_summary_entry (today : date) (db : DbClient) (park_ : ParkEnum)
  (target : date) (records : list CampsiteAvailability) :
  get_availability_by_park db (Member park_) (Some target) (Some target)
    (Some [Member AVAILABLE]) = Ok records ->
  exists entry,
    park_summary db park_ target = Ok entry /\ entry_of park_ records entry.
Proof.
  intros H. unfold park_summary. rewrite H. cbn [bind].
  exists {| ps_name := Parks.display_name (info_of park_);
            ps_available_count := List.length records;
            ps_weekend_count :=
              List.length
                (filter (fun site => is_weekend_date (check_in_date site))
                        records);
            ps_lowest_price := Calendar.min_prices (truthy_prices records) |}.
  split; [destruct park_; reflexivity |].
  unfold entry_of.
  cbn [ps_name ps_available_count ps_weekend_count ps_lowest_price].
  split; [destruct park_; reflexivity |].
  split; [reflexivity |]. split; [reflexivity |]. split; [reflexivity |].
  pose proof (min_prices_spec (truthy_prices records)) as Hmin.
  destruct (Calendar.min_prices (truthy_prices records)) as [m|].
  - destruct Hmin as [Hin Hall]. split.
    + apply truthy_prices_In. exact Hin.
    + intros site p Hs Hp Ht. rewrite Forall_forall in Hall.
      apply Hall. apply truthy_prices_In. exists site. tauto.
  - intros site Hs.
    destruct (truthy_float (price site)) eqn:Et; [| reflexivity].
    exfalso. destruct (price site) as [p|] eqn:Ep; [| discriminate].
    assert (Hin : In p (truthy_prices records)).
    { apply truthy_prices_In. exists site. rewrite Ep. tauto. }
    rewrite Hmin in Hin. destruct Hin.
Qed.

(** When the three queries of [generate_daily_summary] return, the summary
    has one entry per park, in the order of the enumeration, with the name
    of the park, the number of its records, the number of those on Friday
    to Sunday and the lowest non-zero price (none when no record has one);
    the totals are the sums over the parks and [notifications_sent] is 0. *)
Theorem generate_daily_summary_entries (today : date) (db : DbClient)
  (target : date) (records : ParkEnum -> list CampsiteAvailability) :
  (forall park_,
     get_availability_by_park db (Member park_) (Some target) (Some target)
       (Some [Member AVAILABLE]) = Ok (records park_)) ->
  exists joshua carlsbad oceanside,
    generate_daily_summary today db (Some target)
    = Ok {| ds_total_available :=
              (List.length (records JOSHUA_TREE)
               + List.length (records CARLSBAD)
               + List.length (records OCEANSIDE))%nat;
            ds_weekend_available :=
              (ps_weekend_count joshua + ps_weekend_count carlsbad
               + ps_weekend_count oceanside)%nat;
            ds_notifications_sent := 0;
            ds_parks := [joshua; carlsbad; oceanside];
            ds_error := None |}
    /\ entry_of JOSHUA_TREE (records JOSHUA_TREE) joshua
    /\ entry_of CARLSBAD (records CARLSBAD) carlsbad
    /\ entry_of OCEANSIDE (records OCEANSIDE) oceanside.
Proof.
  intros H.
  destruct (park_summary_entry today db JOSHUA_TREE target _ (H JOSHUA_TREE))
    as (j & Hj & Ej).
  destruct (park_summary_entry today db CARLSBAD target _ (H CARLSBAD))
    as (c & Hc & Ec).
  destruct (park_summary_entry today db OCEANSIDE target _ (H OCEANSIDE))
    as (o & Ho & Eo).
  exists j, c, o. split; [| tauto].
  unfold generate_daily_summary, all_parks. cbn [bind parks_loop].
  rewrite Hj. cbn [bind]. rewrite Hc. cbn [bind]. rewrite Ho.
  cbn [bind try_except empty_summary ds_total_available ds_weekend_available
       ds_notifications_sent ds_parks ds_error app Nat.add].
  destruct Ej as (_ & _ & -> & _), Ec as (_ & _ & -> & _),
           Eo as (_ & _ & -> & _).
  reflexivity.
Qed.

Lemma generate_daily_summary_entries_witness :
  exists s, generate_daily_summary 739000 CalendarProofs.empty_db (Some 739001)
            = Ok s
            /\ ds_total_available s = 0%nat.
Proof.
  destruct (generate_daily_summary_entries 739000 CalendarProofs.empty_db
              739001 (fun _ => []) (fun _ => eq_refl))
    as (j & c & o & H & _).
  eexists. split; [exact H | reflexivity].
Defined.

(** [generate_daily_summary] with a date never raises, whatever the store
    does: it reports 0 sent notifications and its weekend total is at most
    its total.  If a query of the store raised, the summary has no park,
    zero totals and the [error] key, which holds the text of the exception
    of a query that raised; if every query returned, it has no [error] key
    and an entry for each of the three parks.  The [error] key appears in
    no other case. *)
Theorem generate_daily_summary_never_raises (today : date) (db : DbClient)
  (target : date) :
  let query park_ :=
    get_availability_by_park db (Member park_) (Some target) (Some target)
      (Some [Member AVAILABLE]) in
  exists s,
    generate_daily_summary today db (Some target) = Ok s
    /\ ds_notifications_sent s = 0%nat
    /\ (ds_weekend_available s <= ds_total_available s)%nat
    /\ ((exists park_ e, query park_ = Raise e) ->
        (exists park_ e,
           query park_ = Raise e /\ ds_error s = Some (exn_str e))
        /\ ds_parks s = []
        /\ ds_total_available s = 0%nat
        /\ ds_weekend_available s = 0%nat)
    /\ ((forall park_, exists records, query park_ = Ok records) ->
        ds_error s = None
        /\ map ps_name (ds_parks s)
           = map (fun park_ => Parks.display_name (info_of park_)) all_parks)
    /\ (ds_error s <> None -> exists park_ e, query park_ = Raise e).
Proof.
  cbn zeta.
  unfold generate_daily_summary, all_parks. cbn [bind parks_loop].
  unfold park_summary.
  destruct (get_availability_by_park db (Member JOSHUA_TREE) (Some target)
              (Some target) (Some [Member AVAILABLE])) as [rj | ej] eqn:Hj.
  2: { eexists. split; [reflexivity |]. cbn.
       split; [reflexivity |]. split; [lia |]. split; [| split].
       - intros _. split; [| repeat split].
         exists JOSHUA_TREE, ej. split; [exact Hj | reflexivity].
       - intros Hall. destruct (Hall JOSHUA_TREE) as [l Hl]. congruence.
       - intros _. exists JOSHUA_TREE, ej. exact Hj. }
  cbn [bind]. cbn [Parks.get_park_info Parks.lookup Parks.PARK_CONFIGS
                   park_eqb bind].
  destruct (get_availability_by_park db (Member CARLSBAD) (Some target)
              (Some target) (Some [Member AVAILABLE])) as [rc | ec] eqn:Hc.
  2: { eexists. split; [reflexivity |]. cbn.
       split; [reflexivity |]. split; [lia |]. split; [| split].
       - intros _. split; [| repeat split].
         exists CARLSBAD, ec. split; [exact Hc | reflexivity].
       - intros Hall. destruct (Hall CARLSBAD) as [l Hl]. congruence.
       - intros _. exists CARLSBAD, ec. exact Hc. }
  cbn [bind]. cbn [Parks.get_park_info Parks.lookup Parks.PARK_CONFIGS
                   park_eqb bind].
  destruct (get_availability_by_park db (Member OCEANSIDE) (Some target)
              (Some target) (Some [Member AVAILABLE])) as [ro | eo] eqn:Ho.
  2: { eexists. split; [reflexivity |]. cbn.
       split; [reflexivity |]. split; [lia |]. split; [| split].
       - intros _. split; [| repeat split].
         exists OCEANSIDE, eo. split; [exact Ho | reflexivity].
       - intros Hall. destruct (Hall OCEANSIDE) as [l Hl]. congruence.
       - intros _. exists OCEANSIDE, eo. exact Ho. }
  cbn [bind]. cbn [Parks.get_park_info Parks.lookup Parks.PARK_CONFIGS
                   park_eqb bind try_except].
  eexists. split; [reflexivity |].
  cbn [ds_notifications_sent ds_weekend_available ds_total_available
       ds_error ds_parks empty_summary ps_weekend_count ps_available_count
       app map ps_name].
  split; [reflexivity |]. split; [| split; [| split]].
  - pose proof (filter_length_le
                  (fun site => is_weekend_date (check_in_date site)) rj).
    pose proof (filter_length_le
                  (fun site => is_weekend_date (check_in_date site)) rc).
    pose proof (filter_length_le
                  (fun site => is_weekend_date (check_in_date site)) ro).
    lia.
  - intros (park_ & e & Hraise). exfalso.
    destruct park_; congruence.
  - intros _. split; reflexivity.
  - intros H. exfalso. apply H. reflexivity.
Qed.

(** A store whose query for Oceanside raises. *)
Lemma generate_daily_summary_never_raises_witness :
  exists s,
    generate_daily_summary 739000 CalendarProofs.february_db (Some 739001)
    = Ok s
    /\ ds_parks s = [] /\ ds_total_available s = 0%nat
    /\ exists msg, ds_error s = Some msg.
Proof.
  destruct (generate_daily_summary_never_raises 739000
              CalendarProofs.february_db 739001)
    as (s & Hs & _ & _ & Hraised & _).
  destruct Hraised as ((park_ & e & _ & Herr) & Hparks & Htotal & _).
  - exists OCEANSIDE. eexists. reflexivity.
  - exists s. split; [exact Hs |]. split; [exact Hparks |].
    split; [exact Htotal |]. eexists. exact Herr.
Defined.

End SummaryProofs.

Module TokenBucketProofs.
Import Limiter TokenBucket.

Local Open Scope Q_scope.

Lemma Qle_bool_false (a b : Q) : Qle_bool a b = false -> b < a.
Proof.
  intros H. apply Qnot_le_lt. intros Hle. apply Qle_bool_iff in Hle.
  congruence.
Qed.

Lemma py_min_cases (a b : Q) :
  (a <= b /\ py_min a b = a) \/ (b < a /\ py_min a b = b).
Proof.
  unfold py_min. destruct (Qle_bool a b) eqn:E.
  - left. split; [apply Qle_bool_iff; exact E | reflexivity].
  - right. split; [apply Qle_bool_false; exact E | reflexivity].
Qed.

Section Clock.

Variable reading_after_sleep : Q -> Q -> Q.
Hypothesis sleep_lasts :
  forall now wait, 0 <= wait -> now + wait <= reading_after_sleep now wait.

(** The fields [_wait_for_tokens] and [acquire] leave alone. *)
Definition same_settings (rl rl' : RateLimiter) : Prop :=
  requests_per_minute rl' = requests_per_minute rl
  /\ burst_size rl' = burst_size rl
  /\ backoff_multiplier rl' = backoff_multiplier rl
  /\ max_backoff_seconds rl' = max_backoff_seconds rl
  /\ token_rate rl' = token_rate rl
  /\ consecutive_errors rl' = consecutive_errors rl
  /\ last_error_time rl' = last_error_time rl.

Lemma wait_for_tokens_rounds (tokens_ : Z) :
  forall (k : nat) (now : Q) (rl : RateLimiter),
    0 < token_rate rl ->
    (tokens_ <= burst_size rl)%Z ->
    last_update rl <= now ->
    inject_Z tokens_ - tokens (_update_tokens now rl)
      <= inject_Z (Z.of_nat k) * token_rate rl ->
    exists rl',
      _wait_for_tokens_fuel reading_after_sleep (S k) tokens_ now rl
      = Some (rl', Acquired)
      /\ inject_Z tokens_ <= tokens rl'
      /\ tokens rl' <= inject_Z (burst_size rl)
      /\ now <= last_update rl'
      /\ same_settings rl rl'.
Proof.
  induction k as [|k IH]; intros now rl Hrate Hburst Hnow Hdef.
  - cbn [_wait_for_tokens_fuel].
    assert (Hle : inject_Z tokens_ <= tokens (_update_tokens now rl)).
    { change (inject_Z (Z.of_nat 0)) with 0 in Hdef. lra. }
    apply Qle_bool_iff in Hle. rewrite Hle.
    eexists. split; [reflexivity |]. apply Qle_bool_iff in Hle.
    split; [exact Hle |]. split.
    + cbn [_update_tokens tokens].
      destruct (py_min_cases (inject_Z (burst_size rl))
                  (tokens rl + (now - last_update rl) * token_rate rl))
        as [[H1 ->] | [H1 ->]]; lra.
    + split; [cbn; lra |]. repeat split.
  - cbn [_wait_for_tokens_fuel].
    set (rl1 := _update_tokens now rl) in *.
    assert (Hcap : tokens rl1 <= inject_Z (burst_size rl)).
    { unfold rl1. cbn [_update_tokens tokens].
      destruct (py_min_cases (inject_Z (burst_size rl))
                  (tokens rl + (now - last_update rl) * token_rate rl))
        as [[H1 ->] | [H1 ->]]; lra. }
    destruct (Qle_bool (inject_Z tokens_) (tokens rl1)) eqn:E.
    + eexists. split; [reflexivity |]. apply Qle_bool_iff in E.
      split; [exact E |]. split; [exact Hcap |].
      split; [unfold rl1; cbn; lra |]. repeat split.
    + apply Qle_bool_false in E.
      assert (Hr1 : token_rate rl1 = token_rate rl) by reflexivity.
      assert (Hb1 : burst_size rl1 = burst_size rl) by reflexivity.
      assert (Hu1 : last_update rl1 = now) by reflexivity.
      destruct (Qeq_bool (token_rate rl1) 0) eqn:Ez.
      { apply Qeq_bool_iff in Ez. rewrite Hr1 in Ez. lra. }
      set (d := inject_Z tokens_ - tokens rl1) in *.
      set (wait := py_min (d / token_rate rl1) 1).
      assert (Hd : 0 < d) by (unfold d; lra).
      assert (Hq : d / token_rate rl1 * token_rate rl == d).
      { rewrite Hr1. field. lra. }
      assert (Hq0 : 0 < d / token_rate rl1).
      { rewrite Hr1. apply Qlt_shift_div_l; lra. }
      assert (Hwait : 0 < wait
                      /\ (wait * token_rate rl == d
                          \/ (wait == 1 /\ token_rate rl < d))).
      { unfold wait.
        destruct (py_min_cases (d / token_rate rl1) 1) as [[H1 ->] | [H1 ->]].
        - split; [exact Hq0 |]. left. exact Hq.
        - split; [lra |]. right. split; [reflexivity |].
          rewrite <- Hq. nra. }
      destruct Hwait as [Hw0 Hw].
      pose proof (sleep_lasts now wait (Qlt_le_weak _ _ Hw0)) as Hs.
      set (now2 := reading_after_sleep now wait) in *.
      assert (Hgain : wait * token_rate rl
                      <= (now2 - last_update rl1) * token_rate rl1).
      { rewrite Hu1, Hr1. nra. }
      assert (Hk : inject_Z (Z.of_nat (S k)) == inject_Z (Z.of_nat k) + 1).
      { rewrite Nat2Z.inj_succ. unfold Z.succ. rewrite inject_Z_plus.
        reflexivity. }
      rewrite Hk in Hdef.
      destruct (IH now2 rl1) as (rl' & Hrun & H1 & H2 & H3 & H4).
      * rewrite Hr1. exact Hrate.
      * rewrite Hb1. exact Hburst.
      * rewrite Hu1. lra.
      * cbn [_update_tokens tokens]. rewrite Hr1 in *. rewrite Hb1.
        assert (Hk0 : 0 <= inject_Z (Z.of_nat k) * token_rate rl).
        { apply Qmult_le_0_compat; [| lra].
          change 0 with (inject_Z 0). rewrite <- Zle_Qle. lia. }
        assert (Hnb : inject_Z tokens_ <= inject_Z (burst_size rl))
          by (rewrite <- Zle_Qle; exact Hburst).
        destruct (py_min_cases (inject_Z (burst_size rl))
                    (tokens rl1 + (now2 - last_update rl1) * token_rate rl))
          as [[H1 ->] | [H1 ->]]; [lra |].
        destruct Hw as [Hw | [Hw1 Hw2]]; unfold d in *; nra.
      * exists rl'. split; [exact Hrun |].
        split; [exact H1 |]. split; [rewrite <- Hb1; exact H2 |].
        split; [lra |].
        destruct H4 as (A & B & C & D & F & G & I).
        repeat split; (etransitivity; [eassumption | reflexivity]).
Qed.

(** Under a clock on which a sleep lasts at least as long as asked,
    [acquire] on a limiter with a positive rate, for at most [burst_size]
    tokens, returns after finitely many rounds of waiting; the tokens left
    are between 0 and [burst_size - tokens], and nothing but the token
    count and [last_update] has changed.  (Exact arithmetic.) *)
Theorem acquire_returns (tokens_ : Z) (now : Q) (rl : RateLimiter) :
  0 < token_rate rl ->
  (tokens_ <= burst_size rl)%Z ->
  last_update rl <= now ->
  exists fuel rl',
    acquire_fuel reading_after_sleep fuel tokens_ now rl
    = Some (rl', Acquired)
    /\ 0 <= tokens rl'
    /\ tokens rl' <= inject_Z (burst_size rl) - inject_Z tokens_
    /\ now <= last_update rl'
    /\ same_settings rl rl'.
Proof.
  intros Hrate Hburst Hnow.
  set (d := inject_Z tokens_ - tokens (_update_tokens now rl)).
  destruct (Qarchimedean (d / token_rate rl)) as [p Hp].
  assert (Hd : d <= inject_Z (Z.of_nat (Pos.to_nat p)) * token_rate rl).
  { rewrite positive_nat_Z.
    assert (Hq : d / token_rate rl * token_rate rl == d) by (field; lra).
    assert (H : inject_Z (Z.pos p) == Z.pos p # 1) by reflexivity.
    rewrite H. nra. }
  destruct (wait_for_tokens_rounds tokens_ (Pos.to_nat p) now rl
              Hrate Hburst Hnow Hd) as (rl' & Hrun & H1 & H2 & H3 & H4).
  exists (S (Pos.to_nat p)), (set_tokens rl' (tokens rl' - inject_Z tokens_)).
  unfold acquire_fuel.
  replace (burst_size rl <? tokens_)%Z with false
    by (symmetry; apply Z.ltb_ge; exact Hburst).
  rewrite Hrun. split; [reflexivity |].
  cbn [set_tokens tokens last_update].
  split; [lra |]. split; [lra |]. split; [exact H3 |].
  exact H4.
Qed.

(** [acquire] for more tokens than [burst_size] raises [ValueError] and
    changes nothing, whatever the clock; with a rate of zero it raises
    [ZeroDivisionError] as soon as the bucket holds fewer tokens than
    asked, after refreshing the bucket. *)
Theorem acquire_raises (fuel : nat) (tokens_ : Z) (now : Q)
  (rl : RateLimiter) :
  ((burst_size rl < tokens_)%Z ->
   exists msg,
     acquire_fuel reading_after_sleep fuel tokens_ now rl
     = Some (rl, RaisedValueError msg))
  /\ ((tokens_ <= burst_size rl)%Z ->
      token_rate rl == 0 ->
      tokens rl < inject_Z tokens_ ->
      acquire_fuel reading_after_sleep (S fuel) tokens_ now rl
      = Some (_update_tokens now rl,
              RaisedZeroDivisionError "float division by zero")).
Proof.
  split.
  - intros H. unfold acquire_fuel.
    replace (burst_size rl <? tokens_)%Z with true
      by (symmetry; apply Z.ltb_lt; exact H).
    eexists. reflexivity.
  - intros Hburst Hrate Htok. unfold acquire_fuel.
    replace (burst_size rl <? tokens_)%Z with false
      by (symmetry; apply Z.ltb_ge; exact Hburst).
    cbn [_wait_for_tokens_fuel].
    assert (Hb : inject_Z tokens_ <= inject_Z (burst_size rl))
      by (rewrite <- Zle_Qle; exact Hburst).
    assert (Hlt : tokens (_update_tokens now rl) < inject_Z tokens_).
    { cbn [_update_tokens tokens].
      destruct (py_min_cases (inject_Z (burst_size rl))
                  (tokens rl + (now - last_update rl) * token_rate rl))
        as [[H1 ->] | [H1 ->]]; [| rewrite Hrate; lra].
      rewrite Hrate in H1. lra. }
    replace (Qle_bool (inject_Z tokens_) (tokens (_update_tokens now rl)))
      with false.
    + replace (Qeq_bool (token_rate (_update_tokens now rl)) 0) with true
        by (symmetry; apply Qeq_bool_iff; exact Hrate).
      reflexivity.
    + symmetry. destruct (Qle_bool _ _) eqn:E; [| reflexivity].
      apply Qle_bool_iff in E. lra.
Qed.


End Clock.

Lemma acquire_returns_witness :
  exists fuel rl',
    acquire_fuel (fun now wait => now + wait) fuel 2 0 (default 0)
    = Some (rl', Acquired)
    /\ 0 <= tokens rl'.
Proof.
  destruct (acquire_returns (fun now wait => now + wait)
              (fun now wait _ => Qle_refl (now + wait)) 2 0 (default 0))
    as (fuel & rl' & H & H0 & _).
  - reflexivity.
  - vm_compute. discriminate.
  - vm_compute. discriminate.
  - exists fuel, rl'. split; assumption.
Defined.

Lemma acquire_raises_witness :
  exists msg,
    acquire_fuel (fun now wait => now + wait) 1 3 0 (default 0)
    = Some (default 0, RaisedValueError msg).
Proof.
  apply (proj1 (acquire_raises (fun now wait => now + wait) 1 3 0
                  (default 0))).
  reflexivity.
Defined.

End TokenBucketProofs.

Module HostLimiterProofs.
Import Limiter HostLimiter.

Local Open Scope Q_scope.

Lemma get_put_same (host : string) (rl : RateLimiter)
  (table : list (string * RateLimiter)) :
  get host (put host rl table) = Some rl.
Proof.
  induction table as [|[h old] rest IH]; cbn [put get].
  - rewrite String.eqb_refl. reflexivity.
  - destruct (String.eqb h host) eqn:E; cbn [get]; rewrite E;
      [reflexivity | exact IH].
Qed.

Lemma get_put_other (host other : string) (rl : RateLimiter)
  (table : list (string * RateLimiter)) :
  other <> host ->
  get other (put host rl table) = get other table.
Proof.
  intros Hne. induction table as [|[h old] rest IH]; cbn [put get].
  - replace (String.eqb host other) with false; [reflexivity |].
    symmetry. apply String.eqb_neq. congruence.
  - destruct (String.eqb h host) eqn:E; cbn [get].
    + apply String.eqb_eq in E. subst h.
      replace (String.eqb host other) with false; [reflexivity |].
      symmetry. apply String.eqb_neq. congruence.
    + rewrite IH. reflexivity.
Qed.

Section Clock.

Variable reading_after_sleep : Q -> Q -> Q.

(** The methods of [HostRateLimiter] called for one host leave the
    limiter of every other host as it was, and [handle_error] and
    [handle_success] for a host without a limiter change nothing and do
    not sleep. *)
Theorem host_methods_touch_one_host (host other : string)
  (hl : HostRateLimiter) :
  (other <> host ->
   (forall fuel tokens_ rpm created now hl' out,
      acquire_fuel reading_after_sleep fuel host tokens_ rpm created now hl
      = Some (hl', out) ->
      get other (limiters hl') = get other (limiters hl))
   /\ (forall now,
         get other (limiters (fst (handle_error host now hl)))
         = get other (limiters hl))
   /\ get other (limiters (handle_success host hl))
      = get other (limiters hl))
  /\ (get host (limiters hl) = None ->
      (forall now, handle_error host now hl = (hl, None))
      /\ handle_success host hl = hl).
Proof.
  split.
  - intros Hne. split; [| split].
    + intros fuel tokens_ rpm created now hl' out H.
      unfold acquire_fuel in H.
      destruct (TokenBucket.acquire_fuel _ _ _ _ _) as [[rl o]|];
        [| discriminate].
      inversion H; subst. cbn [with_limiters limiters].
      apply get_put_other. exact Hne.
    + intros now. unfold handle_error.
      destruct (get host (limiters hl)) as [rl|]; [| reflexivity].
      cbn. apply get_put_other. exact Hne.
    + unfold handle_success.
      destruct (get host (limiters hl)) as [rl|]; [| reflexivity].
      cbn. apply get_put_other. exact Hne.
  - intros H. unfold handle_error, handle_success. rewrite H.
    split; reflexivity.
Qed.

(** The first [acquire] for a host creates its limiter with the rate given
    (the default when none or 0 is given), burst size equal to the rate;
    for at most that many tokens it returns without waiting and leaves
    the rest of the burst.  A later [acquire] for the host ignores the
    rate it is given. *)
Theorem host_acquire_creates_once (host : string) (tokens_ : Z)
  (rpm : option Z) (created now : Q) (hl : HostRateLimiter) :
  (get host (limiters hl) = None ->
   let rate :=
     match rpm with
     | Some r => if (r =? 0)%Z then default_requests_per_minute hl else r
     | None => default_requests_per_minute hl
     end in
   (0 <= tokens_ <= rate)%Z -> created <= now ->
   exists hl' rl,
     acquire_fuel reading_after_sleep 1 host tokens_ rpm created now hl
     = Some (hl', TokenBucket.Acquired)
     /\ get host (limiters hl') = Some rl
     /\ requests_per_minute rl = rate
     /\ burst_size rl = rate
     /\ tokens rl = inject_Z rate - inject_Z tokens_)
  /\ (forall rl, get host (limiters hl) = Some rl ->
      forall fuel rpm',
        acquire_fuel reading_after_sleep fuel host tokens_ rpm created now hl
        = acquire_fuel reading_after_sleep fuel host tokens_ rpm' created
            now hl).
Proof.
  split.
  - intros Hnone rate [H0 Hle] Hnow.
    unfold acquire_fuel. rewrite Hnone. fold rate.
    unfold TokenBucket.acquire_fuel.
    cbn [Limiter.init burst_size].
    replace (rate <? tokens_)%Z with false
      by (symmetry; apply Z.ltb_ge; exact Hle).
    cbn [TokenBucket._wait_for_tokens_fuel _update_tokens Limiter.init
         tokens burst_size last_update token_rate].
    assert (Hr : 0 <= inject_Z rate / 60).
    { assert (0 <= inject_Z rate)
        by (change 0 with (inject_Z 0); rewrite <- Zle_Qle; lia).
      apply Qle_shift_div_l; lra. }
    assert (Hmin : py_min (inject_Z rate)
                     (inject_Z rate + (now - created) * (inject_Z rate / 60))
                   = inject_Z rate).
    { unfold py_min.
      replace (Qle_bool _ _) with true; [reflexivity |].
      symmetry. apply Qle_bool_iff. nra. }
    rewrite Hmin.
    replace (Qle_bool (inject_Z tokens_) (inject_Z rate)) with true
      by (symmetry; apply Qle_bool_iff; rewrite <- Zle_Qle; exact Hle).
    eexists. eexists. split; [reflexivity |].
    cbn [with_limiters limiters]. rewrite get_put_same.
    split; [reflexivity |]. split; [reflexivity |]. split; [reflexivity |].
    cbn [TokenBucket.set_tokens tokens _update_tokens Limiter.init
         burst_size last_update token_rate].
    rewrite Hmin. reflexivity.
  - intros rl H fuel rpm'. unfold acquire_fuel. rewrite H. reflexivity.
Qed.

End Clock.

Lemma host_methods_touch_one_host_witness :
  handle_success "a.example" (init 2) = init 2.
Proof.
  apply (proj2 (host_methods_touch_one_host (fun now wait => now + wait)
                  "a.example" "b.example" (init 2))).
  reflexivity.
Defined.

Lemma host_acquire_creates_once_witness :
  exists hl' rl,
    acquire_fuel (fun now wait => now + wait) 1 "a.example" 1 (Some 0%Z)
      0 0 (init 2)
    = Some (hl', TokenBucket.Acquired)
    /\ get "a.example" (limiters hl') = Some rl
    /\ tokens rl = inject_Z 2 - inject_Z 1.
Proof.
  destruct (proj1 (host_acquire_creates_once (fun now wait => now + wait)
                     "a.example" 1 (Some 0%Z) 0 0 (init 2)) eq_refl)
    as (hl' & rl & H & Hg & _ & _ & Ht).
  - split; discriminate.
  - discriminate.
  - exists hl', rl. repeat split; assumption.
Defined.

End HostLimiterProofs.

(* ------------------------------------------------------------------ *)
(** ** The alert processor over the Supabase client *)
(* ------------------------------------------------------------------ *)

Module PipelineProofs.
Import Store Client Alerts.

Section Backend.

Variable Row : Type.
Variable decode_row : Row -> result CampsiteAvailability.
Variable decode_rule : Row -> result AlertRule.
Variable row_count : Row -> option Z.
Variable insert_rows_ : InsertParams -> result (Response Row).
Variable insert_row : RowInsert -> result (Response Row).
Variable execute : string -> result (Response Row).
Variable uuid4 : string.
Variable utcnow_iso : string.
Variable datetime_isoformat : Z -> string.
Variable cutoff_iso : Z -> result string.

Local Abbreviation client :=
  (supabase_client Row decode_row decode_rule row_count insert_rows_
     insert_row execute uuid4 utcnow_iso datetime_isoformat cutoff_iso).

Lemma plain_park_never_notified (p : ParkEnum) (site_id_ : string)
  (d : date) (hours : Z) :
  Db.check_notification_sent client (Plain p) site_id_ d hours = Ok false.
Proof.
  cbn [supabase_client Db.check_notification_sent].
  unfold check_notification_sent.
  destruct (cutoff_iso hours); reflexivity.
Qed.

(** Records hold plain park values, so the history check of the Supabase
    client answers false for each of them whatever the backend holds: the
    alert processor keeps every available record that matches the rule,
    also one a notification was sent for before. *)
Theorem history_check_never_suppresses (today : date)
  (alert_cooldown_hours : Z) (rule : AlertRule)
  (availability : list CampsiteAvailability)
  (matched : CampsiteAvailability -> bool) :
  Forall (fun s => exists p, park s = Plain p) availability ->
  (forall s, In s availability -> fval (status s) = AVAILABLE ->
     _matches_alert_rule today rule s availability = Ok (matched s)) ->
  find_matching_availability today alert_cooldown_hours client rule
    availability
  = Ok (filter (fun s => status_eqb (fval (status s)) AVAILABLE && matched s)
               availability).
Proof.
  intros Hplain Hmatch. unfold find_matching_availability.
  rewrite (ProcessorProofs.matching_loop_filter today alert_cooldown_hours
             client rule availability (fun _ => false) matched).
  - cbn [app]. f_equal. apply filter_ext. intro s.
    rewrite andb_true_r. reflexivity.
  - intros s Hs _. rewrite Forall_forall in Hplain.
    destruct (Hplain s Hs) as [p ->]. apply plain_park_never_notified.
  - intros s Hs Ha _. apply Hmatch; assumption.
Qed.

End Backend.

Section Build.

Variable Row : Type.
Variable decode_row : Row -> result CampsiteAvailability.
Variable decode_rule : Row -> result AlertRule.
Variable row_count : Row -> option Z.
Variable uuid4 : string.
Variable utcnow_iso : string.
Variable datetime_isoformat : Z -> string.
Variable cutoff_iso : Z -> result string.

Local Abbreviation build :=
  (simulated_client Row decode_row decode_rule row_count uuid4 utcnow_iso
     datetime_isoformat cutoff_iso).

(** With the tool calls of this build, which return no rows, the store
    gives no availability, no alert rule and no notification history; so
    [process_new_availability] processes no rule, sends nothing and leaves
    the processor as it was, whatever availability it is given. *)
Theorem simulated_store_is_empty (today : date)
  (now alert_cooldown_hours : Z) (smtp_delivers : nat -> bool)
  (availability : list CampsiteAvailability) (st : AlertProcessor) :
  (forall p start_ end_ filter_,
     Db.get_availability_by_park build p start_ end_ filter_ = Ok [])
  /\ Db.get_active_alert_rules build = Ok []
  /\ (forall p s d h, Db.check_notification_sent build p s d h = Ok false)
  /\ snd (process_new_availability today now alert_cooldown_hours
            smtp_delivers build availability st) = st
  /\ notifications_sent
       (fst (process_new_availability today now alert_cooldown_hours
               smtp_delivers build availability st)) = 0%nat
  /\ rules_processed
       (fst (process_new_availability today now alert_cooldown_hours
               smtp_delivers build availability st)) = 0%nat.
Proof.
  assert (Hrules : Db.get_active_alert_rules build = Ok []) by reflexivity.
  split; [| split; [exact Hrules | split]].
  - intros p start_ end_ filter_.
    cbn [simulated_client supabase_client Db.get_availability_by_park].
    unfold Store.get_availability_by_park, get_availability_by_park_body.
    destruct (dot_value park_value p) as [v|e]; cbn [bind try_except];
      [| reflexivity].
    destruct filter_ as [l|]; cbn [bind].
    + match goal with
      | |- context [bind ?x _] => destruct x; reflexivity
      end.
    + reflexivity.
  - intros p s d h.
    cbn [simulated_client supabase_client Db.check_notification_sent].
    unfold check_notification_sent.
    destruct (cutoff_iso h); cbn [bind]; [| reflexivity].
    destruct (dot_value park_value p); reflexivity.
  - destruct (ProcessorProofs.process_new_availability_nothing_to_do today now
                alert_cooldown_hours smtp_delivers build availability st
                (or_intror Hrules)) as (H1 & H2 & H3 & _).
    repeat split; assumption.
Qed.

End Build.

Lemma history_check_never_suppresses_witness :
  find_matching_availability 739000 24
    (supabase_client nat (fun _ => Raise (ValueError "row")) 
       (fun _ => Raise (ValueError "row")) (fun _ => Some 1)
       (simulated_insert nat)
       (fun _ => Ok {| success := true; error := None; data := [] |})
       (fun _ => Ok {| success := true; error := None; data := [0%nat] |})
       "id" "now" (fun _ => "t") (fun _ => Ok "cutoff"))
    SendProofs.weekend_rule [SendProofs.carlsbad_site 1]
  = Ok [SendProofs.carlsbad_site 1].
Proof.
  apply (history_check_never_suppresses nat
           (fun _ => Raise (ValueError "row"))
           (fun _ => Raise (ValueError "row")) (fun _ => Some 1)
           (simulated_insert nat)
           (fun _ => Ok {| success := true; error := None; data := [] |})
           (fun _ => Ok {| success := true; error := None; data := [0%nat] |})
           "id" "now" (fun _ => "t") (fun _ => Ok "cutoff")
           739000 24 SendProofs.weekend_rule [SendProofs.carlsbad_site 1]
           (fun _ => true)).
  - repeat constructor. eexists. reflexivity.
  - intros s [<- | []] _. vm_compute. reflexivity.
Defined.

End PipelineProofs.

(* ------------------------------------------------------------------ *)
(** ** The query filters of the crawler and the scrape result *)
(* ------------------------------------------------------------------ *)

Module CrawlProofs.
Import ModelsRest Crawl.

Lemma park_eq_dec (a b : ParkEnum) : {a = b} + {a <> b}.
Proof. decide equality. Defined.

Lemma dict_get_set_same {V} (k : ParkEnum) (v : V) d :
  dict_get k (dict_set k v d) = Some v.
Proof.
  induction d as [|[k' v'] d IH]; cbn [dict_set dict_get].
  - rewrite (proj2 (park_eqb_eq k k) eq_refl). reflexivity.
  - destruct (park_eqb k' k) eqn:E; cbn [dict_get]; rewrite E;
      [reflexivity | exact IH].
Qed.

Lemma dict_get_set_other {V} (k k0 : ParkEnum) (v : V) d :
  k0 <> k -> dict_get k0 (dict_set k v d) = dict_get k0 d.
Proof.
  intros Hne. induction d as [|[k' v'] d IH]; cbn [dict_set dict_get].
  - destruct (park_eqb k k0) eqn:E; [| reflexivity].
    apply park_eqb_eq in E. congruence.
  - destruct (park_eqb k' k) eqn:E; cbn [dict_get].
    + apply park_eqb_eq in E. subst k'.
      destruct (park_eqb k k0) eqn:E0; [| reflexivity].
      apply park_eqb_eq in E0. congruence.
    + rewrite IH. reflexivity.
Qed.

Section Client.

Variable scrape_park_availability :
  nat -> ParkEnum -> date * date -> option (list string)
  -> result (list CampsiteAvailability).

(** What every value of the dictionary satisfies: its records passed the
    filters and were returned by a call of the scraper for that park. *)
Definition filtered (query : CampsiteSearchQuery) (park_ : ParkEnum)
  (records : list CampsiteAvailability) : Prop :=
  forall a, In a records ->
    keeps query a = true
    /\ exists n types l,
         scrape_park_availability n park_ (start_date query, end_date query)
           types = Ok l
         /\ In a l.

Lemma parks_loop_keys (query : CampsiteSearchQuery) :
  forall parks results calls,
    (forall p records, dict_get p results = Some records ->
       filtered query p records) ->
    let out := fst (parks_loop scrape_park_availability parks query results
                      calls) in
    (forall p, In p parks -> dict_get p out <> None)
    /\ (forall p, dict_get p out <> None ->
          In p parks \/ dict_get p results <> None)
    /\ (forall p records, dict_get p out = Some records ->
          filtered query p records).
Proof.
  induction parks as [|park_ rest IH]; intros results calls Hinv;
    cbn [parks_loop]; cbn zeta.
  - cbn [fst]. split; [intros p [] |]. split; [intros p H; right; exact H |].
    exact Hinv.
  - assert (Hstep : forall value calls',
              filtered query park_ value ->
              let out := fst (parks_loop scrape_park_availability rest query
                                (dict_set park_ value results) calls') in
              (forall p, In p (park_ :: rest) -> dict_get p out <> None)
              /\ (forall p, dict_get p out <> None ->
                    In p (park_ :: rest) \/ dict_get p results <> None)
              /\ (forall p records, dict_get p out = Some records ->
                    filtered query p records)).
    { intros value calls' Hval. cbn zeta.
      destruct (IH (dict_set park_ value results) calls') as (H1 & H2 & H3).
      - intros p records Hget.
        destruct (park_eq_dec p park_) as [-> | Hne].
        + rewrite dict_get_set_same in Hget. inversion Hget; subst.
          exact Hval.
        + rewrite dict_get_set_other in Hget by exact Hne.
          apply Hinv. exact Hget.
      - split; [| split].
        + intros p [<- | Hin]; [| apply H1; exact Hin].
          destruct (in_dec park_eq_dec park_ rest) as [Hin | Hnin];
            [apply H1; exact Hin |].
          intro Hnone.
          destruct (dict_get park_
                      (fst (parks_loop scrape_park_availability rest query
                              (dict_set park_ value results) calls')))
            eqn:E; [discriminate |].
          clear Hnone. revert E.
          assert (Hkeep : forall parks' results' calls'',
                    dict_get park_ results' <> None ->
                    dict_get park_
                      (fst (parks_loop scrape_park_availability parks' query
                              results' calls'')) <> None).
          { induction parks' as [|q' parks' IHp]; intros results' calls'' Hr;
              cbn [parks_loop]; [exact Hr |].
            assert (Hset : forall v, dict_get park_ (dict_set q' v results')
                                     <> None).
            { intro v. destruct (park_eq_dec park_ q') as [-> | Hne].
              - rewrite dict_get_set_same. discriminate.
              - rewrite dict_get_set_other by exact Hne. exact Hr. }
            destruct (site_types_argument query); [| apply IHp, Hset].
            destruct (scrape_park_availability _ _ _ _); apply IHp, Hset. }
          intro E. eapply Hkeep; [| exact E].
          rewrite dict_get_set_same. discriminate.
        + intros p Hp. destruct (H2 p Hp) as [Hin | Hset].
          * left. right. exact Hin.
          * destruct (park_eq_dec p park_) as [-> | Hne];
              [left; left; reflexivity |].
            rewrite dict_get_set_other in Hset by exact Hne.
            right. exact Hset.
        + exact H3. }
    assert (Hnil : filtered query park_ []) by (intros a []).
    destruct (site_types_argument query) as [types|e];
      [| apply Hstep; exact Hnil].
    destruct (scrape_park_availability (List.length calls) park_
                (start_date query, end_date query) types) as [l|e] eqn:El;
      [| apply Hstep; exact Hnil].
    apply Hstep. intros a Ha. apply filter_In in Ha. destruct Ha as [Ha Hk].
    split; [exact Hk |]. exists (List.length calls), types, l.
    split; [exact El | exact Ha].
Qed.

Lemma keeps_spec (query : CampsiteSearchQuery) (a : CampsiteAvailability) :
  keeps query a = true ->
  (q_weekend_only query = true ->
   weekday (check_in_date a) = 5 \/ weekday (check_in_date a) = 6)
  /\ (forall m p, q_max_price query = Some m -> price a = Some p ->
        ~ (m == 0)%Q -> ~ (p == 0)%Q -> (p <= m)%Q)
  /\ (forall m o, min_occupancy query = Some m -> max_occupancy a = Some o ->
        m <> 0 -> o <> 0 -> m <= o).
Proof.
  unfold keeps. intros H.
  apply andb_prop in H. destruct H as [H Hocc].
  apply andb_prop in H. destruct H as [Hprice Hweek].
  split; [| split].
  - intros Hw. rewrite Hw in Hweek. cbn [andb] in Hweek.
    apply negb_true_iff, Z.ltb_ge in Hweek.
    unfold weekday in *.
    pose proof (Z.mod_pos_bound (check_in_date a + 6) 7 ltac:(lia)). lia.
  - intros m p Hm Hp Hm0 Hp0. rewrite Hm, Hp in Hprice.
    cbn [truthy_float] in Hprice.
    replace (Qeq_bool m 0) with false in Hprice
      by (symmetry; apply not_true_iff_false; intro E;
          apply Qeq_bool_iff in E; contradiction).
    replace (Qeq_bool p 0) with false in Hprice
      by (symmetry; apply not_true_iff_false; intro E;
          apply Qeq_bool_iff in E; contradiction).
    cbn [negb andb] in Hprice. apply negb_true_iff, negb_false_iff in Hprice.
    apply Qle_bool_iff. exact Hprice.
  - intros m o Hm Ho Hm0 Ho0. rewrite Hm, Ho in Hocc.
    cbn [truthy_int] in Hocc.
    replace (m =? 0) with false in Hocc by (symmetry; apply Z.eqb_neq; lia).
    replace (o =? 0) with false in Hocc by (symmetry; apply Z.eqb_neq; lia).
    cbn [negb andb] in Hocc. apply negb_true_iff, Z.ltb_ge in Hocc. lia.
Qed.

(** The dictionary [scrape_multiple_parks] returns has exactly the parks of
    the query as keys.  Every record in it was returned by a call of the
    scraper for its park and passed the filters: with [weekend_only] its
    date is a Saturday or Sunday; when both the query's maximum price and
    the record's price are set and non-zero the price is at most the
    maximum; when both occupancies are set and non-zero the record's is at
    least the query's. *)
Theorem scrape_multiple_parks_filters (query : CampsiteSearchQuery) :
  let results := fst (scrape_multiple_parks scrape_park_availability query) in
  (forall p, dict_get p results <> None <-> In p (q_parks query))
  /\ (forall p records a,
        dict_get p results = Some records -> In a records ->
        (exists n types l,
           scrape_park_availability n p (start_date query, end_date query)
             types = Ok l
           /\ In a l)
        /\ (q_weekend_only query = true ->
            weekday (check_in_date a) = 5 \/ weekday (check_in_date a) = 6)
        /\ (forall m pr, q_max_price query = Some m -> price a = Some pr ->
              ~ (m == 0)%Q -> ~ (pr == 0)%Q -> (pr <= m)%Q)
        /\ (forall m o, min_occupancy query = Some m ->
              max_occupancy a = Some o -> m <> 0 -> o <> 0 -> m <= o)).
Proof.
  cbn zeta. unfold scrape_multiple_parks.
  destruct (parks_loop_keys query (q_parks query) [] [])
    as (H1 & H2 & H3); [intros p records H; discriminate |].
  split.
  - intro p. split; [| apply H1].
    intro Hp. destruct (H2 p Hp) as [Hin | Hnil]; [exact Hin |].
    exfalso. apply Hnil. reflexivity.
  - intros p records a Hget Ha.
    destruct (H3 p records Hget a Ha) as [Hk Hsrc].
    split; [exact Hsrc |]. apply keeps_spec. exact Hk.
Qed.

Lemma parks_loop_raising (query : CampsiteSearchQuery) (e : exn) :
  site_types_argument query = Raise e ->
  forall parks results calls,
    snd (parks_loop scrape_park_availability parks query results calls)
    = calls
    /\ forall p,
         dict_get p (fst (parks_loop scrape_park_availability parks query
                            results calls))
         = if in_dec park_eq_dec p parks then Some []
           else dict_get p results.
Proof.
  intros Hraise. induction parks as [|park_ rest IH]; intros results calls;
    cbn [parks_loop].
  - split; [reflexivity |]. intro p. reflexivity.
  - rewrite Hraise. destruct (IH (dict_set park_ [] results) calls)
      as [Hc Hd].
    split; [exact Hc |]. intro p. rewrite Hd.
    destruct (in_dec park_eq_dec p rest) as [Hin | Hnin];
      destruct (in_dec park_eq_dec p (park_ :: rest)) as [Hin' | Hnin'];
      try reflexivity.
    + exfalso. apply Hnin'. right. exact Hin.
    + destruct Hin' as [<- | Hin']; [| contradiction].
      apply dict_get_set_same.
    + apply dict_get_set_other. intro Heq. apply Hnin'. left.
      symmetry. exact Heq.
Qed.

(** A query with a non-empty [site_types] list gets an empty list for
    every park, and the scraper is not called at all: the query holds
    plain strings, and reading [.value] of the first one raises inside the
    [try] of each round. *)
Theorem scrape_multiple_parks_with_site_types (query : CampsiteSearchQuery)
  (t : SiteTypeEnum) (ts : list SiteTypeEnum) :
  q_site_types query = Some (t :: ts) ->
  snd (scrape_multiple_parks scrape_park_availability query) = []
  /\ forall p, In p (q_parks query) ->
       dict_get p (fst (scrape_multiple_parks scrape_park_availability query))
       = Some [].
Proof.
  intros Hq. unfold scrape_multiple_parks.
  assert (Hraise : site_types_argument query
                   = Raise (AttributeError
                              "'str' object has no attribute 'value'")).
  { unfold site_types_argument. rewrite Hq. reflexivity. }
  destruct (parks_loop_raising query _ Hraise (q_parks query) [] [])
    as [Hc Hd].
  split; [exact Hc |]. intros p Hp. rewrite Hd.
  destruct (in_dec park_eq_dec p (q_parks query)); [reflexivity |].
  contradiction.
Qed.

End Client.

Lemma scrape_multiple_parks_with_site_types_witness :
  snd (scrape_multiple_parks (fun _ _ _ _ => Ok [SendProofs.carlsbad_site 1])
         {| q_parks := [CARLSBAD]; start_date := 739930; end_date := 739940;
            q_site_types := Some [RV]; q_max_price := None;
            min_occupancy := None; q_weekend_only := false |})
  = [].
Proof.
  apply (scrape_multiple_parks_with_site_types
           (fun _ _ _ _ => Ok [SendProofs.carlsbad_site 1])
           {| q_parks := [CARLSBAD]; start_date := 739930;
              end_date := 739940; q_site_types := Some [RV];
              q_max_price := None; min_occupancy := None;
              q_weekend_only := false |} RV []).
  reflexivity.
Defined.

(** The methods that change a [ScrapeResult] after its construction. *)
Inductive update : Type :=
| AddError (msg : string)
| AddWarning (msg : string).

Definition apply_update (r : ScrapeResult) (u : update) : ScrapeResult :=
  match u with
  | AddError msg => add_error r msg
  | AddWarning msg => add_warning r msg
  end.

Definition error_of (u : update) : list string :=
  match u with AddError msg => [msg] | AddWarning _ => [] end.

Definition warning_of (u : update) : list string :=
  match u with AddError _ => [] | AddWarning msg => [msg] end.

Lemma apply_updates (updates : list update) :
  forall r,
    let r' := fold_left apply_update updates r in
    sites_found r' = sites_found r
    /\ available_sites r' = available_sites r
    /\ sr_errors r' = sr_errors r ++ flat_map error_of updates
    /\ sr_warnings r' = sr_warnings r ++ flat_map warning_of updates
    /\ sr_success r'
       = sr_success r && forallb (fun u => match u with
                                           | AddError _ => false
                                           | AddWarning _ => true
                                           end) updates.
Proof.
  induction updates as [|u updates IH]; intro r; cbn [fold_left]; cbn zeta.
  - cbn. rewrite !app_nil_r, andb_true_r. repeat split.
  - destruct (IH (apply_update r u)) as (H1 & H2 & H3 & H4 & H5).
    rewrite H1, H2, H3, H4, H5.
    destruct u; cbn; rewrite <- ?app_assoc; repeat split.
    rewrite andb_false_r. reflexivity.
Qed.

(** A [ScrapeResult] the constructor accepted keeps
    [0 <= available_sites <= sites_found] under any sequence of
    [add_error] and [add_warning]; the messages are appended in order, and
    [success] stays true only if it was passed as true and no error was
    added. *)
Theorem scrape_result_invariant (park_ : ParkEnum) (started : Z)
  (completed : option Z) (found available : Z) (errors_ : list string)
  (time_ : option Q) (success_ : bool) (r : ScrapeResult)
  (updates : list update) :
  new_ScrapeResult park_ started completed found available errors_ time_
    success_ = Ok r ->
  let r' := fold_left apply_update updates r in
  0 <= available_sites r' <= sites_found r'
  /\ sites_found r' = found /\ available_sites r' = available
  /\ sr_errors r' = errors_ ++ flat_map error_of updates
  /\ sr_warnings r' = flat_map warning_of updates
  /\ (sr_success r' = true ->
      success_ = true /\ flat_map error_of updates = []).
Proof.
  intros Hnew. cbn zeta.
  destruct (apply_updates updates r) as (H1 & H2 & H3 & H4 & H5).
  rewrite H1, H2, H3, H4, H5. clear H1 H2 H3 H4 H5.
  unfold new_ScrapeResult in Hnew.
  destruct (0 <=? found) eqn:Ef; [| discriminate]. cbn [bind to_option] in Hnew.
  destruct (0 <=? available) eqn:Ea; [| discriminate].
  cbn [negb] in Hnew.
  destruct (found <? available) eqn:Efa; [discriminate |].
  cbn [bind] in Hnew.
  assert (Hr : sites_found r = found /\ available_sites r = available
               /\ sr_errors r = errors_ /\ sr_warnings r = []
               /\ sr_success r = success_).
  { destruct time_ as [t|]; [destruct (Qle_bool 0 t); [| discriminate] |];
      cbn [bind] in Hnew; inversion Hnew; subst; cbn; repeat split. }
  destruct Hr as (-> & -> & -> & -> & ->).
  apply Z.leb_le in Ef, Ea. apply Z.ltb_ge in Efa.
  repeat split; try lia.
  - apply andb_prop in H. tauto.
  - apply andb_prop in H. destruct H as [_ H].
    induction updates as [|u us IHu]; [reflexivity |].
    cbn [forallb] in H. apply andb_prop in H. destruct H as [Hu Hus].
    destruct u; [discriminate |]. cbn. apply IHu. exact Hus.
Qed.

Lemma scrape_result_invariant_witness :
  exists r,
    new_ScrapeResult CARLSBAD 100 (Some 160) 5 3 [] (Some 60%Q) true = Ok r
    /\ 0 <= available_sites (fold_left apply_update [AddError "timeout"] r)
         <= sites_found (fold_left apply_update [AddError "timeout"] r).
Proof.
  eexists. split; [reflexivity |].
  apply (scrape_result_invariant CARLSBAD 100 (Some 160) 5 3 []
           (Some 60%Q) true _ [AddError "timeout"]).
  reflexivity.
Defined.

(** [get_scrape_result] returns a result exactly when the count is not
    negative and the start time is not after the current time; the result
    then reports the count both as [sites_found] and as [available_sites],
    the elapsed seconds, and the [success] flag it was given. *)
Theorem get_scrape_result_counts (utcnow : Z) (park_ : ParkEnum)
  (start_time count : Z) (errors_ : option (list string)) (success_ : bool) :
  (0 <= count /\ start_time <= utcnow ->
   exists r,
     get_scrape_result utcnow park_ start_time count errors_ success_ = Ok r
     /\ sites_found r = count /\ available_sites r = count
     /\ completed_at r = Some utcnow
     /\ processing_time_seconds r = Some (inject_Z (utcnow - start_time))
     /\ sr_success r = success_
     /\ sr_errors r = match errors_ with Some l => l | None => [] end)
  /\ (count < 0 \/ utcnow < start_time ->
      is_ok (get_scrape_result utcnow park_ start_time count errors_ success_)
      = false).
Proof.
  unfold get_scrape_result, new_ScrapeResult. split.
  - intros [Hc Ht].
    replace (0 <=? count) with true by (symmetry; apply Z.leb_le; exact Hc).
    cbn [negb to_option bind].
    replace (count <? count) with false by (symmetry; apply Z.ltb_ge; lia).
    replace (Qle_bool 0 (inject_Z (utcnow - start_time))) with true.
    + cbn [bind]. eexists. split; [reflexivity |]. cbn.
      repeat split. destruct errors_ as [[|e es]|]; reflexivity.
    + symmetry. apply Qle_bool_iff. change 0%Q with (inject_Z 0).
      rewrite <- Zle_Qle. lia.
  - intros [Hc | Ht].
    + replace (0 <=? count) with false by (symmetry; apply Z.leb_gt; exact Hc).
      reflexivity.
    + destruct (0 <=? count); cbn [negb to_option bind]; [| reflexivity].
      replace (count <? count) with false by (symmetry; apply Z.ltb_ge; lia).
      replace (Qle_bool 0 (inject_Z (utcnow - start_time))) with false;
        [reflexivity |].
      symmetry. apply not_true_iff_false. intro E.
      apply Qle_bool_iff in E. change 0%Q with (inject_Z 0) in E.
      rewrite <- Zle_Qle in E. lia.
Qed.

Lemma get_scrape_result_counts_witness :
  exists r,
    get_scrape_result 160 CARLSBAD 100 5 None true = Ok r
    /\ sites_found r = 5 /\ available_sites r = 5.
Proof.
  destruct (proj1 (get_scrape_result_counts 160 CARLSBAD 100 5 None true))
    as (r & H & Hf & Ha & _).
  - split; [discriminate | discriminate].
  - exists r. repeat split; assumption.
Defined.

End CrawlProofs.

(* ------------------------------------------------------------------ *)
(** ** The delivery counters of the email service *)
(* ------------------------------------------------------------------ *)

Module DeliveryProofs.
Import Alerts.

Section Processor.

Variable today : date.
Variable now : Z.
Variable alert_cooldown_hours : Z.
Variable smtp_delivers : nat -> bool.
Variable db : DbClient.

(** How the counters of the email service moved between two states of the
    processor: [k] more delivered emails, no fewer failures, the same
    number of retries. *)
Definition delivered (k : nat) (st st' : AlertProcessor) : Prop :=
  stat_sent (email_service st') = (stat_sent (email_service st) + k)%nat
  /\ (stat_failed (email_service st) <= stat_failed (email_service st'))%nat
  /\ stat_retries (email_service st') = stat_retries (email_service st).

Lemma send_chunks_delivered (rule : AlertRule)
  (cs : list (list CampsiteAvailability)) :
  forall sent st,
    let out := send_chunks today now smtp_delivers rule cs sent st in
    exists k, snd (fst out) = (sent + k)%nat /\ delivered k st (snd out).
Proof.
  induction cs as [|chunk rest IH]; intros sent st; cbn [send_chunks];
    cbn zeta.
  - exists 0%nat. unfold delivered. cbn. repeat split; lia.
  - destruct chunk as [|first more]; cbn [send_availability_alert].
    + destruct (_create_notification_record today now rule None SKIPPED _)
        as [r|e] eqn:Er.
      * assert (Hs : nstatus_eqb (n_status r) SENT = false).
        { unfold _create_notification_record in Er.
          destruct (rule_parks rule); [discriminate |].
          inversion Er; subst. reflexivity. }
        rewrite Hs.
        destruct (IH sent (append_batch (with_email st (email_service st)) r))
          as (k & Hk & Hd).
        exists k. split; [exact Hk |]. exact Hd.
      * exists 0%nat. unfold delivered. cbn. repeat split; lia.
    + unfold _send_email.
      destruct (smtp_delivers _) eqn:Es; cbn [try_except
        _create_notification_record nstatus_eqb n_status].
      * match goal with
        | |- context [send_chunks _ _ _ _ rest (S sent) ?s] =>
            destruct (IH (S sent) s) as (k & Hk & Hd)
        end.
        exists (S k). split; [rewrite Hk; lia |].
        destruct Hd as (H1 & H2 & H3). unfold delivered.
        rewrite H1, H3. cbn in *. repeat split; lia.
      * match goal with
        | |- context [send_chunks _ _ _ _ rest sent ?s] =>
            destruct (IH sent s) as (k & Hk & Hd)
        end.
        exists k. split; [exact Hk |].
        destruct Hd as (H1 & H2 & H3). unfold delivered.
        rewrite H1, H3. cbn in *. repeat split; lia.
Qed.

Lemma send_parks_delivered (rule : AlertRule)
  (groups : list (ParkEnum * list CampsiteAvailability)) :
  forall sent st,
    let out := send_parks today now smtp_delivers rule groups sent st in
    exists k, snd (fst out) = (sent + k)%nat /\ delivered k st (snd out).
Proof.
  induction groups as [|[p sites] rest IH]; intros sent st; cbn [send_parks];
    cbn zeta.
  - exists 0%nat. unfold delivered. cbn. repeat split; lia.
  - destruct (send_chunks_delivered rule (chunks max_sites_per_email sites)
                sent st) as (k & Hk & Hd).
    destruct (send_chunks today now smtp_delivers rule
                (chunks max_sites_per_email sites) sent st)
      as [[[e|] n] st1]; cbn [fst snd] in *.
    + exists k. split; assumption.
    + destruct (IH n st1) as (k2 & Hk2 & Hd2).
      exists (k + k2)%nat. split; [lia |].
      destruct Hd as (A1 & A2 & A3), Hd2 as (B1 & B2 & B3).
      unfold delivered. repeat split; lia.
Qed.

Lemma send_alert_notification_delivered (rule : AlertRule)
  (sites : list CampsiteAvailability) (st : AlertProcessor) :
  let out := send_alert_notification today now smtp_delivers rule sites st in
  exists k, delivered k st (snd out) /\ (fst out = true -> (0 < k)%nat).
Proof.
  cbn zeta. unfold send_alert_notification.
  destruct (send_parks_delivered rule (group_by_park sites) 0 st)
    as (k & Hk & Hd).
  destruct (send_parks today now smtp_delivers rule (group_by_park sites) 0 st)
    as [[[e|] n] st1]; cbn [fst snd] in *.
  - exists k. split; [exact Hd | discriminate].
  - exists k. split; [exact Hd |]. intro H. apply Nat.ltb_lt in H. lia.
Qed.

Lemma rules_loop_delivered (rules : list AlertRule)
  (availability : list CampsiteAvailability) :
  forall stats st,
    let out := rules_loop today now alert_cooldown_hours smtp_delivers db
                 rules availability stats st in
    exists k,
      delivered k st (snd out)
      /\ (notifications_sent (fst out) <= notifications_sent stats + k)%nat.
Proof.
  induction rules as [|rule rules IH]; intros stats st; cbn [rules_loop];
    cbn zeta.
  - exists 0%nat. unfold delivered. cbn. repeat split; lia.
  - destruct (find_matching_availability today alert_cooldown_hours db rule
                availability) as [[|x xs]|e].
    + apply IH.
    + destruct (send_alert_notification_delivered rule (x :: xs) st)
        as (k1 & Hd1 & Hflag).
      destruct (send_alert_notification today now smtp_delivers rule
                  (x :: xs) st) as [sent st1]; cbn [fst snd] in *.
      destruct (IH (count_rule stats true sent) st1) as (k2 & Hd2 & Hn).
      exists (k1 + k2)%nat. split.
      * destruct Hd1 as (A1 & A2 & A3), Hd2 as (B1 & B2 & B3).
        unfold delivered. repeat split; lia.
      * cbn [count_rule notifications_sent] in Hn.
        destruct sent; [specialize (Hflag eq_refl) |]; lia.
    + match goal with
      | |- context [rules_loop _ _ _ _ _ rules availability ?s1 st] =>
          destruct (IH s1 st) as (k & Hd & Hn)
      end.
      exists k. split; [exact Hd | exact Hn].
Qed.

(** One call of [process_new_availability] never changes the retry counter
    of the email service and never lowers the other two; the number of
    rules it reports as notified is at most the number of emails delivered
    during the call. *)
Theorem process_new_availability_delivery_stats
  (availability : list CampsiteAvailability) (st : AlertProcessor) :
  let out := process_new_availability today now alert_cooldown_hours
               smtp_delivers db availability st in
  stat_retries (email_service (snd out)) = stat_retries (email_service st)
  /\ (stat_failed (email_service st)
      <= stat_failed (email_service (snd out)))%nat
  /\ (stat_sent (email_service st) + notifications_sent (fst out)
      <= stat_sent (email_service (snd out)))%nat.
Proof.
  cbn zeta. unfold process_new_availability.
  destruct availability as [|a availability]; [cbn; repeat split; lia |].
  destruct (get_active_alert_rules db) as [[|rule rules]|e];
    [cbn; repeat split; lia | | cbn; repeat split; lia].
  match goal with
  | |- context [rules_loop _ _ _ _ _ ?rs ?av ?stats0 st] =>
      destruct (rules_loop_delivered rs av stats0 st) as (k & Hd & Hn);
      destruct (rules_loop today now alert_cooldown_hours smtp_delivers db
                  rs av stats0 st) as [stats1 st1]
  end.
  cbn [fst snd notifications_sent] in *.
  destruct Hd as (A1 & A2 & A3).
  assert (Hes : forall s, email_service
                            (match notification_batch s with
                             | [] => s
                             | _ :: _ => _store_notification_batch db s
                             end) = email_service s).
  { intro s. destruct (notification_batch s); [reflexivity |].
    unfold _store_notification_batch.
    destruct (record_all db _); reflexivity. }
  rewrite Hes. repeat split; lia.
Qed.

End Processor.
End DeliveryProofs.

(* ------------------------------------------------------------------ *)
(** ** The schedule of the direct scraper *)
(* ------------------------------------------------------------------ *)

Module ScheduleProofs.
Import Direct.

(** The weekdays on which the sample data of a park has a record, and the
    values every record of the park carries. *)
Definition days_of (p : ParkEnum) : list Z :=
  match p with
  | CARLSBAD => [0; 1; 4]
  | JOSHUA_TREE => [2; 3; 6]
  | OCEANSIDE => [1; 5]
  end.

Definition price_of (p : ParkEnum) : Q :=
  match p with CARLSBAD => 55 | JOSHUA_TREE => 35 | OCEANSIDE => 45 end.

Definition site_type_of (p : ParkEnum) : SiteTypeEnum :=
  match p with CARLSBAD => RV | JOSHUA_TREE => TENT | OCEANSIDE => RV end.

Definition occupancy_of (p : ParkEnum) : Z :=
  match p with CARLSBAD => 6 | JOSHUA_TREE => 4 | OCEANSIDE => 5 end.

Definition sample_of (p : ParkEnum) (a : CampsiteAvailability) : Prop :=
  park a = Plain p
  /\ site_type a = Plain (site_type_of p)
  /\ price a = Some (price_of p)
  /\ max_occupancy a = Some (occupancy_of p)
  /\ status a = Plain AVAILABLE.

Lemma new_CampsiteAvailability_values (today : date) (now : Z)
  (args : kwargs) (a : CampsiteAvailability) :
  new_CampsiteAvailability today now args = Ok a ->
  coerce_park (kw "park" args) = Ok (park a)
  /\ coerce_site_type (kw "site_type" args) = Ok (site_type a)
  /\ coerce_price (kw "price" args) = Ok (price a)
  /\ coerce_max_occupancy (kw "max_occupancy" args) = Ok (max_occupancy a)
  /\ coerce_status (kw "status" args) = Ok (status a)
  /\ validate_future_date today (kw "check_in_date" args)
     = Ok (check_in_date a).
Proof.
  unfold new_CampsiteAvailability.
  repeat match goal with
         | |- context [bind ?r _] => destruct r; simpl; [| discriminate]
         end.
  intro H. inversion H; subst; simpl. repeat split.
Qed.

Section Scraper.

Variable today : date.
Variable utcnow : date -> Z.

(** The body of the loop of park [p]. *)
Definition body_of (p : ParkEnum)
  : date -> result (option CampsiteAvailability) :=
  match p with
  | CARLSBAD => carlsbad_body today utcnow p
  | JOSHUA_TREE => joshua_tree_body today utcnow p
  | OCEANSIDE => oceanside_body today utcnow p
  end.

Lemma body_of_sample (p : ParkEnum) (current : date)
  (r : option CampsiteAvailability) :
  body_of p current = Ok r ->
  match r with
  | Some a =>
      weekday_in current (days_of p) = true
      /\ check_in_date a = current /\ sample_of p a
  | None => weekday_in current (days_of p) = false
  end.
Proof.
  pose proof (QueryProofs.weekday_range current) as Hw.
  destruct p; cbn [body_of days_of];
    unfold carlsbad_body, joshua_tree_body, oceanside_body;
    (destruct (weekday_in current _) eqn:W;
       [| intro H; inversion H; reflexivity]);
    (destruct (add_days current 1) as [next|]; cbn [bind]; [| discriminate]);
    match goal with
    | |- context [new_CampsiteAvailability ?t ?n ?args] =>
        destruct (new_CampsiteAvailability t n args) as [a|] eqn:E;
        cbn [bind]; [| discriminate]
    end;
    intro H; inversion H; subst; clear H;
    apply new_CampsiteAvailability_values in E;
    destruct E as (Hp & Ht & Hpr & Ho & Hs & Hd);
    cbn in Hp, Ht, Ho, Hs, Hd;
    (split; [reflexivity |]);
    (split;
       [destruct (current <? today); [discriminate | congruence] |]);
    unfold sample_of; cbn [site_type_of price_of occupancy_of];
    (split; [congruence |]); (split; [congruence |]);
    (split; [| split; congruence]).
  - cbn [kw String.eqb Ascii.eqb Bool.eqb] in Hpr.
    cbn in Hpr. congruence.
  - unfold weekday_in in W. cbn [existsb] in W.
    assert (Hlt : (5 <=? weekday current) = false).
    { apply Z.leb_gt.
      repeat (apply orb_prop in W; destruct W as [W | W]);
        try discriminate; apply Z.eqb_eq in W; lia. }
    cbn [kw String.eqb Ascii.eqb Bool.eqb] in Hpr.
    rewrite Hlt in Hpr. cbn in Hpr. congruence.
  - cbn [kw String.eqb Ascii.eqb Bool.eqb] in Hpr.
    cbn in Hpr. congruence.
Qed.

Lemma body_of_returns (p : ParkEnum) (current : date) :
  1 <= today -> today <= current -> current < MAXORDINAL ->
  exists r, body_of p current = Ok r.
Proof.
  intros H1 H2 H3. destruct p; cbn [body_of].
  - apply DirectProofs.joshua_tree_body_returns; assumption.
  - apply DirectProofs.carlsbad_body_returns; assumption.
  - apply DirectProofs.oceanside_body_returns; assumption.
Qed.

Lemma sample_loop_schedule (p : ParkEnum) (end_ : date) :
  1 <= today -> end_ < MAXORDINAL ->
  forall (fuel : nat) (current : date) (acc : list CampsiteAvailability),
    today <= current ->
    (Z.to_nat (end_ + 1 - current) < fuel)%nat ->
    Forall (sample_of p) acc ->
    exists recs,
      sample_loop fuel (body_of p) end_ current acc = Some (Ok recs)
      /\ map check_in_date recs
         = map check_in_date acc
           ++ filter (fun d => weekday_in d (days_of p))
                     (QueryProofs.dates_from_to current end_)
      /\ Forall (sample_of p) recs.
Proof.
  intros Htoday Hend fuel.
  induction fuel as [|fuel IH]; intros current acc Hc Hf Hacc; [lia |].
  cbn [sample_loop]. unfold QueryProofs.dates_from_to.
  destruct (Z.leb_spec current end_) as [Hle | Hgt].
  - destruct (body_of_returns p current) as [r Hr]; try lia.
    rewrite Hr. pose proof (body_of_sample p current r Hr) as Hsample.
    unfold add_days.
    replace ((0 <? current + 1) && (current + 1 <=? MAXORDINAL)) with true
      by (symmetry; apply andb_true_iff; split;
          [apply Z.ltb_lt | apply Z.leb_le]; lia).
    replace (Z.to_nat (end_ + 1 - current))
      with (S (Z.to_nat (end_ + 1 - (current + 1)))) by lia.
    cbn [QueryProofs.span filter].
    destruct r as [a|].
    + destruct Hsample as (W & Hd & Ha). rewrite W.
      destruct (IH (current + 1) (acc ++ [a])) as (recs & Hrun & Hdates & Hall);
        try lia.
      { apply Forall_app. split; [exact Hacc |].
        constructor; [exact Ha | constructor]. }
      exists recs. split; [exact Hrun |]. split; [| exact Hall].
      rewrite Hdates. unfold QueryProofs.dates_from_to.
      rewrite map_app. cbn [map]. rewrite Hd, <- app_assoc. reflexivity.
    + rewrite Hsample.
      destruct (IH (current + 1) acc) as (recs & Hrun & Hdates & Hall);
        try lia; [exact Hacc |].
      exists recs. split; [exact Hrun |]. split; [| exact Hall].
      rewrite Hdates. reflexivity.
  - exists acc. split; [reflexivity |].
    replace (Z.to_nat (end_ + 1 - current)) with 0%nat by lia.
    cbn. rewrite app_nil_r. split; [reflexivity | exact Hacc].
Qed.

(** For a range that starts today or later and ends before [date.max] the
    direct scraper returns one record for each date of the range that
    falls on a weekday of the park's list (Monday, Tuesday, Friday for
    Carlsbad; Wednesday, Thursday, Sunday for Joshua Tree; Tuesday,
    Saturday for Oceanside), in ascending order of date.  Every record
    holds the park, the site type, occupancy and price of that park; the
    Carlsbad price is always 55, its weekend price 65 being reserved to
    days on which no record is made. *)
Theorem direct_scraper_schedule (p : ParkEnum) (start_ end_ : date) :
  1 <= today -> today <= start_ -> end_ < MAXORDINAL ->
  exists recs,
    scrape_park_availability today utcnow p (start_, end_) = Some (Ok recs)
    /\ map check_in_date recs
       = filter (fun d => weekday_in d (days_of p))
                (QueryProofs.dates_from_to start_ end_)
    /\ Forall (sample_of p) recs.
Proof.
  intros Htoday Hstart Hend.
  destruct (sample_loop_schedule p end_ Htoday Hend
              (S (Z.to_nat (end_ + 1 - start_))) start_ [])
    as (recs & Hrun & Hdates & Hall); try lia; [constructor |].
  exists recs. split; [| split; [exact Hdates | exact Hall]].
  unfold scrape_park_availability, scrape_park_availability_fuel.
  cbn [fst snd]. destruct p; exact Hrun.
Qed.

End Scraper.

Lemma direct_scraper_schedule_witness :
  exists recs,
    scrape_park_availability 739924 (fun _ => 0) CARLSBAD (739924, 739930)
    = Some (Ok recs)
    /\ map check_in_date recs = [739926; 739929; 739930].
Proof.
  destruct (direct_scraper_schedule 739924 (fun _ => 0) CARLSBAD
              739924 739930) as (recs & H & Hd & _).
  - lia.
  - lia.
  - unfold MAXORDINAL. lia.
  - exists recs. split; [exact H |]. rewrite Hd. vm_compute. reflexivity.
Defined.

End ScheduleProofs.
